(** * TaskyApp: task and user stores

    A shallow embedding of the persistence layer of the TaskyApp backend
    ([backend/models], [backend/db/schema.py], [backend/services] and the
    two routes of [backend/api/v1] that build the values handed to the
    services), followed by the properties of the stores.

    Conventions.
    - A Python [str] is a sequence of Unicode code points: [list N].
      Comparison of strings is lexicographic on code points, as in Python.
    - A table is the list of its rows.  An ORM object obtained from a query
      is a handle on one row: it is modelled by the position of the row
      together with its contents, and a commit after [setattr] writes the
      row back at that position.
    - A service method is a function from the database to a result and the
      database after the call.  A raised exception rolls the transaction
      back, so the tables that come with [Raise] are those the call started
      from; a key drawn from a sequence stays drawn. *)

From Stdlib Require Import ZArith NArith String Ascii DecimalString.
From stdpp Require Import base decidable option list sorting gmap.

Open Scope Z_scope.

(* ===================================================================== *)
(** ** Python values *)
(* ===================================================================== *)

Module Py.

(** [str]: code points. *)
Abbreviation str := (list N).

(** An ASCII literal as a [str]. *)
Definition lit (s : string) : str :=
  List.map N_of_ascii (list_ascii_of_string s).

(** [str.isspace] on one code point (CPython's [_PyUnicode_IsWhitespace]). *)
Definition isspace (c : N) : bool :=
  ((9 <=? c) && (c <=? 13) || (28 <=? c) && (c <=? 32)
   || (c =? 133) || (c =? 160) || (c =? 5760)
   || (8192 <=? c) && (c <=? 8202)
   || (c =? 8232) || (c =? 8233) || (c =? 8239) || (c =? 8287)
   || (c =? 12288))%N.

(** The [White_Space] property, which pydantic's [str_strip_whitespace]
    trims by: the same set without the separators U+001C..U+001F. *)
Definition is_whitespace (c : N) : bool :=
  isspace c && negb ((28 <=? c) && (c <=? 31))%N.

Fixpoint lstrip_by (ws : N -> bool) (s : str) : str :=
  match s with
  | [] => []
  | c :: s' => if ws c then lstrip_by ws s' else s
  end.

Definition strip_by (ws : N -> bool) (s : str) : str :=
  rev (lstrip_by ws (rev (lstrip_by ws s))).

(** [s.strip()] *)
Definition strip (s : str) : str := strip_by isspace s.

(** What [str_strip_whitespace=True] does to a string before the field
    validators run. *)
Definition str_strip_whitespace (s : str) : str := strip_by is_whitespace s.

(** Truthiness of a string: [not v] is [True] exactly on the empty string. *)
Definition truthy (s : str) : bool :=
  match s with [] => false | _ => true end.

(** [a <= b] on strings. *)
Fixpoint str_leb (a b : str) : bool :=
  match a, b with
  | [], _ => true
  | _ :: _, [] => false
  | x :: a', y :: b' =>
      if (x <? y)%N then true
      else if (x =? y)%N then str_leb a' b'
      else false
  end.

Definition str_le (a b : str) : Prop := str_leb a b = true.

#[global] Instance str_le_dec : RelDecision str_le.
Proof. intros a b. unfold str_le. apply _. Defined.

(** [sorted(xs)] for a collection of strings.  Python's sort is a stable
    merge sort; on a total order the sorted arrangement of pairwise
    distinct keys is unique, and stability is all that distinguishes
    equal ones, which for strings are indistinguishable. *)
Definition sorted (l : list str) : list str := merge_sort str_le l.

(** [set(xs)] *)
Definition set {A : Type} `{Countable A} (l : list A) : gset A := list_to_set l.

End Py.

Abbreviation str := (list N).

(** [datetime]: seconds since the epoch. *)
Abbreviation datetime := Z (only parsing).

(** JSON values, for the free-form [parameters] column (numbers: the
    integers). *)
#[warnings="-register-all"]
Inductive json :=
| JNull
| JBool (b : bool)
| JNum (n : Z)
| JStr (s : str)
| JArr (l : list json)
| JObj (l : list (str * json)).

(** [Dict[str, Any]] *)
Abbreviation dict := (list (str * json)).

(** Exceptions that cross the service boundary.  [CategoryException] and
    [TagException] carry the message they are built with (they are never
    built with a name here); [IntegrityError] carries the name of the
    constraint that failed. *)
Inductive exn :=
| ValidationError (msg : string)
| CategoryException (msg : string)
| TagException (msg : string)
| IntegrityError (constraint : string)
| HTTPException (status_code : Z) (detail : string).

(** [str(e)] *)
Definition message (e : exn) : string :=
  match e with
  | ValidationError msg => msg
  | CategoryException msg => ("CategoryException: " ++ msg)%string
  | TagException msg => ("TagException: " ++ msg)%string
  | IntegrityError constraint => constraint
  | HTTPException status_code detail =>
      (NilZero.string_of_int (Z.to_int status_code) ++ ": " ++ detail)%string
  end.

Inductive result (A : Type) :=
| Return (a : A)
| Raise (e : exn).
Arguments Return {A} a.
Arguments Raise {A} e.

(** [[f(x) for x in xs]] where [f] may raise: the first exception wins. *)
Fixpoint traverse {A B : Type} (f : A -> result B) (l : list A) : result (list B) :=
  match l with
  | [] => Return []
  | x :: l' =>
      match f x with
      | Raise e => Raise e
      | Return y =>
          match traverse f l' with
          | Raise e => Raise e
          | Return ys => Return (y :: ys)
          end
      end
  end.

(* ===================================================================== *)
(** ** backend/models/user.py *)
(* ===================================================================== *)

Module Category.

Record t := { name : str; color : str }.

(** [validate_category_name] *)
Definition validate_category_name (v : str) : result str :=
  if negb (Py.truthy v) || negb (Py.truthy (Py.strip v))
  then Raise (CategoryException "Category name cannot be empty")
  else Return (Py.strip v).

(** [Category(name=..., color=...)]; the same constructor serves when the
    arguments are unpacked from a dictionary with the two keys. *)
Definition new (name color : str) : result t :=
  match validate_category_name name with
  | Raise e => Raise e
  | Return n => Return {| name := n; color := color |}
  end.

(** [model_dump()] yields the dictionary with the keys [name] and [color];
    the record stands for that dictionary as well. *)
Definition model_dump (c : t) : t := c.

End Category.

Module Tag.

Record t := { name : str; color : str }.

(** [validate_tag_name] *)
Definition validate_tag_name (v : str) : result str :=
  if negb (Py.truthy v) || negb (Py.truthy (Py.strip v))
  then Raise (TagException "Tag name cannot be empty")
  else Return (Py.strip v).

Definition new (name color : str) : result t :=
  match validate_tag_name name with
  | Raise e => Raise e
  | Return n => Return {| name := n; color := color |}
  end.

Definition model_dump (c : t) : t := c.

End Tag.

Module UserCreate.

Record t := {
  username : str;
  email : option str;
  password : str;
  full_name : option str;
  categories : option (list Category.t);
  tags : option (list Tag.t)
}.

(** The class-level default of [categories]:
    [[Category(name="General", color="#5dafb0")]]. *)
Definition default_categories : option (list Category.t) :=
  match Category.new (Py.lit "General") (Py.lit "#5dafb0") with
  | Return c => Some [c]
  | Raise _ => None
  end.

Definition default_tags : option (list Tag.t) := None.

(** [validate_categories]: [len(names) != len(set(names))]. *)
Definition validate_categories (categories : option (list Category.t))
  : result (option (list Category.t)) :=
  match categories with
  | None => Return None
  | Some cs =>
      let names := Category.name <$> cs in
      if decide (length names = size (Py.set names))
      then Return categories
      else Raise (CategoryException "Duplicate category names are not allowed")
  end.

(** [validate_tags] *)
Definition validate_tags (tags : option (list Tag.t)) : result (option (list Tag.t)) :=
  match tags with
  | None => Return None
  | Some ts =>
      let names := Tag.name <$> ts in
      if decide (length names = size (Py.set names))
      then Return tags
      else Raise (TagException "Duplicate tag names are not allowed")
  end.

(** [UserCreate(username=..., email=..., password=..., full_name=...,
    categories=..., tags=...)].  For [categories] and [tags] the outer
    [None] says that the keyword was not given: the default is taken, and
    a default is not validated ([validate_default] is not set on this
    model). *)
Definition new (username : str) (email : option str) (password : str)
    (full_name : option str)
    (categories : option (option (list Category.t)))
    (tags : option (option (list Tag.t))) : result t :=
  match match categories with
        | None => Return default_categories
        | Some cs => validate_categories cs
        end with
  | Raise e => Raise e
  | Return cs =>
      match match tags with
            | None => Return default_tags
            | Some ts => validate_tags ts
            end with
      | Raise e => Raise e
      | Return ts =>
          Return {| username := username; email := email; password := password;
                    full_name := full_name; categories := cs; tags := ts |}
      end
  end.

End UserCreate.

(* ===================================================================== *)
(** ** backend/models/task.py *)
(* ===================================================================== *)

Module TaskCreate.

(** The keyword arguments of [TaskCreate(...)] (or the JSON body of
    [POST /tasks]) once pydantic has checked their types.  [owner_id] and
    [name] are required; on the other fields [None] says that the field
    was not given (for [tags], also that it was given as [null]). *)
Record draft := {
  d_owner_id : Z;
  d_name : str;
  d_description : option str;
  d_category : option str;
  d_dueDate : option datetime;
  d_parameters : option dict;
  d_completed : option bool;
  d_tags : option (list str);
  d_priority : option Z
}.

(** A validated instance.  [tags] is declared [Optional[list[str]]], but
    [validate_tags] replaces [None] by the empty list, at construction
    (the default is validated) and on assignment, so that an instance
    always holds a list. *)
Record t := {
  owner_id : Z;
  name : str;
  description : str;
  category : str;
  dueDate : option datetime;
  parameters : dict;
  completed : bool;
  tags : list str;
  priority : Z
}.

(** [validate_name], on a value that [str_strip_whitespace] has trimmed. *)
Definition validate_name (v : str) : result str :=
  if negb (Py.truthy v) || negb (Py.truthy (Py.strip v))
  then Raise (ValidationError "Task name cannot be empty")
  else Return (Py.strip v).

(** [validate_owner_id] *)
Definition validate_owner_id (v : Z) : result Z :=
  if v <=? 0
  then Raise (ValidationError "Owner ID must be a positive integer")
  else Return v.

(** [validate_description] *)
Definition validate_description (v : str) : str :=
  if Py.truthy v then Py.strip v else [].

(** [validate_category] *)
Definition validate_category (v : str) : str :=
  if Py.truthy v then Py.strip v else Py.lit "General".

(** [validate_tags]: the elements are strings already, so the loop leaves
    them as they are. *)
Definition validate_tags (v : option (list str)) : list str :=
  match v with
  | None => []
  | Some l => l
  end.

(** [validate_priority] *)
Definition validate_priority (v : Z) : result Z :=
  if (v <? 0) || (v >? 3)
  then Raise (ValidationError "A tasks priority must be in the interval [0,3]")
  else Return v.

(** The constructor of [TaskCreate]: defaults for the fields that are absent, the
    trimming of [str_strip_whitespace] on every string, then the field
    validators (on the defaults too: [validate_default=True]). *)
Definition new (d : draft) : result t :=
  match validate_owner_id (d_owner_id d) with
  | Raise e => Raise e
  | Return o =>
      match validate_name (Py.str_strip_whitespace (d_name d)) with
      | Raise e => Raise e
      | Return n =>
          match validate_priority (default 0 (d_priority d)) with
          | Raise e => Raise e
          | Return p =>
              Return
                {| owner_id := o;
                   name := n;
                   description :=
                     validate_description
                       (Py.str_strip_whitespace (default [] (d_description d)));
                   category :=
                     validate_category
                       (Py.str_strip_whitespace
                          (default (Py.lit "General") (d_category d)));
                   dueDate := d_dueDate d;
                   parameters := default [] (d_parameters d);
                   completed := default false (d_completed d);
                   tags :=
                     validate_tags
                       (fmap (M := list) Py.str_strip_whitespace <$> d_tags d);
                   priority := p |}
          end
      end
  end.

End TaskCreate.

Module TaskUpdate.

(** The JSON body of [PUT /tasks/{task_id}] once pydantic has checked the
    types: every field may be absent. *)
Record body := {
  b_name : option str;
  b_description : option str;
  b_category : option str;
  b_dueDate : option datetime;
  b_parameters : option dict;
  b_completed : option bool;
  b_tags : option (list str);
  b_priority : option Z
}.

(** A validated instance: every field is [Optional] with default [None],
    except [priority], which is declared [priority: int = 0]. *)
Record t := {
  name : option str;
  description : option str;
  category : option str;
  dueDate : option datetime;
  parameters : option dict;
  completed : option bool;
  tags : option (list str);
  priority : Z
}.

(** [validate_name] *)
Definition validate_name (v : option str) : result (option str) :=
  match v with
  | None => Return None
  | Some s =>
      if negb (Py.truthy s) || negb (Py.truthy (Py.strip s))
      then Raise (ValidationError "Task name cannot be empty")
      else Return (Some (Py.strip s))
  end.

(** [validate_description] and [validate_category]:
    [v.strip() if v else None]. *)
Definition validate_description (v : option str) : option str :=
  match v with
  | None => None
  | Some s => if Py.truthy s then Some (Py.strip s) else None
  end.

Definition validate_category (v : option str) : option str :=
  match v with
  | None => None
  | Some s => if Py.truthy s then Some (Py.strip s) else None
  end.

(** [validate_tags] *)
Definition validate_tags (v : option (list str)) : option (list str) := v.

(** [validate_priority] *)
Definition validate_priority (v : Z) : result Z :=
  if (v <? 0) || (v >? 3)
  then Raise (ValidationError "A tasks priority must be in the interval [0,3]")
  else Return v.

(** The constructor of [TaskUpdate]. *)
Definition new (b : body) : result t :=
  match validate_name (Py.str_strip_whitespace <$> b_name b) with
  | Raise e => Raise e
  | Return n =>
      match validate_priority (default 0 (b_priority b)) with
      | Raise e => Raise e
      | Return p =>
          Return
            {| name := n;
               description :=
                 validate_description (Py.str_strip_whitespace <$> b_description b);
               category :=
                 validate_category (Py.str_strip_whitespace <$> b_category b);
               dueDate := b_dueDate b;
               parameters := b_parameters b;
               completed := b_completed b;
               tags :=
                 validate_tags
                   (fmap (M := list) Py.str_strip_whitespace <$> b_tags b);
               priority := p |}
      end
  end.

End TaskUpdate.

(* ===================================================================== *)
(** ** backend/db/schema.py *)
(* ===================================================================== *)

Module User.

(** A row of [users].  [categories] and [tags] are the JSON columns: lists
    of dictionaries with the keys [name] and [color]. *)
Record t := {
  id : Z;
  username : str;
  email : str;
  hashed_password : str;
  full_name : str;
  disabled : bool;
  categories : list Category.t;
  tags : list Tag.t
}.

Definition set_username (v : str) (u : t) : t :=
  {| id := id u; username := v; email := email u;
     hashed_password := hashed_password u; full_name := full_name u;
     disabled := disabled u; categories := categories u; tags := tags u |}.

Definition set_email (v : str) (u : t) : t :=
  {| id := id u; username := username u; email := v;
     hashed_password := hashed_password u; full_name := full_name u;
     disabled := disabled u; categories := categories u; tags := tags u |}.

Definition set_hashed_password (v : str) (u : t) : t :=
  {| id := id u; username := username u; email := email u;
     hashed_password := v; full_name := full_name u;
     disabled := disabled u; categories := categories u; tags := tags u |}.

Definition set_full_name (v : str) (u : t) : t :=
  {| id := id u; username := username u; email := email u;
     hashed_password := hashed_password u; full_name := v;
     disabled := disabled u; categories := categories u; tags := tags u |}.

Definition set_disabled (v : bool) (u : t) : t :=
  {| id := id u; username := username u; email := email u;
     hashed_password := hashed_password u; full_name := full_name u;
     disabled := v; categories := categories u; tags := tags u |}.

Definition set_categories (v : list Category.t) (u : t) : t :=
  {| id := id u; username := username u; email := email u;
     hashed_password := hashed_password u; full_name := full_name u;
     disabled := disabled u; categories := v; tags := tags u |}.

Definition set_tags (v : list Tag.t) (u : t) : t :=
  {| id := id u; username := username u; email := email u;
     hashed_password := hashed_password u; full_name := full_name u;
     disabled := disabled u; categories := categories u; tags := v |}.

End User.

Module Task.

(** A row of [tasks]. *)
Record t := {
  id : Z;
  owner_id : Z;
  name : str;
  description : str;
  category : str;
  dueDate : option datetime;
  parameters : dict;
  completed : bool;
  tags : list str;
  priority : Z
}.

Definition set_id (v : Z) (x : t) : t :=
  {| id := v; owner_id := owner_id x; name := name x; description := description x;
     category := category x; dueDate := dueDate x; parameters := parameters x;
     completed := completed x; tags := tags x; priority := priority x |}.

Definition set_owner_id (v : Z) (x : t) : t :=
  {| id := id x; owner_id := v; name := name x; description := description x;
     category := category x; dueDate := dueDate x; parameters := parameters x;
     completed := completed x; tags := tags x; priority := priority x |}.

Definition set_name (v : str) (x : t) : t :=
  {| id := id x; owner_id := owner_id x; name := v; description := description x;
     category := category x; dueDate := dueDate x; parameters := parameters x;
     completed := completed x; tags := tags x; priority := priority x |}.

Definition set_description (v : str) (x : t) : t :=
  {| id := id x; owner_id := owner_id x; name := name x; description := v;
     category := category x; dueDate := dueDate x; parameters := parameters x;
     completed := completed x; tags := tags x; priority := priority x |}.

Definition set_category (v : str) (x : t) : t :=
  {| id := id x; owner_id := owner_id x; name := name x; description := description x;
     category := v; dueDate := dueDate x; parameters := parameters x;
     completed := completed x; tags := tags x; priority := priority x |}.

Definition set_dueDate (v : option datetime) (x : t) : t :=
  {| id := id x; owner_id := owner_id x; name := name x; description := description x;
     category := category x; dueDate := v; parameters := parameters x;
     completed := completed x; tags := tags x; priority := priority x |}.

Definition set_parameters (v : dict) (x : t) : t :=
  {| id := id x; owner_id := owner_id x; name := name x; description := description x;
     category := category x; dueDate := dueDate x; parameters := v;
     completed := completed x; tags := tags x; priority := priority x |}.

Definition set_completed (v : bool) (x : t) : t :=
  {| id := id x; owner_id := owner_id x; name := name x; description := description x;
     category := category x; dueDate := dueDate x; parameters := parameters x;
     completed := v; tags := tags x; priority := priority x |}.

Definition set_tags (v : list str) (x : t) : t :=
  {| id := id x; owner_id := owner_id x; name := name x; description := description x;
     category := category x; dueDate := dueDate x; parameters := parameters x;
     completed := completed x; tags := v; priority := priority x |}.

Definition set_priority (v : Z) (x : t) : t :=
  {| id := id x; owner_id := owner_id x; name := name x; description := description x;
     category := category x; dueDate := dueDate x; parameters := parameters x;
     completed := completed x; tags := tags x; priority := v |}.

End Task.

Module Db.

(** The database: the two tables, the sequences behind the two
    [autoincrement] primary keys (the last value each has handed out), and
    the number of transactions committed so far. *)
Record t := {
  users : list User.t;
  tasks : list Task.t;
  users_id_seq : Z;
  tasks_id_seq : Z;
  commits : nat
}.

Definition empty : t :=
  {| users := []; tasks := []; users_id_seq := 0; tasks_id_seq := 0; commits := 0 |}.

(** A committed write to [tasks]. *)
Definition commit_tasks (rows : list Task.t) (db : t) : t :=
  {| users := users db; tasks := rows; users_id_seq := users_id_seq db;
     tasks_id_seq := tasks_id_seq db; commits := S (commits db) |}.

(** A committed write to [users]. *)
Definition commit_users (rows : list User.t) (db : t) : t :=
  {| users := rows; tasks := tasks db; users_id_seq := users_id_seq db;
     tasks_id_seq := tasks_id_seq db; commits := S (commits db) |}.

(** [nextval] on the sequence of [tasks.id].  A sequence is not
    transactional: a value drawn by an insert that is rolled back stays
    drawn. *)
Definition nextval_tasks (db : t) : Z * t :=
  let v := tasks_id_seq db + 1 in
  (v, {| users := users db; tasks := tasks db; users_id_seq := users_id_seq db;
         tasks_id_seq := v; commits := commits db |}).

(** [nextval] on the sequence of [users.id]. *)
Definition nextval_users (db : t) : Z * t :=
  let v := users_id_seq db + 1 in
  (v, {| users := users db; tasks := tasks db; users_id_seq := v;
         tasks_id_seq := tasks_id_seq db; commits := commits db |}).

(** [query(...).filter(...).first()]: the first row that satisfies the
    filter, with its position. *)
Definition first {A : Type} (P : A -> Prop) `{!forall x, Decision (P x)}
    (rows : list A) : option (nat * A) :=
  list_find P rows.

(** The constraints of the schema.  Primary keys are unique; [username]
    is declared [unique=True]; [tasks.owner_id] is a foreign key to
    [users.id]. *)
Definition pk_users (db : t) : Prop := NoDup (User.id <$> users db).
Definition pk_tasks (db : t) : Prop := NoDup (Task.id <$> tasks db).
Definition unique_username (db : t) : Prop := NoDup (User.username <$> users db).
Definition fk_owner (db : t) : Prop :=
  Forall (fun x => Task.owner_id x ∈ (User.id <$> users db)) (tasks db).

(** The sequences are ahead of every key in their table, which holds as
    long as rows get their key from the sequence: no service sets the id
    of a user, and [update_task] sets the id of a task only when its
    dictionary has the key [id]. *)
Definition seq_users (db : t) : Prop :=
  Forall (fun u => User.id u <= users_id_seq db) (users db).
Definition seq_tasks (db : t) : Prop :=
  Forall (fun x => Task.id x <= tasks_id_seq db) (tasks db).

Record wf (db : t) : Prop := {
  wf_pk_users : pk_users db;
  wf_pk_tasks : pk_tasks db;
  wf_unique_username : unique_username db;
  wf_fk_owner : fk_owner db;
  wf_seq_users : seq_users db;
  wf_seq_tasks : seq_tasks db
}.

End Db.

(* ===================================================================== *)
(** ** backend/services/task_service.py: [TaskService] *)
(* ===================================================================== *)

(** Values that an attribute of a row can hold. *)
Inductive value :=
| V_int (z : Z)
| V_str (s : str)
| V_bool (b : bool)
| V_datetime (d : option datetime)
| V_dict (d : dict)
| V_strs (l : list str)
| V_json (j : json).

Module TaskData.

(** An entry of the dictionary [task_data] handed to [update_task]: a key
    and the value under it.  There is one constructor for each column of
    a task row, [id] and [owner_id] included, with a value of the type of
    the column; [I_other] is an entry under a key for which
    [hasattr(task, key)] answers [False]. *)
Inductive item :=
| I_id (v : Z)
| I_owner_id (v : Z)
| I_name (v : str)
| I_description (v : str)
| I_category (v : str)
| I_dueDate (v : datetime)
| I_parameters (v : dict)
| I_completed (v : bool)
| I_tags (v : list str)
| I_priority (v : Z)
| I_other (key : string) (v : json).

Definition key (it : item) : string :=
  match it with
  | I_id _ => "id"
  | I_owner_id _ => "owner_id"
  | I_name _ => "name"
  | I_description _ => "description"
  | I_category _ => "category"
  | I_dueDate _ => "dueDate"
  | I_parameters _ => "parameters"
  | I_completed _ => "completed"
  | I_tags _ => "tags"
  | I_priority _ => "priority"
  | I_other k _ => k
  end.

Definition val (it : item) : value :=
  match it with
  | I_id v => V_int v
  | I_owner_id v => V_int v
  | I_name v => V_str v
  | I_description v => V_str v
  | I_category v => V_str v
  | I_dueDate v => V_datetime (Some v)
  | I_parameters v => V_dict v
  | I_completed v => V_bool v
  | I_tags v => V_strs v
  | I_priority v => V_int v
  | I_other _ v => V_json v
  end.

(** A dictionary: its items in insertion order, no key twice. *)
Definition is_dict (items : list item) : Prop := NoDup (key <$> items).

(** The columns of a task row. *)
Definition columns : list string :=
  ["id"; "owner_id"; "name"; "description"; "category"; "dueDate"; "parameters";
   "completed"; "tags"; "priority"]%string.

(** The lists of items that stand for a dictionary of the program: an
    entry under the name of a column is given by the constructor of that
    column, never by [I_other]. *)
Definition well_keyed (items : list item) : Prop :=
  Forall (fun it => match it with I_other k _ => k ∉ columns | _ => True end) items.

End TaskData.

Module TaskService.

Import TaskData.

(** [getattr(task, field)] on the columns of a task row. *)
Definition getattr (x : Task.t) (field : string) : option value :=
  if decide (field = "id"%string) then Some (V_int (Task.id x))
  else if decide (field = "owner_id"%string) then Some (V_int (Task.owner_id x))
  else if decide (field = "name"%string) then Some (V_str (Task.name x))
  else if decide (field = "description"%string) then Some (V_str (Task.description x))
  else if decide (field = "category"%string) then Some (V_str (Task.category x))
  else if decide (field = "dueDate"%string) then Some (V_datetime (Task.dueDate x))
  else if decide (field = "parameters"%string) then Some (V_dict (Task.parameters x))
  else if decide (field = "completed"%string) then Some (V_bool (Task.completed x))
  else if decide (field = "tags"%string) then Some (V_strs (Task.tags x))
  else if decide (field = "priority"%string) then Some (V_int (Task.priority x))
  else None.

(** [hasattr(task, field)] for the key of an item. *)
Definition hasattr (it : item) : bool :=
  match it with
  | I_other _ _ => false
  | _ => true
  end.

(** [setattr(task, field, value)] *)
Definition setattr (x : Task.t) (it : item) : Task.t :=
  match it with
  | I_id v => Task.set_id v x
  | I_owner_id v => Task.set_owner_id v x
  | I_name v => Task.set_name v x
  | I_description v => Task.set_description v x
  | I_category v => Task.set_category v x
  | I_dueDate v => Task.set_dueDate (Some v) x
  | I_parameters v => Task.set_parameters v x
  | I_completed v => Task.set_completed v x
  | I_tags v => Task.set_tags v x
  | I_priority v => Task.set_priority v x
  | I_other _ _ => x
  end.

(** The filter [Task.id == task_id, Task.owner_id == owner_id]. *)
Definition scoped (owner_id task_id : Z) (x : Task.t) : Prop :=
  Task.id x = task_id /\ Task.owner_id x = owner_id.

#[global] Instance scoped_dec owner_id task_id x : Decision (scoped owner_id task_id x).
Proof. unfold scoped. apply _. Defined.

(** [admin_list_tasks] *)
Definition admin_list_tasks (db : Db.t) : list Task.t := Db.tasks db.

(** [admin_get_task] *)
Definition admin_get_task (db : Db.t) (task_id : Z) : option Task.t :=
  snd <$> Db.first (fun x => Task.id x = task_id) (Db.tasks db).

(** [list_tasks] *)
Definition list_tasks (db : Db.t) (owner_id : Z) : list Task.t :=
  if decide (owner_id <> 0)
  then filter (fun x => Task.owner_id x = owner_id) (Db.tasks db)
  else [].

(** [get_task] *)
Definition get_task (db : Db.t) (owner_id task_id : Z) : option Task.t :=
  snd <$> Db.first (scoped owner_id task_id) (Db.tasks db).

(** [create_task].  The insert draws the key from the sequence; it fails
    on the primary key when a row has that key already, and on the foreign
    key when the owner is not a row of [users]. *)
Definition create_task (db : Db.t) (task_data : TaskCreate.t) : result Task.t * Db.t :=
  let '(new_id, db1) := Db.nextval_tasks db in
  let task :=
    {| Task.id := new_id;
       Task.owner_id := TaskCreate.owner_id task_data;
       Task.name := TaskCreate.name task_data;
       Task.description := TaskCreate.description task_data;
       Task.category := TaskCreate.category task_data;
       Task.dueDate := TaskCreate.dueDate task_data;
       Task.parameters := TaskCreate.parameters task_data;
       Task.completed := TaskCreate.completed task_data;
       Task.tags := TaskCreate.tags task_data;
       Task.priority := TaskCreate.priority task_data |} in
  if decide (Task.id task ∈ (Task.id <$> Db.tasks db))
  then (Raise (IntegrityError "tasks_pkey"), db1)
  else if decide (Task.owner_id task ∈ (User.id <$> Db.users db))
  then (Return task, Db.commit_tasks (Db.tasks db1 ++ [task]) db1)
  else (Raise (IntegrityError "tasks_owner_id_fkey"), db1).

(** The loop of [update_task] over [task_data.items()]. *)
Definition update_fields (task : Task.t) (task_data : list item) : Task.t :=
  foldl (fun x it => if hasattr it then setattr x it else x) task task_data.

(** [update_task].  The [UPDATE] fails on the primary key when the loop
    has given the row the id of another row, and on the foreign key when
    it has given it an owner that is not a row of [users]; the exception
    rolls back and is raised again. *)
Definition update_task (db : Db.t) (owner_id task_id : Z) (task_data : list item)
  : result (option Task.t) * Db.t :=
  match Db.first (scoped owner_id task_id) (Db.tasks db) with
  | None => (Return None, db)
  | Some (i, task) =>
      let task' := update_fields task task_data in
      if decide (Task.id task' <> Task.id task
                 /\ Task.id task' ∈ (Task.id <$> Db.tasks db))
      then (Raise (IntegrityError "tasks_pkey"), db)
      else if decide (Task.owner_id task' <> Task.owner_id task
                      /\ Task.owner_id task' ∉ (User.id <$> Db.users db))
      then (Raise (IntegrityError "tasks_owner_id_fkey"), db)
      else (Return (Some task'), Db.commit_tasks (<[i := task']> (Db.tasks db)) db)
  end.

(** [remove_task] *)
Definition remove_task (db : Db.t) (owner_id task_id : Z) : bool * Db.t :=
  match Db.first (scoped owner_id task_id) (Db.tasks db) with
  | None => (false, db)
  | Some (i, _) => (true, Db.commit_tasks (delete i (Db.tasks db)) db)
  end.

(** [SELECT DISTINCT ON (category)]: one row for each category, here the
    first one in table order. *)
Fixpoint distinct_on_category (seen : list str) (rows : list Task.t) : list Task.t :=
  match rows with
  | [] => []
  | x :: rows' =>
      if decide (Task.category x ∈ seen)
      then distinct_on_category seen rows'
      else x :: distinct_on_category (Task.category x :: seen) rows'
  end.

(** [get_categories] *)
Definition get_categories (db : Db.t) (owner_id : Z) : list str :=
  let query :=
    distinct_on_category []
      (filter (fun x => Task.owner_id x = owner_id) (Db.tasks db)) in
  let categories := Py.set (Task.category <$> query) in
  Py.sorted (elements categories).

(** [mark_task_complete] *)
Definition mark_task_complete (db : Db.t) (owner_id task_id : Z) : bool * Db.t :=
  match Db.first (scoped owner_id task_id) (Db.tasks db) with
  | None => (false, db)
  | Some (i, task) =>
      if Task.completed task then (true, db)
      else
        let task' := Task.set_completed true task in
        (true, Db.commit_tasks (<[i := task']> (Db.tasks db)) db)
  end.

End TaskService.

(* ===================================================================== *)
(** ** backend/services/task_service.py: [TaskServiceJson] *)
(* ===================================================================== *)

Module JsonTask.

(** An object of the JSON file.  [dict.get(key)] answers [None] for a key
    that is absent and for one that holds [null] alike, so each of the keys
    the service reads that way is an [option].  [category] is read by
    [get('category', 'General')], which tells the two apart: it is [None]
    for an absent key, [Some None] for a key that holds [null] and
    [Some (Some s)] for a key that holds the string [s]; as in the files
    that the service writes, an id is an integer and a label a string.
    [fields] holds the other keys. *)
Record t := {
  id : option Z;
  task_id : option Z;
  owner_id : option Z;
  category : option (option str);
  fields : dict
}.

End JsonTask.

Module TaskServiceJson.

(** [get_task].  The row found stands for the [TaskRead] built from it. *)
Definition get_task (tasks : list JsonTask.t) (owner_id task_id : Z)
  : option JsonTask.t :=
  snd <$> list_find
            (fun task => JsonTask.id task = Some task_id
                         /\ JsonTask.owner_id task = Some owner_id)
            tasks.

(** The local function [matches] of [remove_task]. *)
Definition matches (owner_id task_id : Z) (rem_t : JsonTask.t) : Prop :=
  let stored_id :=
    match JsonTask.id rem_t with
    | Some i => Some i
    | None => JsonTask.task_id rem_t
    end in
  stored_id = Some task_id /\ JsonTask.owner_id rem_t = Some owner_id.

#[global] Instance matches_dec owner_id task_id rem_t :
  Decision (matches owner_id task_id rem_t).
Proof. unfold matches. apply _. Defined.

(** [remove_task]: the answer and the contents of the file afterwards. *)
Definition remove_task (tasks : list JsonTask.t) (owner_id task_id : Z)
  : bool * list JsonTask.t :=
  let new_tasks := filter (fun t => ~ matches owner_id task_id t) tasks in
  if decide (length new_tasks = length tasks)
  then (false, tasks)
  else (true, new_tasks).

Section get_categories.

(** [list(s)] for a set [s]: its members in the iteration order of the
    set, which Python leaves unspecified (for strings it varies with the
    hash seed of the process).  A member is a string or [None]. *)
Variable list_of_set : gset (option str) -> list (option str).

(** [get_categories].  [t.get('category', 'General')] is the value under
    the key, [None] when that value is [null], and "General" only when the
    key is absent. *)
Definition get_categories (tasks : list JsonTask.t) (owner_id : Z)
  : list (option str) :=
  let tasks :=
    if decide (owner_id <> 0)
    then filter (fun t => JsonTask.owner_id t = Some owner_id) tasks
    else tasks in
  let categories :=
    Py.set ((fun t => default (Some (Py.lit "General")) (JsonTask.category t))
              <$> tasks) in
  list_of_set categories.

End get_categories.

(** What is known of an iteration order: every member once. *)
Definition iteration_order (list_of_set : gset (option str) -> list (option str))
  : Prop :=
  forall s, list_of_set s ≡ₚ elements s.

End TaskServiceJson.

(* ===================================================================== *)
(** ** backend/services/user_service.py: [UserService] *)
(* ===================================================================== *)

Module UserData.

(** An entry of the dictionary [user_data] handed to [update_user].
    [I_other] is an entry under a key that names no attribute of a user
    row.  The values are not [None]: the route drops such entries. *)
Inductive item :=
| I_id (v : Z)
| I_username (v : str)
| I_email (v : str)
| I_hashed_password (v : str)
| I_full_name (v : str)
| I_disabled (v : bool)
| I_categories (v : list Category.t)
| I_tags (v : list Tag.t)
| I_other (key : string) (v : json).

Definition key (it : item) : string :=
  match it with
  | I_id _ => "id"
  | I_username _ => "username"
  | I_email _ => "email"
  | I_hashed_password _ => "hashed_password"
  | I_full_name _ => "full_name"
  | I_disabled _ => "disabled"
  | I_categories _ => "categories"
  | I_tags _ => "tags"
  | I_other k _ => k
  end.

Definition is_dict (items : list item) : Prop := NoDup (key <$> items).

(** What it is for a user row to hold the value of an item: the attribute
    under the key of the item is the value of the item, for the two lists
    after each element has gone through its constructor.  Nothing is asked
    for the key [id], which [update_user] skips, nor for a key that names
    no attribute. *)
Definition applied (it : item) (u : User.t) : Prop :=
  match it with
  | I_id _ => True
  | I_username v => User.username u = v
  | I_email v => User.email u = v
  | I_hashed_password v => User.hashed_password u = v
  | I_full_name v => User.full_name u = v
  | I_disabled v => User.disabled u = v
  | I_categories v =>
      traverse (fun cat => Category.new (Category.name cat) (Category.color cat)) v
      = Return (User.categories u)
  | I_tags v =>
      traverse (fun tag => Tag.new (Tag.name tag) (Tag.color tag)) v
      = Return (User.tags u)
  | I_other _ _ => True
  end.

(** The items that no constructor and no constraint can object to: lists
    whose names are not blank, and a user name that is the user's own or
    is free. *)
Definition acceptable (db_usernames : list str) (own : str) (it : item) : Prop :=
  match it with
  | I_username v => v = own \/ v ∉ db_usernames
  | I_categories v => Forall (fun cat => Py.strip (Category.name cat) <> []) v
  | I_tags v => Forall (fun tag => Py.strip (Tag.name tag) <> []) v
  | _ => True
  end.

End UserData.

Module UserService.

Import UserData.

(** [list_users] *)
Definition list_users (db : Db.t) : list User.t := Db.users db.

(** [get_user] *)
Definition get_user (db : Db.t) (user_id : Z) : option User.t :=
  snd <$> Db.first (fun u => User.id u = user_id) (Db.users db).

(** [get_user_by_username] *)
Definition get_user_by_username (db : Db.t) (username : str) : option User.t :=
  snd <$> Db.first (fun u => User.username u = username) (Db.users db).

(** [create_user].  The insert draws the key from the sequence; the commit
    fails on the unique index when the user name is taken. *)
Definition create_user (db : Db.t) (user_create : UserCreate.t) : result User.t * Db.t :=
  let categories_dict :=
    Category.model_dump <$> default [] (UserCreate.categories user_create) in
  let tags_dict := Tag.model_dump <$> default [] (UserCreate.tags user_create) in
  let '(new_id, db1) := Db.nextval_users db in
  let user :=
    {| User.id := new_id;
       User.username := UserCreate.username user_create;
       User.email := default [] (UserCreate.email user_create);
       User.hashed_password := UserCreate.password user_create;
       User.full_name := default [] (UserCreate.full_name user_create);
       User.disabled := false;
       User.categories := categories_dict;
       User.tags := tags_dict |} in
  if decide (User.username user ∈ (User.username <$> Db.users db))
  then (Raise (IntegrityError "ix_users_username"), db1)
  else (Return user, Db.commit_users (Db.users db1 ++ [user]) db1).

(** [hasattr(user, field)] for the key of an item. *)
Definition hasattr (it : item) : bool :=
  match it with
  | I_other _ _ => false
  | _ => true
  end.

(** One turn of the loop of [update_user]. *)
Definition update_field (user : User.t) (it : item) : result User.t :=
  if hasattr it && bool_decide (key it <> "id"%string) then
    match it with
    | I_categories value =>
        match traverse (fun cat => Category.new (Category.name cat) (Category.color cat))
                value with
        | Raise e => Raise e
        | Return cats => Return (User.set_categories (Category.model_dump <$> cats) user)
        end
    | I_tags value =>
        match traverse (fun tag => Tag.new (Tag.name tag) (Tag.color tag)) value with
        | Raise e => Raise e
        | Return tags => Return (User.set_tags (Tag.model_dump <$> tags) user)
        end
    | I_username value => Return (User.set_username value user)
    | I_email value => Return (User.set_email value user)
    | I_hashed_password value => Return (User.set_hashed_password value user)
    | I_full_name value => Return (User.set_full_name value user)
    | I_disabled value => Return (User.set_disabled value user)
    | I_id _ | I_other _ _ => Return user
    end
  else Return user.

(** The loop of [update_user] over [user_data.items()]. *)
Fixpoint update_fields (user : User.t) (user_data : list item) : result User.t :=
  match user_data with
  | [] => Return user
  | it :: rest =>
      match update_field user it with
      | Raise e => Raise e
      | Return user' => update_fields user' rest
      end
  end.

(** [update_user].  An exception raised in the loop, or by the unique index
    on [username] at the commit, rolls back and is raised again. *)
Definition update_user (db : Db.t) (user_id : Z) (user_data : list item)
  : result (option User.t) * Db.t :=
  match Db.first (fun u => User.id u = user_id) (Db.users db) with
  | None => (Return None, db)
  | Some (i, user) =>
      match update_fields user user_data with
      | Raise e => (Raise e, db)
      | Return user' =>
          if decide (User.username user' <> User.username user
                     /\ User.username user' ∈ (User.username <$> Db.users db))
          then (Raise (IntegrityError "ix_users_username"), db)
          else (Return (Some user'), Db.commit_users (<[i := user']> (Db.users db)) db)
      end
  end.

(** The loop of [create_category] and the [append] after it. *)
Definition upsert_category (categories_list : list Category.t) (category : Category.t)
  : list Category.t :=
  match list_find (fun existing_cat => Category.name existing_cat = Category.name category)
          categories_list with
  | Some (i, _) => <[i := Category.model_dump category]> categories_list
  | None => categories_list ++ [Category.model_dump category]
  end.

(** [create_category] *)
Definition create_category (db : Db.t) (user_id : Z) (category : Category.t)
  : option Category.t * Db.t :=
  match Db.first (fun u => User.id u = user_id) (Db.users db) with
  | None => (None, db)
  | Some (i, user) =>
      let categories_list := upsert_category (User.categories user) category in
      let user' := User.set_categories categories_list user in
      (Some (Category.model_dump category),
       Db.commit_users (<[i := user']> (Db.users db)) db)
  end.

(** The loop of [create_tag] and the [append] after it. *)
Definition upsert_tag (tag_list : list Tag.t) (tag : Tag.t) : list Tag.t :=
  match list_find (fun existing_tag => Tag.name existing_tag = Tag.name tag) tag_list with
  | Some (i, _) => <[i := Tag.model_dump tag]> tag_list
  | None => tag_list ++ [Tag.model_dump tag]
  end.

(** [create_tag] *)
Definition create_tag (db : Db.t) (user_id : Z) (tag : Tag.t) : option Tag.t * Db.t :=
  match Db.first (fun u => User.id u = user_id) (Db.users db) with
  | None => (None, db)
  | Some (i, user) =>
      let tag_list := upsert_tag (User.tags user) tag in
      let user' := User.set_tags tag_list user in
      (Some (Tag.model_dump tag), Db.commit_users (<[i := user']> (Db.users db)) db)
  end.

(** [delete_category] *)
Definition delete_category (db : Db.t) (user_id : Z) (category_name : str)
  : option (list Category.t) * Db.t :=
  match Db.first (fun u => User.id u = user_id) (Db.users db) with
  | None => (None, db)
  | Some (i, user) =>
      let deleted_categories :=
        filter (fun cat => Category.name cat = category_name) (User.categories user) in
      let new_categories :=
        filter (fun cat => Category.name cat <> category_name) (User.categories user) in
      let user' := User.set_categories new_categories user in
      (Some deleted_categories, Db.commit_users (<[i := user']> (Db.users db)) db)
  end.

(** [delete_tag] *)
Definition delete_tag (db : Db.t) (user_id : Z) (tag_name : str)
  : option (list Tag.t) * Db.t :=
  match Db.first (fun u => User.id u = user_id) (Db.users db) with
  | None => (None, db)
  | Some (i, user) =>
      let deleted_tags := filter (fun tag => Tag.name tag = tag_name) (User.tags user) in
      let new_tags := filter (fun tag => Tag.name tag <> tag_name) (User.tags user) in
      let user' := User.set_tags new_tags user in
      (Some deleted_tags, Db.commit_users (<[i := user']> (Db.users db)) db)
  end.

(** [get_categories] *)
Definition get_categories (db : Db.t) (user_id : Z) : list Category.t :=
  match Db.first (fun u => User.id u = user_id) (Db.users db) with
  | None => []
  | Some (_, user) => User.categories user
  end.

(** [get_tags] *)
Definition get_tags (db : Db.t) (user_id : Z) : list Tag.t :=
  match Db.first (fun u => User.id u = user_id) (Db.users db) with
  | None => []
  | Some (_, user) => User.tags user
  end.

End UserService.

(* ===================================================================== *)
(** ** backend/api/v1: the routes that build what the services receive *)
(* ===================================================================== *)

Module Api.

Section register.

(** [auth_service.get_password_hash]: the hash of the password library,
    under the salt drawn in this call. *)
Variable get_password_hash : str -> str.

(** [POST /register].  [user] is the request body, a validated
    [UserCreate]. *)
Definition create_user (db : Db.t) (user : UserCreate.t) : result User.t * Db.t :=
  match UserService.get_user_by_username db (UserCreate.username user) with
  | Some _ => (Raise (HTTPException 400 "Username already registered"), db)
  | None =>
      let hashed_password := get_password_hash (UserCreate.password user) in
      match UserCreate.new (UserCreate.username user) (UserCreate.email user)
              hashed_password (UserCreate.full_name user) None None with
      | Raise e => (Raise (HTTPException 500 (message e)), db)
      | Return user_with_hashed_password =>
          match UserService.create_user db user_with_hashed_password with
          | (Raise e, db') => (Raise (HTTPException 500 (message e)), db')
          | (Return u, db') => (Return u, db')
          end
      end
  end.

End register.

Import TaskData.

(** [{k: v for k, v in payload.model_dump().items() if v is not None}] for
    a [TaskUpdate]: the fields in declaration order, those that hold
    [None] left out. *)
Definition update_data (payload : TaskUpdate.t) : list item :=
  option_list (I_name <$> TaskUpdate.name payload)
  ++ option_list (I_description <$> TaskUpdate.description payload)
  ++ option_list (I_category <$> TaskUpdate.category payload)
  ++ option_list (I_dueDate <$> TaskUpdate.dueDate payload)
  ++ option_list (I_parameters <$> TaskUpdate.parameters payload)
  ++ option_list (I_completed <$> TaskUpdate.completed payload)
  ++ option_list (I_tags <$> TaskUpdate.tags payload)
  ++ [I_priority (TaskUpdate.priority payload)].

(** [PUT /tasks/{task_id}].  The [except Exception] of the route catches
    what the service raises and also the 404 raised inside the [try], and
    answers 500 with the text of either. *)
Definition update_task (db : Db.t) (task_id : Z) (payload : TaskUpdate.t)
    (current_user : User.t) : result Task.t * Db.t :=
  match TaskService.update_task db (User.id current_user) task_id (update_data payload) with
  | (Raise e, db') => (Raise (HTTPException 500 (message e)), db')
  | (Return None, db') =>
      (Raise (HTTPException 500
                (message (HTTPException 404 "Task not found or not owned by you"))),
       db')
  | (Return (Some updated_task), db') => (Return updated_task, db')
  end.

(** The whole of a [PUT /tasks/{task_id}] request: the body is parsed into
    a [TaskUpdate] (a body that fails validation is answered 422 and the
    route does not run), then the route runs. *)
Definition put_task (db : Db.t) (task_id : Z) (body : TaskUpdate.body)
    (current_user : User.t) : result Task.t * Db.t :=
  match TaskUpdate.new body with
  | Raise _ => (Raise (HTTPException 422 "Unprocessable Entity"), db)
  | Return payload => update_task db task_id payload current_user
  end.

End Api.

(* ===================================================================== *)
(** ** backend/models/user.py: [UserUpdate] *)
(* ===================================================================== *)

Module UserUpdate.

(** The JSON body of [PUT /users/{user_id}] once pydantic has checked the
    types.  [categories] and [tags] are lists of objects with the keys
    [name] and [color], not yet validated. *)
Record body := {
  b_username : str;
  b_email : option str;
  b_full_name : option str;
  b_categories : option (list Category.t);
  b_tags : option (list Tag.t)
}.

(** A validated instance. *)
Record t := {
  username : str;
  email : option str;
  full_name : option str;
  categories : option (list Category.t);
  tags : option (list Tag.t)
}.

(** [validate_categories] *)
Definition validate_categories (categories : option (list Category.t))
  : result (option (list Category.t)) :=
  match categories with
  | None => Return None
  | Some cs =>
      let names := Category.name <$> cs in
      if decide (length names = size (Py.set names))
      then Return categories
      else Raise (CategoryException "Duplicate category names are not allowed")
  end.

(** [validate_tags] *)
Definition validate_tags (tags : option (list Tag.t)) : result (option (list Tag.t)) :=
  match tags with
  | None => Return None
  | Some ts =>
      let names := Tag.name <$> ts in
      if decide (length names = size (Py.set names))
      then Return tags
      else Raise (TagException "Duplicate tag names are not allowed")
  end.

(** The constructor of [UserUpdate]: [str_strip_whitespace] on the strings
    of the model itself, every element of the two lists through the
    constructor of its own model (whose configuration is its own: no
    trimming there but that of its validator), then the two validators. *)
Definition new (b : body) : result t :=
  match match b_categories b with
        | None => Return None
        | Some raw =>
            match traverse (fun cat => Category.new (Category.name cat) (Category.color cat))
                    raw with
            | Raise e => Raise e
            | Return cs => validate_categories (Some cs)
            end
        end with
  | Raise e => Raise e
  | Return cs =>
      match match b_tags b with
            | None => Return None
            | Some raw =>
                match traverse (fun tag => Tag.new (Tag.name tag) (Tag.color tag)) raw with
                | Raise e => Raise e
                | Return ts => validate_tags (Some ts)
                end
            end with
      | Raise e => Raise e
      | Return ts =>
          Return {| username := Py.str_strip_whitespace (b_username b);
                    email := Py.str_strip_whitespace <$> b_email b;
                    full_name := Py.str_strip_whitespace <$> b_full_name b;
                    categories := cs; tags := ts |}
      end
  end.

End UserUpdate.

(* ===================================================================== *)
(** ** backend/services/user_auth_service.py *)
(* ===================================================================== *)

Module Auth.

Section auth.

(** [passwordHash.verify] of the password library. *)
Variable verify_password : str -> str -> bool.

(** [jwt.decode(token, SECRET_KEY, algorithms=[ALGORITHM])] followed by
    [payload.get("sub")]: [None] when the library raises
    [InvalidTokenError] (bad signature, expired), [Some None] when the
    payload has no subject, [Some (Some username)] otherwise. *)
Variable decode_sub : str -> option (option str).

(** [userAuthService.get_user].  The row stands for the [UserInDB] that is
    built from it. *)
Definition get_user (db : Db.t) (username : str) : option User.t :=
  snd <$> Db.first (fun u => User.username u = username) (Db.users db).

(** [authenticated_user]; [None] stands for the [False] it returns. *)
Definition authenticated_user (db : Db.t) (username password : str) : option User.t :=
  match get_user db username with
  | None => None
  | Some user =>
      if negb (verify_password password (User.hashed_password user)) then None
      else Some user
  end.

Definition credentials_exception : exn :=
  HTTPException 401 "Could not validate credentials".

(** [get_current_user] *)
Definition get_current_user (db : Db.t) (token : str) : result User.t :=
  match decode_sub token with
  | None => Raise credentials_exception
  | Some None => Raise credentials_exception
  | Some (Some username) =>
      match get_user db username with
      | None => Raise credentials_exception
      | Some user => Return user
      end
  end.

(** [get_current_active_user], on the result of [get_current_user]. *)
Definition get_current_active_user (current_user : User.t) : result User.t :=
  if User.disabled current_user then Raise (HTTPException 400 "Inactive user")
  else Return current_user.

(** The dependency chain of a route that asks for the current active
    user. *)
Definition current_active_user (db : Db.t) (token : str) : result User.t :=
  match get_current_user db token with
  | Raise e => Raise e
  | Return current_user => get_current_active_user current_user
  end.

End auth.

End Auth.

(* ===================================================================== *)
(** ** backend/api/v1/task_api.py *)
(* ===================================================================== *)

Module TaskApi.

(** [GET /tasks] *)
Definition get_tasks (db : Db.t) (current_user : User.t) : list Task.t :=
  TaskService.list_tasks db (User.id current_user).

(** [GET /tasks/categories] *)
Definition get_categories (db : Db.t) (current_user : User.t) : list str :=
  TaskService.get_categories db (User.id current_user).

(** [GET /tasks/{task_id}] *)
Definition get_task (db : Db.t) (task_id : Z) (current_user : User.t) : result Task.t :=
  match TaskService.get_task db (User.id current_user) task_id with
  | None => Raise (HTTPException 404 "Task not found")
  | Some task => Return task
  end.

(** [POST /tasks].  The route has no current user: the owner is the one the
    body names. *)
Definition create_task (db : Db.t) (payload : TaskCreate.t) : result Task.t * Db.t :=
  TaskService.create_task db payload.

(** [POST /tasks/{task_id}/complete] *)
Definition mark_task_complete (db : Db.t) (task_id : Z) (current_user : User.t)
  : result Task.t * Db.t :=
  let '(updated, db') := TaskService.mark_task_complete db (User.id current_user) task_id in
  if negb updated
  then (Raise (HTTPException 404 "Task not found or owned by you"), db')
  else
    match TaskService.get_task db' (User.id current_user) task_id with
    | None => (Raise (HTTPException 404 "Task updated but not retrievable"), db')
    | Some task => (Return task, db')
    end.

(** [DELETE /tasks/{task_id}]; [Return ()] is the empty answer 204. *)
Definition delete_task (db : Db.t) (task_id : Z) (current_user : User.t)
  : result unit * Db.t :=
  let '(removed, db') := TaskService.remove_task db (User.id current_user) task_id in
  if negb removed
  then (Raise (HTTPException 404 "Task not found or not owned by you"), db')
  else (Return (), db').

End TaskApi.

(* ===================================================================== *)
(** ** backend/api/v1/user.py: the routes on one user *)
(* ===================================================================== *)

Module UserApi.

Import UserData.

(** [{k: v for k, v in payload.model_dump().items() if v is not None}] for
    a [UserUpdate]. *)
Definition update_data (payload : UserUpdate.t) : list item :=
  [I_username (UserUpdate.username payload)]
  ++ option_list (I_email <$> UserUpdate.email payload)
  ++ option_list (I_full_name <$> UserUpdate.full_name payload)
  ++ option_list (I_categories <$> UserUpdate.categories payload)
  ++ option_list (I_tags <$> UserUpdate.tags payload).

(** [PUT /users/{user_id}].  An exception of the service is answered 500
    with its text. *)
Definition update_user (db : Db.t) (user_id : Z) (payload : UserUpdate.t)
  : result (option User.t) * Db.t :=
  match UserService.get_user db user_id with
  | None => (Raise (HTTPException 404 "User not found"), db)
  | Some user =>
      match UserService.update_user db (User.id user) (update_data payload) with
      | (Raise e, db') => (Raise (HTTPException 500 (message e)), db')
      | (Return updated_user, db') => (Return updated_user, db')
      end
  end.

(** [_convert_categories] on what the service returns: every dictionary
    through the constructor of [Category]. *)
Definition _convert_categories (categories : list Category.t) : result (list Category.t) :=
  traverse (fun category => Category.new (Category.name category) (Category.color category))
    categories.

(** [GET /users/{user_id}/categories] *)
Definition get_user_categories (db : Db.t) (user_id : Z) : result (list Category.t) :=
  match UserService.get_user db user_id with
  | None => Raise (HTTPException 404 "User not found")
  | Some user =>
      match _convert_categories (UserService.get_categories db (User.id user)) with
      | Raise e => Raise (HTTPException 500 (message e))
      | Return cs => Return cs
      end
  end.

(** [PUT /users/{user_id}/categories] *)
Definition create_user_categories (db : Db.t) (user_id : Z) (category : Category.t)
  : result Category.t * Db.t :=
  match UserService.create_category db user_id category with
  | (None, db') => (Raise (HTTPException 404 "User not found"), db')
  | (Some created_categories, db') =>
      match Category.new (Category.name created_categories)
              (Category.color created_categories) with
      | Raise e => (Raise (HTTPException 500 (message e)), db')
      | Return c => (Return c, db')
      end
  end.

(** [DELETE /users/{user_id}/categories/{category_name}] *)
Definition delete_user_category (db : Db.t) (user_id : Z) (category_name : str)
  : result (list Category.t) * Db.t :=
  match UserService.delete_category db user_id category_name with
  | (None, db') => (Raise (HTTPException 404 "User not found"), db')
  | (Some deleted_categories, db') =>
      match _convert_categories deleted_categories with
      | Raise e => (Raise (HTTPException 500 (message e)), db')
      | Return cs => (Return cs, db')
      end
  end.

End UserApi.

(* ===================================================================== *)
(** ** backend/services/orchestrator.py, on the database services *)
(* ===================================================================== *)

Module Orchestrator.

(** [UserCreate(...)] from keyword arguments of which [username] and
    [password], both required, may be missing.  A keyword that the model
    does not declare, such as [name], is ignored. *)
Definition UserCreate_kwargs (username password : option str) : result UserCreate.t :=
  match username, password with
  | Some u, Some p => UserCreate.new u None p None None None
  | _, _ => Raise (ValidationError "Field required")
  end.

(** [login]: the user of that name, or else a new one, built by
    [UserCreate(name=name)]. *)
Definition login (db : Db.t) (name : str) : result User.t * Db.t :=
  match UserService.get_user_by_username db name with
  | Some user => (Return user, db)
  | None =>
      match UserCreate_kwargs None None with
      | Raise e => (Raise e, db)
      | Return user_create => UserService.create_user db user_create
      end
  end.

(** [get_tasks], [get_task], [get_existing_categories], [remove_task] hand
    their arguments to the task service. *)
Definition get_tasks (db : Db.t) (owner_id : Z) : list Task.t :=
  TaskService.list_tasks db owner_id.

Definition get_task (db : Db.t) (owner_id task_id : Z) : option Task.t :=
  TaskService.get_task db owner_id task_id.

Definition get_existing_categories (db : Db.t) (owner_id : Z) : list str :=
  TaskService.get_categories db owner_id.

Definition remove_task (db : Db.t) (owner_id task_id : Z) : bool * Db.t :=
  TaskService.remove_task db owner_id task_id.

End Orchestrator.

(* ===================================================================== *)
(** ** Predicates of the properties below *)
(* ===================================================================== *)

Module Inv.

(** Within every user, no two categories and no two tags of one name. *)
Definition names_unique (db : Db.t) : Prop :=
  Forall (fun u => NoDup (Category.name <$> User.categories u)
                   /\ NoDup (Tag.name <$> User.tags u)) (Db.users db).

(** Every code point of a string is blank. *)
Definition blank (ws : N -> bool) (s : str) : Prop := Forall (fun c => ws c = true) s.

(** The attributes of a user row other than the two lists. *)
Definition profile (u : User.t) : Z * str * str * str * str * bool :=
  (User.id u, User.username u, User.email u, User.hashed_password u,
   User.full_name u, User.disabled u).

(** A category as its constructor would leave it. *)
Definition category_valid (c : Category.t) : Prop :=
  Category.new (Category.name c) (Category.color c) = Return c.

(** Every stored category is as its constructor would leave it. *)
Definition categories_valid (db : Db.t) : Prop :=
  Forall (fun u => Forall category_valid (User.categories u)) (Db.users db).

(** What a write to the task of an owner under a task id leaves alone: the
    users, the tasks of the other owners, and what [get_task] finds for
    every other pair of owner and task id. *)
Definition left_alone (owner_id task_id : Z) (db db' : Db.t) : Prop :=
  Db.users db' = Db.users db /\
  filter (fun x => Task.owner_id x <> owner_id) (Db.tasks db')
  = filter (fun x => Task.owner_id x <> owner_id) (Db.tasks db) /\
  forall owner_id' task_id',
    (owner_id', task_id') <> (owner_id, task_id) ->
    TaskService.get_task db' owner_id' task_id' = TaskService.get_task db owner_id' task_id'.

End Inv.

(* ===================================================================== *)
(** ** Histories *)
(* ===================================================================== *)

Module History.

(** The calls that write to the database. *)
Inductive call :=
| create_task (task_data : TaskCreate.t)
| update_task (owner_id task_id : Z) (task_data : list TaskData.item)
| remove_task (owner_id task_id : Z)
| mark_task_complete (owner_id task_id : Z)
| create_user (user_create : UserCreate.t)
| update_user (user_id : Z) (user_data : list UserData.item)
| create_category (user_id : Z) (category : Category.t)
| create_tag (user_id : Z) (tag : Tag.t)
| delete_category (user_id : Z) (category_name : str)
| delete_tag (user_id : Z) (tag_name : str).

(** The database after a call. *)
Definition run (db : Db.t) (c : call) : Db.t :=
  match c with
  | create_task task_data => snd (TaskService.create_task db task_data)
  | update_task owner_id task_id task_data =>
      snd (TaskService.update_task db owner_id task_id task_data)
  | remove_task owner_id task_id => snd (TaskService.remove_task db owner_id task_id)
  | mark_task_complete owner_id task_id =>
      snd (TaskService.mark_task_complete db owner_id task_id)
  | create_user user_create => snd (UserService.create_user db user_create)
  | update_user user_id user_data => snd (UserService.update_user db user_id user_data)
  | create_category user_id category =>
      snd (UserService.create_category db user_id category)
  | create_tag user_id tag => snd (UserService.create_tag db user_id tag)
  | delete_category user_id category_name =>
      snd (UserService.delete_category db user_id category_name)
  | delete_tag user_id tag_name => snd (UserService.delete_tag db user_id tag_name)
  end.

(** The calls that leave the ids of the tasks to the sequence, as every
    call that a route makes does: an [update_task] is one when its
    dictionary (a well keyed list of items) has no key [id]. *)
Definition keeps_ids (c : call) : Prop :=
  match c with
  | update_task _ _ task_data =>
      TaskData.well_keyed task_data /\ "id"%string ∉ (TaskData.key <$> task_data)
  | _ => True
  end.

(** The databases that such calls produce from the empty one. *)
Definition reachable (db : Db.t) : Prop :=
  exists calls : list call, Forall keeps_ids calls /\ db = foldl run Db.empty calls.

End History.

(* ===================================================================== *)
(** ** A small database, for the examples *)
(* ===================================================================== *)

Module Example.

Definition General : Category.t :=
  {| Category.name := Py.lit "General"; Category.color := Py.lit "#5dafb0" |}.

Definition Work : Category.t :=
  {| Category.name := Py.lit "Work"; Category.color := Py.lit "#FF0000" |}.

Definition Work_green : Category.t :=
  {| Category.name := Py.lit "Work"; Category.color := Py.lit "#00FF00" |}.

Definition Home : Category.t :=
  {| Category.name := Py.lit "Home"; Category.color := Py.lit "#0000FF" |}.

Definition urgent : Tag.t :=
  {| Tag.name := Py.lit "urgent"; Tag.color := Py.lit "#FF0000" |}.

Definition later : Tag.t :=
  {| Tag.name := Py.lit "later"; Tag.color := Py.lit "#CCCCCC" |}.

Definition alice : User.t :=
  {| User.id := 1; User.username := Py.lit "alice"; User.email := Py.lit "alice@example.org";
     User.hashed_password := Py.lit "$argon2id$a"; User.full_name := Py.lit "Alice";
     User.disabled := false; User.categories := [General; Work]; User.tags := [urgent] |}.

Definition bob : User.t :=
  {| User.id := 2; User.username := Py.lit "bob"; User.email := [];
     User.hashed_password := Py.lit "$argon2id$b"; User.full_name := [];
     User.disabled := false; User.categories := [General]; User.tags := [] |}.

Definition ship_it : Task.t :=
  {| Task.id := 1; Task.owner_id := 1; Task.name := Py.lit "Ship it";
     Task.description := []; Task.category := Py.lit "Work"; Task.dueDate := None;
     Task.parameters := []; Task.completed := false; Task.tags := [];
     Task.priority := 2 |}.

Definition groceries : Task.t :=
  {| Task.id := 2; Task.owner_id := 2; Task.name := Py.lit "Groceries";
     Task.description := Py.lit "milk"; Task.category := Py.lit "Home"; Task.dueDate := Some 1767225600;
     Task.parameters := []; Task.completed := true; Task.tags := [Py.lit "shop"];
     Task.priority := 1 |}.

Definition review : Task.t :=
  {| Task.id := 3; Task.owner_id := 1; Task.name := Py.lit "Review";
     Task.description := []; Task.category := Py.lit "General"; Task.dueDate := None;
     Task.parameters := []; Task.completed := false; Task.tags := [];
     Task.priority := 0 |}.

Definition db : Db.t :=
  {| Db.users := [alice; bob]; Db.tasks := [ship_it; groceries; review];
     Db.users_id_seq := 2; Db.tasks_id_seq := 3; Db.commits := 5 |}.

(** The same rows as objects of the JSON file. *)
Definition json_row (x : Task.t) : JsonTask.t :=
  {| JsonTask.id := Some (Task.id x); JsonTask.task_id := None;
     JsonTask.owner_id := Some (Task.owner_id x);
     JsonTask.category := Some (Some (Task.category x)); JsonTask.fields := [] |}.

Definition store : list JsonTask.t := json_row <$> [ship_it; groceries; review].

(** A file with two more objects of Alice's: one whose [category] is
    [null], one without the key. *)
Definition store_null : list JsonTask.t :=
  store ++ [ {| JsonTask.id := Some 4; JsonTask.task_id := None;
                JsonTask.owner_id := Some 1; JsonTask.category := Some None;
                JsonTask.fields := [] |};
             {| JsonTask.id := Some 5; JsonTask.task_id := None;
                JsonTask.owner_id := Some 1; JsonTask.category := None;
                JsonTask.fields := [] |} ].

(** An order on the members of a set of labels: [None] first, then the
    strings in their order. *)
Definition label_le (a b : option str) : Prop :=
  match a, b with
  | None, _ => True
  | Some _, None => False
  | Some x, Some y => Py.str_le x y
  end.

#[global] Instance label_le_dec : RelDecision label_le.
Proof. intros [a|] [b|]; simpl; apply _. Defined.

(** An iteration order for sets of labels: from the greatest down. *)
Definition descending (s : gset (option str)) : list (option str) :=
  reverse (merge_sort label_le (elements s)).

(** The body [{"name": "Ship it today"}]. *)
Definition name_only : TaskUpdate.body :=
  {| TaskUpdate.b_name := Some (Py.lit "Ship it today"); TaskUpdate.b_description := None;
     TaskUpdate.b_category := None; TaskUpdate.b_dueDate := None;
     TaskUpdate.b_parameters := None; TaskUpdate.b_completed := None;
     TaskUpdate.b_tags := None; TaskUpdate.b_priority := None |}.

(** The draft [{"owner_id": 1, "name": " Plan  "}]. *)
Definition plan : TaskCreate.draft :=
  {| TaskCreate.d_owner_id := 1; TaskCreate.d_name := Py.lit " Plan  ";
     TaskCreate.d_description := None; TaskCreate.d_category := None;
     TaskCreate.d_dueDate := None; TaskCreate.d_parameters := None;
     TaskCreate.d_completed := None; TaskCreate.d_tags := None;
     TaskCreate.d_priority := None |}.

(** A registration that also names categories and tags of its own. *)
Definition carol : UserCreate.t :=
  {| UserCreate.username := Py.lit "carol"; UserCreate.email := None;
     UserCreate.password := Py.lit "s3cret"; UserCreate.full_name := Some (Py.lit "Carol");
     UserCreate.categories := Some [Work; Home]; UserCreate.tags := Some [urgent] |}.

End Example.

(* ===================================================================== *)
(** ** Strings *)
(* ===================================================================== *)

Example strip_spaces : Py.strip (Py.lit "  Ship it ") = Py.lit "Ship it".
Proof. reflexivity. Qed.

(** U+001F is blank for [str.strip] and not for [str_strip_whitespace]. *)
Example strip_separators :
  Py.strip [31; 97]%N = [97]%N /\ Py.str_strip_whitespace [31; 97]%N = [31; 97]%N.
Proof. split; reflexivity. Qed.

Example str_le_examples :
  Py.str_le (Py.lit "General") (Py.lit "Work") /\
  Py.str_le (Py.lit "Work") (Py.lit "Workshop") /\
  ~ Py.str_le (Py.lit "home") (Py.lit "Work").
Proof. split_and!; [reflexivity | reflexivity | discriminate]. Qed.

(* ===================================================================== *)
(** ** Rows and handles *)
(* ===================================================================== *)

Section rows.

Context {A : Type} (P : A -> Prop) `{!forall x, Decision (P x)}.

(** Writing a row back through its handle keeps the handle: the query that
    found the row finds the new contents at the same position, as long as
    the new contents still satisfy the filter. *)
Lemma first_insert (l : list A) (i : nat) (x y : A) :
  Db.first P l = Some (i, x) -> P y -> Db.first P (<[i := y]> l) = Some (i, y).
Proof.
  unfold Db.first. intros Hf Hy.
  apply list_find_Some in Hf as (Hi & _ & Hleast).
  apply list_find_insert_Some. right; left.
  split_and!; eauto using lookup_lt_Some.
Qed.

Lemma first_None (l : list A) :
  Forall (fun x => ~ P x) l -> Db.first P l = None.
Proof. intros Hall. by apply list_find_None. Qed.

Lemma first_is_Some (l : list A) :
  Exists P l -> is_Some (Db.first P l).
Proof.
  intros (x & Hx & HP)%Exists_exists. by eapply list_find_elem_of.
Qed.

End rows.

(** Under a unique key, deleting the row a query by key found leaves no row
    that the query could find. *)
Lemma first_delete_unique {A K : Type} (f : A -> K) (Q : A -> Prop) (k : K)
    `{!forall x, Decision (f x = k /\ Q x)} (l : list A) (i : nat) (x : A) :
  NoDup (f <$> l) ->
  Db.first (fun y => f y = k /\ Q y) l = Some (i, x) ->
  Forall (fun y => ~ (f y = k /\ Q y)) (delete i l).
Proof.
  unfold Db.first. intros Hnd (Hi & [Hk _] & _)%list_find_Some.
  apply Forall_lookup. intros j y Hj [Hyk _].
  assert (exists j', j' <> i /\ l !! j' = Some y) as (j' & Hne & Hj').
  { destruct (decide (j < i)%nat).
    - exists j. split; [lia|]. by rewrite list_lookup_delete_lt in Hj.
    - exists (S j). split; [lia|]. by rewrite list_lookup_delete_ge in Hj by lia. }
  apply Hne. eapply NoDup_lookup; [exact Hnd | |].
  - rewrite list_lookup_fmap, Hj'. simpl. by rewrite Hyk.
  - rewrite list_lookup_fmap, Hi. simpl. by rewrite Hk.
Qed.

(* ===================================================================== *)
(** ** Task store: scoping *)
(* ===================================================================== *)

(** A task id that no row carries is not in scope of any owner. *)
Lemma absent_not_scoped (db : Db.t) (owner_id task_id : Z) :
  TaskService.admin_get_task db task_id = None ->
  Forall (fun x => ~ TaskService.scoped owner_id task_id x) (Db.tasks db).
Proof.
  unfold TaskService.admin_get_task, Db.first. intros Hnone.
  apply fmap_None, list_find_None in Hnone.
  eapply Forall_impl; [exact Hnone|]. intros x Hx [Hid _]. by apply Hx.
Qed.

(** Neither is the id of a task that belongs to somebody else. *)
Lemma foreign_not_scoped (db : Db.t) (owner_id task_id : Z) (x : Task.t) :
  Db.pk_tasks db ->
  TaskService.admin_get_task db task_id = Some x ->
  Task.owner_id x <> owner_id ->
  Forall (fun y => ~ TaskService.scoped owner_id task_id y) (Db.tasks db).
Proof.
  unfold TaskService.admin_get_task, Db.first, Db.pk_tasks.
  intros Hpk ([i x'] & Hfind & ->)%fmap_Some Hother. simpl in *.
  apply list_find_Some in Hfind as (Hi & Hid & _).
  apply Forall_lookup. intros j y Hj [Hyid Hyo].
  assert (j = i) as ->.
  { eapply NoDup_lookup; [exact Hpk | |].
    - rewrite list_lookup_fmap, Hj. simpl. by rewrite Hyid.
    - rewrite list_lookup_fmap, Hi. simpl. by rewrite Hid. }
  congruence.
Qed.

(** A query that no row is in scope of finds nothing and writes nothing. *)
Lemma not_scoped_is_not_found (db : Db.t) (owner_id task_id : Z)
    (task_data : list TaskData.item) :
  Forall (fun x => ~ TaskService.scoped owner_id task_id x) (Db.tasks db) ->
  TaskService.get_task db owner_id task_id = None /\
  TaskService.update_task db owner_id task_id task_data = (Return None, db) /\
  TaskService.remove_task db owner_id task_id = (false, db).
Proof.
  intros Hmiss.
  unfold TaskService.get_task, TaskService.update_task, TaskService.remove_task.
  by rewrite (first_None _ _ Hmiss).
Qed.

(** C2.  With unique task ids, when the task id does not exist, or exists
    on a task of another owner, [get_task] and [update_task] answer [None]
    and [remove_task] answers [False], the same in the two cases, and the
    database is left as it was. *)
Theorem scoped_miss_is_not_found (db : Db.t) (owner_id task_id : Z)
    (task_data : list TaskData.item) :
  Db.pk_tasks db ->
  TaskService.admin_get_task db task_id = None \/
  (exists x, TaskService.admin_get_task db task_id = Some x
             /\ Task.owner_id x <> owner_id) ->
  TaskService.get_task db owner_id task_id = None /\
  TaskService.update_task db owner_id task_id task_data = (Return None, db) /\
  TaskService.remove_task db owner_id task_id = (false, db).
Proof.
  intros Hpk [Habsent | (x & Hx & Hforeign)]; apply not_scoped_is_not_found.
  - by apply absent_not_scoped.
  - by eapply foreign_not_scoped.
Qed.

(** Bob (user 2) asks for task 1, which is Alice's, and for task 7, which
    does not exist. *)
Lemma scoped_miss_is_not_found_witness :
  Db.pk_tasks Example.db /\
  TaskService.admin_get_task Example.db 1 = Some Example.ship_it /\
  TaskService.admin_get_task Example.db 7 = None /\
  (TaskService.get_task Example.db 2 1 = None /\
   TaskService.update_task Example.db 2 1 [TaskData.I_completed true]
   = (Return None, Example.db) /\
   TaskService.remove_task Example.db 2 1 = (false, Example.db)) /\
  (TaskService.get_task Example.db 2 7 = None /\
   TaskService.update_task Example.db 2 7 [TaskData.I_completed true]
   = (Return None, Example.db) /\
   TaskService.remove_task Example.db 2 7 = (false, Example.db)).
Proof.
  assert (Db.pk_tasks Example.db) as Hpk by (unfold Db.pk_tasks; compute_done).
  split; [exact Hpk|]. split; [reflexivity|]. split; [reflexivity|]. split.
  - apply (scoped_miss_is_not_found Example.db 2 1 [TaskData.I_completed true] Hpk).
    right. exists Example.ship_it. split; [reflexivity | discriminate].
  - apply (scoped_miss_is_not_found Example.db 2 7 [TaskData.I_completed true] Hpk).
    left. reflexivity.
Defined.

(* ===================================================================== *)
(** ** Task store: completion and removal *)
(* ===================================================================== *)

Lemma set_completed_scoped (owner_id task_id : Z) (b : bool) (x : Task.t) :
  TaskService.scoped owner_id task_id x ->
  TaskService.scoped owner_id task_id (Task.set_completed b x).
Proof. by intros [? ?]. Qed.

Lemma set_completed_id (x : Task.t) :
  Task.completed x = true -> Task.set_completed true x = x.
Proof. destruct x; simpl; by intros ->. Qed.

(** C4.  [mark_task_complete] on a task in scope answers [True], and so
    does a second call, which leaves the database exactly as the first
    call left it.  After the first call the task is stored with
    [completed] set and nothing else changed; the first call commits once
    when the flag was not set and not at all when it was. Out of scope,
    the answer is [False] and nothing is written. *)
Theorem mark_task_complete_idempotent (db : Db.t) (owner_id task_id : Z) :
  match TaskService.get_task db owner_id task_id with
  | None => TaskService.mark_task_complete db owner_id task_id = (false, db)
  | Some x =>
      exists db1,
        TaskService.mark_task_complete db owner_id task_id = (true, db1) /\
        TaskService.mark_task_complete db1 owner_id task_id = (true, db1) /\
        TaskService.get_task db1 owner_id task_id = Some (Task.set_completed true x) /\
        Db.commits db1 = (if Task.completed x then Db.commits db else S (Db.commits db))
  end.
Proof.
  unfold TaskService.get_task, TaskService.mark_task_complete.
  destruct (Db.first _ (Db.tasks db)) as [[i x]|] eqn:Hfind; simpl; [|done].
  destruct (Task.completed x) eqn:Hdone.
  - exists db. rewrite Hfind, Hdone. simpl. by rewrite set_completed_id.
  - eexists. split; [done|]. simpl.
    assert (TaskService.scoped owner_id task_id x) as Hx.
    { unfold Db.first in Hfind. by apply list_find_Some in Hfind as (_ & ? & _). }
    rewrite (first_insert _ _ _ _ (Task.set_completed true x) Hfind)
      by by apply set_completed_scoped.
    done.
Qed.

(** Alice completes "Ship it" twice: one commit, priority still 2. *)
Example mark_task_complete_ship_it :
  let '(r1, db1) := TaskService.mark_task_complete Example.db 1 1 in
  let '(r2, db2) := TaskService.mark_task_complete db1 1 1 in
  r1 = true /\ r2 = true /\ db2 = db1 /\
  Db.commits db1 = S (Db.commits Example.db) /\
  TaskService.get_task db2 1 1 = Some (Task.set_completed true Example.ship_it) /\
  Task.priority (Task.set_completed true Example.ship_it) = 2.
Proof. vm_compute. repeat split. Qed.

(** C5.  With unique task ids, removing a task in scope answers [True],
    removing it again answers [False], and after the first removal
    [get_task] does not find it.  For the JSON store the same holds
    without any assumption on the file. *)
Theorem remove_task_twice :
  (forall (db : Db.t) (owner_id task_id : Z),
     Db.pk_tasks db ->
     is_Some (TaskService.get_task db owner_id task_id) ->
     exists db1,
       TaskService.remove_task db owner_id task_id = (true, db1) /\
       TaskService.remove_task db1 owner_id task_id = (false, db1) /\
       TaskService.get_task db1 owner_id task_id = None) /\
  (forall (tasks : list JsonTask.t) (owner_id task_id : Z),
     is_Some (TaskServiceJson.get_task tasks owner_id task_id) ->
     exists tasks1,
       TaskServiceJson.remove_task tasks owner_id task_id = (true, tasks1) /\
       TaskServiceJson.remove_task tasks1 owner_id task_id = (false, tasks1) /\
       TaskServiceJson.get_task tasks1 owner_id task_id = None).
Proof.
  split.
  - intros db owner_id task_id Hpk [x Hget].
    unfold TaskService.get_task, TaskService.remove_task in *.
    destruct (Db.first _ (Db.tasks db)) as [[i x']|] eqn:Hfind; [|done].
    eexists. split; [done|]. simpl.
    pose proof (first_delete_unique Task.id (fun y => Task.owner_id y = owner_id)
                  task_id (Db.tasks db) i x' Hpk Hfind) as Hgone.
    by rewrite (first_None _ _ Hgone).
  - intros tasks owner_id task_id [x Hget].
    unfold TaskServiceJson.get_task in Hget.
    apply fmap_Some in Hget as ([i x'] & Hfind & _).
    apply list_find_Some in Hfind as (Hi & [Hid Ho] & _).
    assert (TaskServiceJson.matches owner_id task_id x') as Hm.
    { unfold TaskServiceJson.matches. by rewrite Hid. }
    set (new_tasks := filter (fun t => ~ TaskServiceJson.matches owner_id task_id t) tasks).
    assert (Forall (fun t => ~ TaskServiceJson.matches owner_id task_id t) new_tasks) as Hnone.
    { apply Forall_forall. by intros t [? _]%list_elem_of_filter. }
    assert (filter (fun t => ~ TaskServiceJson.matches owner_id task_id t) new_tasks
            = new_tasks) as Hfix.
    { clear -Hnone. induction Hnone as [|t l Ht _ IH]; [done|].
      by rewrite filter_cons_True, IH. }
    exists new_tasks. unfold TaskServiceJson.remove_task. fold new_tasks.
    rewrite Hfix. split_and!.
    + rewrite decide_False; [done|].
      assert (length new_tasks < length tasks)%nat; [|lia].
      eapply length_filter_lt; [by eapply list_elem_of_lookup_2|]. by intros Hn.
    + by rewrite decide_True.
    + unfold TaskServiceJson.get_task. apply fmap_None, list_find_None.
      eapply Forall_impl; [exact Hnone|]. intros t Ht [Htid Hto]. apply Ht.
      unfold TaskServiceJson.matches. by rewrite Htid.
Qed.

(** Alice removes "Ship it" from the database and from the JSON file. *)
Lemma remove_task_twice_witness :
  (exists db1,
     TaskService.remove_task Example.db 1 1 = (true, db1) /\
     TaskService.remove_task db1 1 1 = (false, db1) /\
     TaskService.get_task db1 1 1 = None) /\
  (exists tasks1,
     TaskServiceJson.remove_task Example.store 1 1 = (true, tasks1) /\
     TaskServiceJson.remove_task tasks1 1 1 = (false, tasks1) /\
     TaskServiceJson.get_task tasks1 1 1 = None).
Proof.
  split.
  - apply (proj1 remove_task_twice Example.db 1 1).
    + unfold Db.pk_tasks. compute_done.
    + vm_compute. eauto.
  - apply (proj2 remove_task_twice Example.store 1 1). vm_compute. eauto.
Defined.

(* ===================================================================== *)
(** ** User store: the category and tag lists *)
(* ===================================================================== *)

Section filters.

Context {A : Type} (P : A -> Prop) `{!forall x, Decision (P x)}.

Lemma filter_all (l : list A) : Forall P l -> filter P l = l.
Proof.
  induction 1 as [|x l Hx _ IH]; [done|]. by rewrite filter_cons_True, IH.
Qed.

Lemma filter_none (l : list A) : Forall (fun x => ~ P x) l -> filter P l = [].
Proof.
  induction 1 as [|x l Hx _ IH]; [done|]. by rewrite filter_cons_False.
Qed.

End filters.

Lemma set_categories_id (u : User.t) : User.set_categories (User.categories u) u = u.
Proof. by destruct u. Qed.

Lemma set_tags_id (u : User.t) : User.set_tags (User.tags u) u = u.
Proof. by destruct u. Qed.

(** The user found by id, with the position of the row. *)
Lemma get_user_Some (db : Db.t) (user_id : Z) (user : User.t) :
  UserService.get_user db user_id = Some user ->
  exists i, Db.first (fun u => User.id u = user_id) (Db.users db) = Some (i, user)
            /\ User.id user = user_id.
Proof.
  unfold UserService.get_user. intros ([i u] & Hfind & ->)%fmap_Some.
  exists i. split; [done|].
  unfold Db.first in Hfind. by apply list_find_Some in Hfind as (_ & ? & _).
Qed.

(** Writing a user row back under the same id, and reading it again. *)
Lemma get_user_commit (db : Db.t) (user_id : Z) (i : nat) (user user' : User.t) :
  Db.first (fun u => User.id u = user_id) (Db.users db) = Some (i, user) ->
  User.id user' = user_id ->
  UserService.get_user (Db.commit_users (<[i := user']> (Db.users db)) db) user_id
  = Some user'.
Proof.
  intros Hfind Hid. unfold UserService.get_user. simpl.
  by rewrite (first_insert _ _ _ _ user' Hfind Hid).
Qed.

(** What the loop of [create_category] does to the list. *)
Lemma upsert_category_cases (l : list Category.t) (c : Category.t) :
  (Exists (fun e => Category.name e = Category.name c) l ->
   exists i old,
     l !! i = Some old /\ Category.name old = Category.name c /\
     (forall j e, l !! j = Some e -> (j < i)%nat -> Category.name e <> Category.name c) /\
     UserService.upsert_category l c = <[i := c]> l) /\
  (Forall (fun e => Category.name e <> Category.name c) l ->
   UserService.upsert_category l c = l ++ [c]).
Proof.
  unfold UserService.upsert_category, Category.model_dump. split.
  - intros Hex. destruct (first_is_Some _ _ Hex) as [[i old] Hfind].
    unfold Db.first in Hfind. rewrite Hfind.
    apply list_find_Some in Hfind as (? & ? & ?). by exists i, old.
  - intros Hall. by rewrite (proj2 (list_find_None _ _) Hall).
Qed.

Lemma upsert_tag_cases (l : list Tag.t) (c : Tag.t) :
  (Exists (fun e => Tag.name e = Tag.name c) l ->
   exists i old,
     l !! i = Some old /\ Tag.name old = Tag.name c /\
     (forall j e, l !! j = Some e -> (j < i)%nat -> Tag.name e <> Tag.name c) /\
     UserService.upsert_tag l c = <[i := c]> l) /\
  (Forall (fun e => Tag.name e <> Tag.name c) l ->
   UserService.upsert_tag l c = l ++ [c]).
Proof.
  unfold UserService.upsert_tag, Tag.model_dump. split.
  - intros Hex. destruct (first_is_Some _ _ Hex) as [[i old] Hfind].
    unfold Db.first in Hfind. rewrite Hfind.
    apply list_find_Some in Hfind as (? & ? & ?). by exists i, old.
  - intros Hall. by rewrite (proj2 (list_find_None _ _) Hall).
Qed.

(** C1.  For a user that exists, [create_category] returns the category it
    was given, and the user is stored with a list of categories [l'] in
    place of the list [l] and with every other attribute as it was;
    [get_categories] then returns [l'].  When [l] has an entry of that
    name, [l'] is [l] with the first such entry, at position [i], replaced
    by the new one (same name, the new color), every other position and
    the length unchanged; when [l] has no entry of that name, [l'] is [l]
    with the new entry appended, one longer.  [create_tag] does the same
    on the tag list. *)
Theorem upsert_by_name :
  (forall (db : Db.t) (user_id : Z) (category : Category.t) (user : User.t),
     UserService.get_user db user_id = Some user ->
     exists (db' : Db.t) (user' : User.t),
       let l := User.categories user in
       let l' := User.categories user' in
       UserService.create_category db user_id category = (Some category, db') /\
       UserService.get_user db' user_id = Some user' /\
       UserService.get_categories db' user_id = l' /\
       Inv.profile user' = Inv.profile user /\
       User.tags user' = User.tags user /\
       (Exists (fun e => Category.name e = Category.name category) l ->
        exists i old,
          l !! i = Some old /\ Category.name old = Category.name category /\
          (forall j e, l !! j = Some e -> (j < i)%nat ->
                       Category.name e <> Category.name category) /\
          l' !! i = Some category /\
          (forall j, j <> i -> l' !! j = l !! j) /\
          length l' = length l) /\
       (Forall (fun e => Category.name e <> Category.name category) l ->
        l' = l ++ [category] /\ length l' = S (length l))) /\
  (forall (db : Db.t) (user_id : Z) (tag : Tag.t) (user : User.t),
     UserService.get_user db user_id = Some user ->
     exists (db' : Db.t) (user' : User.t),
       let l := User.tags user in
       let l' := User.tags user' in
       UserService.create_tag db user_id tag = (Some tag, db') /\
       UserService.get_user db' user_id = Some user' /\
       UserService.get_tags db' user_id = l' /\
       Inv.profile user' = Inv.profile user /\
       User.categories user' = User.categories user /\
       (Exists (fun e => Tag.name e = Tag.name tag) l ->
        exists i old,
          l !! i = Some old /\ Tag.name old = Tag.name tag /\
          (forall j e, l !! j = Some e -> (j < i)%nat -> Tag.name e <> Tag.name tag) /\
          l' !! i = Some tag /\
          (forall j, j <> i -> l' !! j = l !! j) /\
          length l' = length l) /\
       (Forall (fun e => Tag.name e <> Tag.name tag) l ->
        l' = l ++ [tag] /\ length l' = S (length l))).
Proof.
  split.
  - intros db user_id category user (i & Hfind & Hid)%get_user_Some.
    exists (snd (UserService.create_category db user_id category)),
      (User.set_categories (UserService.upsert_category (User.categories user) category)
         user).
    unfold UserService.create_category, UserService.get_categories.
    rewrite Hfind. simpl.
    rewrite (first_insert _ _ _ _
               (User.set_categories
                  (UserService.upsert_category (User.categories user) category) user)
               Hfind) by done.
    split_and!; [done | by erewrite get_user_commit | done | done | done | |].
    + intros (k & old & Hk & Hname & Hfirst & ->)%(proj1 (upsert_category_cases _ _)).
      exists k, old. split_and!; [done..| | |].
      * apply list_lookup_insert_eq. by eapply lookup_lt_Some.
      * intros j Hj. by apply list_lookup_insert_ne.
      * apply length_insert.
    + intros ->%(proj2 (upsert_category_cases _ _)).
      split; [done|]. rewrite length_app. simpl. lia.
  - intros db user_id tag user (i & Hfind & Hid)%get_user_Some.
    exists (snd (UserService.create_tag db user_id tag)),
      (User.set_tags (UserService.upsert_tag (User.tags user) tag) user).
    unfold UserService.create_tag, UserService.get_tags.
    rewrite Hfind. simpl.
    rewrite (first_insert _ _ _ _
               (User.set_tags (UserService.upsert_tag (User.tags user) tag) user)
               Hfind) by done.
    split_and!; [done | by erewrite get_user_commit | done | done | done | |].
    + intros (k & old & Hk & Hname & Hfirst & ->)%(proj1 (upsert_tag_cases _ _)).
      exists k, old. split_and!; [done..| | |].
      * apply list_lookup_insert_eq. by eapply lookup_lt_Some.
      * intros j Hj. by apply list_lookup_insert_ne.
      * apply length_insert.
    + intros ->%(proj2 (upsert_tag_cases _ _)).
      split; [done|]. rewrite length_app. simpl. lia.
Qed.

(** Alice upserts "Work" in a new color, then the tag "later": the first
    keeps the two categories, with "Work" in the new color at its place;
    the second makes the tag list one longer. *)
Lemma upsert_by_name_witness :
  UserService.get_user Example.db 1 = Some Example.alice /\
  (exists db' user',
     UserService.create_category Example.db 1 Example.Work_green
     = (Some Example.Work_green, db') /\
     UserService.get_user db' 1 = Some user' /\
     UserService.get_categories db' 1 = User.categories user' /\
     User.tags user' = [Example.urgent] /\
     length (User.categories user') = 2%nat /\
     Example.Work_green ∈ User.categories user') /\
  (exists db' user',
     UserService.create_tag Example.db 1 Example.later = (Some Example.later, db') /\
     UserService.get_user db' 1 = Some user' /\
     UserService.get_tags db' 1 = User.tags user' /\
     User.tags user' = [Example.urgent; Example.later]).
Proof.
  split; [reflexivity|]. split.
  - destruct (proj1 upsert_by_name Example.db 1 Example.Work_green Example.alice eq_refl)
      as (db' & user' & Hret & Hget & Hlist & _ & Htags & Hpresent & _).
    exists db', user'. split_and!; [done..| |].
    + destruct Hpresent as (i & old & _ & _ & _ & _ & _ & ->); [compute_done | done].
    + destruct Hpresent as (i & old & _ & _ & _ & Hi & _); [compute_done|].
      by eapply list_elem_of_lookup_2.
  - destruct (proj2 upsert_by_name Example.db 1 Example.later Example.alice eq_refl)
      as (db' & user' & Hret & Hget & Hlist & _ & _ & _ & Habsent).
    exists db', user'. split_and!; [done..|].
    destruct Habsent as [-> _]; [compute_done | done].
Defined.

(** The scenario of the specification: "Work" in red, then "Work" in green,
    leaves exactly one category "Work", and it is green. *)
Example upsert_work_twice :
  let '(_, db1) := UserService.create_category Example.db 2 Example.Work in
  let '(r, db2) := UserService.create_category db1 2 Example.Work_green in
  r = Some Example.Work_green /\
  UserService.get_categories db2 2 = [Example.General; Example.Work_green].
Proof. vm_compute. by split. Qed.

(** C7.  For a user that exists, [delete_category] returns the entries of
    the user's list whose name is the given one, and the user is stored
    with the list of those whose name is not, which [get_categories] then
    returns, and with every other attribute as it was; both lists are in
    the order of the user's list, and together they are its entries.  When
    no entry has the name, it returns the empty list and the user is
    stored as before.  [delete_tag] does the same on the tag list. *)
Theorem delete_by_name :
  (forall (db : Db.t) (user_id : Z) (category_name : str) (user : User.t),
     UserService.get_user db user_id = Some user ->
     exists (db' : Db.t) (deleted : list Category.t) (user' : User.t),
       let l := User.categories user in
       let kept := User.categories user' in
       UserService.delete_category db user_id category_name = (Some deleted, db') /\
       UserService.get_user db' user_id = Some user' /\
       UserService.get_categories db' user_id = kept /\
       Inv.profile user' = Inv.profile user /\
       User.tags user' = User.tags user /\
       Forall (fun c => Category.name c = category_name) deleted /\
       Forall (fun c => Category.name c <> category_name) kept /\
       deleted `sublist_of` l /\ kept `sublist_of` l /\ deleted ++ kept ≡ₚ l /\
       (forall c, c ∈ l -> Category.name c = category_name -> c ∈ deleted /\ c ∉ kept) /\
       (forall c, c ∈ l -> Category.name c <> category_name -> c ∈ kept /\ c ∉ deleted) /\
       (Forall (fun c => Category.name c <> category_name) l ->
        deleted = [] /\ kept = l /\ user' = user)) /\
  (forall (db : Db.t) (user_id : Z) (tag_name : str) (user : User.t),
     UserService.get_user db user_id = Some user ->
     exists (db' : Db.t) (deleted : list Tag.t) (user' : User.t),
       let l := User.tags user in
       let kept := User.tags user' in
       UserService.delete_tag db user_id tag_name = (Some deleted, db') /\
       UserService.get_user db' user_id = Some user' /\
       UserService.get_tags db' user_id = kept /\
       Inv.profile user' = Inv.profile user /\
       User.categories user' = User.categories user /\
       Forall (fun c => Tag.name c = tag_name) deleted /\
       Forall (fun c => Tag.name c <> tag_name) kept /\
       deleted `sublist_of` l /\ kept `sublist_of` l /\ deleted ++ kept ≡ₚ l /\
       (forall c, c ∈ l -> Tag.name c = tag_name -> c ∈ deleted /\ c ∉ kept) /\
       (forall c, c ∈ l -> Tag.name c <> tag_name -> c ∈ kept /\ c ∉ deleted) /\
       (Forall (fun c => Tag.name c <> tag_name) l ->
        deleted = [] /\ kept = l /\ user' = user)).
Proof.
  split.
  - intros db user_id category_name user (i & Hfind & Hid)%get_user_Some.
    exists (snd (UserService.delete_category db user_id category_name)),
      (filter (fun c => Category.name c = category_name) (User.categories user)),
      (User.set_categories
         (filter (fun c => Category.name c <> category_name) (User.categories user))
         user).
    unfold UserService.delete_category, UserService.get_categories.
    rewrite Hfind. simpl.
    rewrite (first_insert _ _ _ _
               (User.set_categories
                  (filter (fun c => Category.name c <> category_name)
                     (User.categories user)) user) Hfind) by done.
    split_and!; [done | by erewrite get_user_commit | done | done | done | ..].
    + apply Forall_forall. by intros c [? _]%list_elem_of_filter.
    + apply Forall_forall. by intros c [? _]%list_elem_of_filter.
    + apply sublist_filter.
    + apply sublist_filter.
    + apply filter_app_complement.
    + intros c Hc Hn. rewrite !list_elem_of_filter. tauto.
    + intros c Hc Hn. rewrite !list_elem_of_filter. tauto.
    + intros Hall. rewrite (filter_all _ _ Hall), filter_none.
      * by rewrite set_categories_id.
      * eapply Forall_impl; [exact Hall|]. naive_solver.
  - intros db user_id tag_name user (i & Hfind & Hid)%get_user_Some.
    exists (snd (UserService.delete_tag db user_id tag_name)),
      (filter (fun c => Tag.name c = tag_name) (User.tags user)),
      (User.set_tags (filter (fun c => Tag.name c <> tag_name) (User.tags user)) user).
    unfold UserService.delete_tag, UserService.get_tags.
    rewrite Hfind. simpl.
    rewrite (first_insert _ _ _ _
               (User.set_tags (filter (fun c => Tag.name c <> tag_name) (User.tags user))
                  user) Hfind) by done.
    split_and!; [done | by erewrite get_user_commit | done | done | done | ..].
    + apply Forall_forall. by intros c [? _]%list_elem_of_filter.
    + apply Forall_forall. by intros c [? _]%list_elem_of_filter.
    + apply sublist_filter.
    + apply sublist_filter.
    + apply filter_app_complement.
    + intros c Hc Hn. rewrite !list_elem_of_filter. tauto.
    + intros c Hc Hn. rewrite !list_elem_of_filter. tauto.
    + intros Hall. rewrite (filter_all _ _ Hall), filter_none.
      * by rewrite set_tags_id.
      * eapply Forall_impl; [exact Hall|]. naive_solver.
Qed.

(** Alice deletes the category "Home", which she does not have, and the
    tag "urgent", which she has: her categories are stored as before, and
    no tag is left. *)
Lemma delete_by_name_witness :
  UserService.get_user Example.db 1 = Some Example.alice /\
  (exists db',
     UserService.delete_category Example.db 1 (Py.lit "Home") = (Some [], db') /\
     UserService.get_user db' 1 = Some Example.alice) /\
  (exists db' deleted user',
     UserService.delete_tag Example.db 1 (Py.lit "urgent") = (Some deleted, db') /\
     UserService.get_user db' 1 = Some user' /\
     UserService.get_tags db' 1 = User.tags user' /\
     Example.urgent ∈ deleted /\ (Example.urgent ∉ User.tags user') /\
     User.categories user' = [Example.General; Example.Work]).
Proof.
  split; [reflexivity|]. split.
  - destruct (proj1 delete_by_name Example.db 1 (Py.lit "Home") Example.alice eq_refl)
      as (db' & deleted & user' & Hret & Hget & _ & _ & _ & _ & _ & _ & _ & _ & _ & _
          & Hnone).
    destruct Hnone as (-> & _ & ->); [compute_done|].
    by exists db'.
  - destruct (proj2 delete_by_name Example.db 1 (Py.lit "urgent") Example.alice eq_refl)
      as (db' & deleted & user' & Hret & Hget & Hlist & _ & Hcats & _ & _ & _ & _ & _
          & Hdel & _).
    exists db', deleted, user'.
    destruct (Hdel Example.urgent) as [Hin Hout]; [apply list_elem_of_here | done |].
    by split_and!.
Defined.

Example delete_urgent :
  UserService.delete_tag Example.db 1 (Py.lit "urgent")
  = (Some [Example.urgent],
     Db.commit_users [User.set_tags [] Example.alice; Example.bob] Example.db).
Proof. reflexivity. Qed.

(* ===================================================================== *)
(** ** Task store: the categories in use *)
(* ===================================================================== *)

Lemma str_leb_total (a b : str) : Py.str_leb a b = true \/ Py.str_leb b a = true.
Proof.
  revert b. induction a as [|x a IH]; intros [|y b]; simpl; auto.
  destruct (N.ltb_spec x y), (N.ltb_spec y x), (N.eqb_spec x y), (N.eqb_spec y x);
    auto; lia.
Qed.

Lemma str_leb_trans (a b c : str) :
  Py.str_leb a b = true -> Py.str_leb b c = true -> Py.str_leb a c = true.
Proof.
  revert b c. induction a as [|x a IH]; intros [|y b] [|z c]; simpl; auto; try done.
  destruct (N.ltb_spec x y), (N.ltb_spec y z), (N.ltb_spec x z),
    (N.eqb_spec x y), (N.eqb_spec y z), (N.eqb_spec x z);
    try done; try lia; eauto.
Qed.

#[local] Instance str_le_total : Total Py.str_le.
Proof. intros a b. apply str_leb_total. Qed.

#[local] Instance str_le_trans : Transitive Py.str_le.
Proof. intros a b c. apply str_leb_trans. Qed.

(** [sorted] arranges its argument in order and neither adds, drops nor
    repeats a member. *)
Lemma sorted_StronglySorted (l : list str) : StronglySorted Py.str_le (Py.sorted l).
Proof. apply StronglySorted_merge_sort; apply _. Qed.

Lemma sorted_Permutation (l : list str) : Py.sorted l ≡ₚ l.
Proof. apply merge_sort_Permutation. Qed.

(** The categories of the rows that [DISTINCT ON] keeps are those of all
    the rows (that were not seen before). *)
Lemma distinct_on_category_elem (seen : list str) (rows : list Task.t) (c : str) :
  c ∈ (Task.category <$> TaskService.distinct_on_category seen rows) <->
  (c ∉ seen) /\ c ∈ (Task.category <$> rows).
Proof.
  revert seen. induction rows as [|x rows IH]; intros seen; simpl.
  - rewrite elem_of_nil. tauto.
  - case_decide as Hseen; simpl.
    + rewrite IH, elem_of_cons. split; [tauto|].
      intros [Hc [->|Hin]]; [done | tauto].
    + rewrite !elem_of_cons, IH, not_elem_of_cons.
      destruct (decide (c = Task.category x)) as [->|Hne]; tauto.
Qed.

(** The members of [TaskService.get_categories]. *)
Lemma get_categories_elem (db : Db.t) (owner_id : Z) (c : str) :
  c ∈ TaskService.get_categories db owner_id <->
  exists x, x ∈ Db.tasks db /\ Task.owner_id x = owner_id /\ Task.category x = c.
Proof.
  unfold TaskService.get_categories, Py.set.
  rewrite sorted_Permutation, elem_of_elements, elem_of_list_to_set.
  rewrite distinct_on_category_elem, list_elem_of_fmap.
  setoid_rewrite list_elem_of_filter. split.
  - intros (_ & x & -> & ? & ?). eauto.
  - intros (x & ? & ? & <-). split; [apply not_elem_of_nil|]. eauto.
Qed.

(** The members of [TaskServiceJson.get_categories], for any order in which
    the set is iterated. *)
Lemma get_categories_json_elem
    (list_of_set : gset (option str) -> list (option str))
    (tasks : list JsonTask.t) (owner_id : Z) (c : option str) :
  TaskServiceJson.iteration_order list_of_set ->
  c ∈ TaskServiceJson.get_categories list_of_set tasks owner_id <->
  exists t, t ∈ tasks /\ (owner_id <> 0 -> JsonTask.owner_id t = Some owner_id)
            /\ match JsonTask.category t with
               | None => c = Some (Py.lit "General")
               | Some v => c = v
               end.
Proof.
  intros Horder. unfold TaskServiceJson.get_categories, Py.set.
  rewrite (Horder _), elem_of_elements, elem_of_list_to_set, list_elem_of_fmap.
  assert (forall t : JsonTask.t,
            c = default (Some (Py.lit "General")) (JsonTask.category t) <->
            match JsonTask.category t with
            | None => c = Some (Py.lit "General")
            | Some v => c = v
            end) as Hval.
  { intros t. by destruct (JsonTask.category t). }
  case_decide as Hz.
  - setoid_rewrite list_elem_of_filter. split.
    + intros (t & ?%Hval & ? & ?). eauto.
    + intros (t & ? & Ho & ?%Hval). eauto.
  - split.
    + intros (t & ?%Hval & ?). exists t. split_and!; [done| |done]. intros ?. lia.
    + intros (t & ? & _ & ?%Hval). eauto.
Qed.

(** C6, as the code has it.  [TaskService.get_categories] returns, for
    every owner id, the category labels of that owner's tasks, each once,
    in lexicographic order.  [TaskServiceJson.get_categories] returns each
    of its values once as well, in whatever order the set is iterated; the
    values are those of the owner's tasks when the owner id is not 0, and
    those of all the tasks in the file when it is 0.  The value of a task
    is its label, "General" when it has no key [category], and [None] when
    the key holds [null]. *)
Theorem categories_in_use :
  (forall (db : Db.t) (owner_id : Z),
     let r := TaskService.get_categories db owner_id in
     StronglySorted Py.str_le r /\ NoDup r /\
     forall c, c ∈ r <->
               exists x, x ∈ Db.tasks db /\ Task.owner_id x = owner_id
                         /\ Task.category x = c) /\
  (forall (list_of_set : gset (option str) -> list (option str))
          (tasks : list JsonTask.t) (owner_id : Z),
     TaskServiceJson.iteration_order list_of_set ->
     let r := TaskServiceJson.get_categories list_of_set tasks owner_id in
     NoDup r /\
     forall c, c ∈ r <->
               exists t, t ∈ tasks
                         /\ (owner_id <> 0 -> JsonTask.owner_id t = Some owner_id)
                         /\ match JsonTask.category t with
                            | None => c = Some (Py.lit "General")
                            | Some v => c = v
                            end).
Proof.
  split.
  - intros db owner_id r. split_and!.
    + apply sorted_StronglySorted.
    + unfold r, TaskService.get_categories.
      rewrite sorted_Permutation. apply NoDup_elements.
    + intros c. apply get_categories_elem.
  - intros list_of_set tasks owner_id Horder r. split.
    + unfold r, TaskServiceJson.get_categories.
      rewrite (Horder _). apply NoDup_elements.
    + intros c. by apply get_categories_json_elem.
Qed.

Lemma elements_iteration_order : TaskServiceJson.iteration_order elements.
Proof. by intros s. Qed.

(** Alice's labels from the database, and from a JSON file in which one of
    her tasks has the label [null] and another has none, under the
    iteration order of [elements]. *)
Lemma categories_in_use_witness :
  TaskServiceJson.iteration_order elements /\
  TaskService.get_categories Example.db 1 = [Py.lit "General"; Py.lit "Work"] /\
  NoDup (TaskServiceJson.get_categories elements Example.store_null 1) /\
  (Some (Py.lit "Work") ∈ TaskServiceJson.get_categories elements Example.store_null 1) /\
  (None ∈ TaskServiceJson.get_categories elements Example.store_null 1) /\
  (Some (Py.lit "Home") ∉ TaskServiceJson.get_categories elements Example.store_null 1).
Proof.
  split; [exact elements_iteration_order|]. split; [by vm_compute|].
  destruct (proj2 categories_in_use elements Example.store_null 1
              elements_iteration_order) as [Hnd Hmem].
  split_and!; [exact Hnd | | |].
  - apply Hmem. exists (Example.json_row Example.ship_it).
    split_and!; [apply list_elem_of_here | done..].
  - apply Hmem. eexists. split_and!; [do 3 apply list_elem_of_further;
                                       apply list_elem_of_here | done..].
  - intros (t & Ht & Ho & Hc)%Hmem.
    unfold Example.store_null, Example.store in Ht. simpl in Ht.
    rewrite !elem_of_cons, elem_of_nil in Ht.
    destruct Ht as [-> | [-> | [-> | [-> | [-> | []]]]]]; simpl in Hc; try discriminate Hc.
    specialize (Ho ltac:(lia)). discriminate Ho.
Defined.

(** The claim of C6 fails on the JSON store for the owner id 0: there the
    filter on the owner is skipped, and the labels of everybody's tasks are
    returned, although no task belongs to an owner 0. *)
Lemma categories_in_use_json_owner_zero :
  ~ (forall c,
       c ∈ TaskServiceJson.get_categories elements Example.store 0 <->
       exists t, t ∈ Example.store /\ JsonTask.owner_id t = Some 0
                 /\ match JsonTask.category t with
                    | None => c = Some (Py.lit "General")
                    | Some v => c = v
                    end).
Proof.
  intros Hclaim.
  assert (Some (Py.lit "Home")
            ∈ TaskServiceJson.get_categories elements Example.store 0) as Hin.
  { apply (get_categories_json_elem _ _ _ _ elements_iteration_order).
    exists (Example.json_row Example.groceries). split_and!; [|done..].
    apply list_elem_of_further, list_elem_of_here. }
  apply Hclaim in Hin as (t & Ht & Ho & _).
  unfold Example.store in Ht. simpl in Ht.
  rewrite !elem_of_cons, elem_of_nil in Ht.
  destruct Ht as [-> | [-> | [-> | []]]]; discriminate Ho.
Qed.

(** Nor is the list of the JSON store in lexicographic order under every
    iteration order: under the descending one, Alice's labels come out as
    "Work", "General". *)
Lemma categories_in_use_json_order :
  TaskServiceJson.iteration_order Example.descending /\
  TaskServiceJson.get_categories Example.descending Example.store 1
  = [Some (Py.lit "Work"); Some (Py.lit "General")] /\
  ~ Sorted Py.str_le [Py.lit "Work"; Py.lit "General"].
Proof.
  split_and!.
  - intros s. unfold Example.descending.
    by rewrite reverse_Permutation, merge_sort_Permutation.
  - by vm_compute.
  - intros Hs. apply Sorted_inv in Hs as [_ Hhd]. apply HdRel_inv in Hhd.
    by vm_compute in Hhd.
Qed.

(** A label that is [null] in the file comes out as [None], not as
    "General"; only the task without the key counts as "General". *)
Example get_categories_json_null :
  TaskServiceJson.get_categories Example.descending Example.store_null 1
  = [Some (Py.lit "Work"); Some (Py.lit "General"); None] /\
  TaskServiceJson.get_categories Example.descending
    [ {| JsonTask.id := Some 4; JsonTask.task_id := None; JsonTask.owner_id := Some 1;
         JsonTask.category := Some None; JsonTask.fields := [] |} ] 1
  = [None].
Proof. split; by vm_compute. Qed.

(* ===================================================================== *)
(** ** Task store: update *)
(* ===================================================================== *)

Section update_fields.

Import TaskData.

Lemma setattr_getattr_eq (x : Task.t) (it : item) :
  TaskService.hasattr it = true ->
  TaskService.getattr (TaskService.setattr x it) (key it) = Some (val it).
Proof. by destruct it. Qed.

Lemma setattr_getattr_ne (x : Task.t) (it : item) (field : string) :
  field <> key it ->
  TaskService.getattr (TaskService.setattr x it) field = TaskService.getattr x field.
Proof.
  intros Hne. unfold TaskService.getattr.
  destruct it; simpl in *; repeat case_decide; congruence.
Qed.

Lemma update_fields_cons (x : Task.t) (it : item) (items : list item) :
  TaskService.update_fields x (it :: items)
  = TaskService.update_fields
      (if TaskService.hasattr it then TaskService.setattr x it else x) items.
Proof. done. Qed.

(** The loop leaves alone every attribute that is not a key of the
    dictionary. *)
Lemma update_fields_frame (x : Task.t) (items : list item) (field : string) :
  field ∉ (key <$> items) ->
  TaskService.getattr (TaskService.update_fields x items) field
  = TaskService.getattr x field.
Proof.
  revert x. induction items as [|it items IH]; intros x Hnot; [done|].
  rewrite fmap_cons, not_elem_of_cons in Hnot. destruct Hnot as [Hne Hnot].
  rewrite update_fields_cons, IH by done.
  destruct (TaskService.hasattr it); [|done]. by apply setattr_getattr_ne.
Qed.

(** The loop stores every value of the dictionary under its key. *)
Lemma update_fields_supplied (x : Task.t) (items : list item) (it : item) :
  is_dict items -> it ∈ items -> TaskService.hasattr it = true ->
  TaskService.getattr (TaskService.update_fields x items) (key it) = Some (val it).
Proof.
  unfold is_dict. revert x.
  induction items as [|it0 items IH]; intros x Hnd Hin Hattr.
  - by apply elem_of_nil in Hin.
  - rewrite fmap_cons in Hnd. apply NoDup_cons in Hnd as [Hfresh Hnd].
    rewrite update_fields_cons.
    apply elem_of_cons in Hin as [<- | Hin]; [|by apply IH].
    rewrite update_fields_frame by done.
    rewrite Hattr. by apply setattr_getattr_eq.
Qed.

(** The loop changes the id only under the key [id], and the owner only
    under the key [owner_id]. *)
Lemma update_fields_keeps_id (x : Task.t) (items : list item) :
  "id"%string ∉ (key <$> items) ->
  Task.id (TaskService.update_fields x items) = Task.id x.
Proof.
  intros Hnot. pose proof (update_fields_frame x items "id" Hnot) as Hframe.
  unfold TaskService.getattr in Hframe. simpl in Hframe. congruence.
Qed.

Lemma update_fields_keeps_owner_id (x : Task.t) (items : list item) :
  "owner_id"%string ∉ (key <$> items) ->
  Task.owner_id (TaskService.update_fields x items) = Task.owner_id x.
Proof.
  intros Hnot. pose proof (update_fields_frame x items "owner_id" Hnot) as Hframe.
  unfold TaskService.getattr in Hframe. simpl in Hframe. congruence.
Qed.

Lemma update_fields_scoped (owner_id task_id : Z) (x : Task.t) (items : list item) :
  "id"%string ∉ (key <$> items) -> "owner_id"%string ∉ (key <$> items) ->
  TaskService.scoped owner_id task_id x ->
  TaskService.scoped owner_id task_id (TaskService.update_fields x items).
Proof.
  intros Hid Ho [? ?]. split.
  - by rewrite update_fields_keeps_id.
  - by rewrite update_fields_keeps_owner_id.
Qed.

(** With neither key in the dictionary no constraint can object: the
    task found is written back at its position. *)
Lemma update_task_in_place (db : Db.t) (owner_id task_id : Z) (task_data : list item)
    (i : nat) (x : Task.t) :
  "id"%string ∉ (key <$> task_data) -> "owner_id"%string ∉ (key <$> task_data) ->
  Db.first (TaskService.scoped owner_id task_id) (Db.tasks db) = Some (i, x) ->
  TaskService.update_task db owner_id task_id task_data
  = (Return (Some (TaskService.update_fields x task_data)),
     Db.commit_tasks (<[i := TaskService.update_fields x task_data]> (Db.tasks db)) db).
Proof.
  intros Hid Ho Hfind. unfold TaskService.update_task. rewrite Hfind.
  rewrite decide_False by (rewrite update_fields_keeps_id by done; tauto).
  by rewrite decide_False by (rewrite update_fields_keeps_owner_id by done; tauto).
Qed.

(** At the store, an update is partial: for a task in scope and a
    dictionary that leaves the id and the owner alone, [update_task]
    stores and returns the task with the value of each item under its key
    and with every other attribute as it was. *)
Lemma update_task_partial (db : Db.t) (owner_id task_id : Z) (task_data : list item)
    (x : Task.t) :
  is_dict task_data ->
  "id"%string ∉ (key <$> task_data) -> "owner_id"%string ∉ (key <$> task_data) ->
  TaskService.get_task db owner_id task_id = Some x ->
  exists x' db',
    TaskService.update_task db owner_id task_id task_data = (Return (Some x'), db') /\
    TaskService.get_task db' owner_id task_id = Some x' /\
    (forall it, it ∈ task_data -> TaskService.hasattr it = true ->
                TaskService.getattr x' (key it) = Some (val it)) /\
    (forall field, field ∉ (key <$> task_data) ->
                   TaskService.getattr x' field = TaskService.getattr x field).
Proof.
  intros Hdict Hid Ho Hget. unfold TaskService.get_task in *.
  apply fmap_Some in Hget as ([i x0] & Hfind & ->). simpl.
  rewrite (update_task_in_place _ _ _ _ _ _ Hid Ho Hfind).
  assert (TaskService.scoped owner_id task_id x0) as Hx.
  { unfold Db.first in Hfind. by apply list_find_Some in Hfind as (_ & ? & _). }
  eexists _, _. split_and!; [done | | |].
  - simpl. erewrite first_insert; [done | exact Hfind |].
    by apply update_fields_scoped.
  - intros it. by apply update_fields_supplied.
  - intros field. by apply update_fields_frame.
Qed.

(** The dictionary that the route builds from a [TaskUpdate] is a
    dictionary, and [priority] is always one of its keys. *)
Lemma update_data_is_dict (payload : TaskUpdate.t) : is_dict (Api.update_data payload).
Proof.
  destruct payload as [[?|] [?|] [?|] [?|] [?|] [?|] [?|] ?];
    unfold is_dict; compute_done.
Qed.

(** Its keys are fields of [TaskUpdate]: [id] and [owner_id] are not among
    them, and none of them is foreign to a task row. *)
Lemma update_data_keys (payload : TaskUpdate.t) :
  well_keyed (Api.update_data payload) /\
  ("id"%string ∉ (key <$> Api.update_data payload)) /\
  ("owner_id"%string ∉ (key <$> Api.update_data payload)).
Proof.
  destruct payload as [[?|] [?|] [?|] [?|] [?|] [?|] [?|] ?];
    (split; [unfold well_keyed; by repeat constructor | split; compute_done]).
Qed.

Lemma update_data_priority (payload : TaskUpdate.t) :
  I_priority (TaskUpdate.priority payload) ∈ Api.update_data payload.
Proof.
  unfold Api.update_data. rewrite !elem_of_app. do 7 right. apply list_elem_of_here.
Qed.

(** A body without [priority] validates to a payload with [priority] 0. *)
Lemma TaskUpdate_new_priority (body : TaskUpdate.body) (payload : TaskUpdate.t) :
  TaskUpdate.b_priority body = None ->
  TaskUpdate.new body = Return payload ->
  TaskUpdate.priority payload = 0.
Proof.
  unfold TaskUpdate.new. intros ->.
  destruct (TaskUpdate.validate_name _); [|done]. simpl.
  by intros [= <-].
Qed.

(** So a [PUT] whose body does not name [priority] stores the task with
    [priority] 0, whatever it was. *)
Lemma put_task_without_priority (db : Db.t) (task_id : Z) (body : TaskUpdate.body)
    (current_user : User.t) (x' : Task.t) (db' : Db.t) :
  TaskUpdate.b_priority body = None ->
  Api.put_task db task_id body current_user = (Return x', db') ->
  Task.priority x' = 0 /\
  TaskService.get_task db' (User.id current_user) task_id = Some x'.
Proof.
  intros Hnone. unfold Api.put_task, Api.update_task.
  destruct (TaskUpdate.new body) as [payload|] eqn:Hnew; [|done].
  destruct (TaskService.get_task db (User.id current_user) task_id) as [x|] eqn:Hget.
  - destruct (update_data_keys payload) as (_ & Hid & Ho).
    destruct (update_task_partial db (User.id current_user) task_id
                (Api.update_data payload) x (update_data_is_dict payload) Hid Ho Hget)
      as (x1 & db1 & -> & Hget1 & Hsup & _).
    intros [= <- <-]. split; [|done].
    specialize (Hsup _ (update_data_priority payload) eq_refl).
    unfold TaskService.getattr in Hsup. simpl in Hsup.
    injection Hsup as ->. by eapply TaskUpdate_new_priority.
  - unfold TaskService.get_task in Hget. apply fmap_None in Hget.
    unfold TaskService.update_task. by rewrite Hget.
Qed.

End update_fields.

(** Out of scope, the route answers 500 with the text of the 404. *)
Example put_task_out_of_scope :
  Api.put_task Example.db 1 Example.name_only Example.bob
  = (Raise (HTTPException 500 "404: Task not found or not owned by you"), Example.db).
Proof. reflexivity. Qed.

(** C3, at the input where the code departs from it.  Alice's task "Ship
    it" has priority 2.  She sends [PUT /tasks/1] with the body
    [{"name": "Ship it today"}].  The task is stored and returned with the
    new name and with priority 0: [TaskUpdate] declares [priority: int = 0],
    so the dictionary that reaches [update_task] has the key [priority]
    although the body did not. *)
Theorem put_task_name_only_resets_priority :
  TaskService.get_task Example.db 1 1 = Some Example.ship_it /\
  Task.priority Example.ship_it = 2 /\
  (exists payload,
     TaskUpdate.new Example.name_only = Return payload /\
     Api.update_data payload
     = [TaskData.I_name (Py.lit "Ship it today"); TaskData.I_priority 0]) /\
  (exists db',
     Api.put_task Example.db 1 Example.name_only Example.alice
     = (Return (Task.set_priority 0
                  (Task.set_name (Py.lit "Ship it today") Example.ship_it)), db') /\
     Task.priority <$> TaskService.get_task db' 1 1 = Some 0).
Proof.
  split_and!; [reflexivity | reflexivity | | ].
  - eexists. split; by vm_compute.
  - eexists. split; by vm_compute.
Qed.

(* ===================================================================== *)
(** ** Task store: create, then get *)
(* ===================================================================== *)

(** A row appended under a key that no row of the table has is what a
    query by that key finds. *)
Lemma first_append_fresh {A : Type} (P : A -> Prop) `{!forall x, Decision (P x)}
    (l : list A) (x : A) :
  Forall (fun y => ~ P y) l -> P x -> Db.first P (l ++ [x]) = Some (length l, x).
Proof.
  intros Hfresh Hx. unfold Db.first.
  rewrite list_find_app_r by by apply list_find_None.
  simpl. by rewrite decide_True.
Qed.




(** Without the owner in [users] the insert fails on the foreign key: no
    row is added, and the id that was drawn is spent. *)
Example create_task_unknown_owner :
  TaskService.create_task Example.db
    {| TaskCreate.owner_id := 9; TaskCreate.name := Py.lit "Plan";
       TaskCreate.description := []; TaskCreate.category := Py.lit "General";
       TaskCreate.dueDate := None; TaskCreate.parameters := [];
       TaskCreate.completed := false; TaskCreate.tags := [];
       TaskCreate.priority := 0 |}
  = (Raise (IntegrityError "tasks_owner_id_fkey"),
     snd (Db.nextval_tasks Example.db)).
Proof. reflexivity. Qed.

(** Drafts that do not pass validation. *)
Example TaskCreate_rejects :
  TaskCreate.new
    {| TaskCreate.d_owner_id := 1; TaskCreate.d_name := Py.lit "   ";
       TaskCreate.d_description := None; TaskCreate.d_category := None;
       TaskCreate.d_dueDate := None; TaskCreate.d_parameters := None;
       TaskCreate.d_completed := None; TaskCreate.d_tags := None;
       TaskCreate.d_priority := None |}
  = Raise (ValidationError "Task name cannot be empty") /\
  TaskCreate.new
    {| TaskCreate.d_owner_id := 1; TaskCreate.d_name := Py.lit "Plan";
       TaskCreate.d_description := None; TaskCreate.d_category := None;
       TaskCreate.d_dueDate := None; TaskCreate.d_parameters := None;
       TaskCreate.d_completed := None; TaskCreate.d_tags := None;
       TaskCreate.d_priority := Some 4 |}
  = Raise (ValidationError "A tasks priority must be in the interval [0,3]").
Proof. split; reflexivity. Qed.

(* ===================================================================== *)
(** ** User store: update *)
(* ===================================================================== *)

Section update_user.

Import UserData.

Lemma Category_new_ok (n c : str) :
  Py.strip n <> [] ->
  Category.new n c = Return {| Category.name := Py.strip n; Category.color := c |}.
Proof.
  intros Hn. unfold Category.new, Category.validate_category_name.
  destruct n as [|x n]; [done|]. simpl Py.truthy at 1.
  by destruct (Py.strip (x :: n)).
Qed.

Lemma Tag_new_ok (n c : str) :
  Py.strip n <> [] ->
  Tag.new n c = Return {| Tag.name := Py.strip n; Tag.color := c |}.
Proof.
  intros Hn. unfold Tag.new, Tag.validate_tag_name.
  destruct n as [|x n]; [done|]. simpl Py.truthy at 1.
  by destruct (Py.strip (x :: n)).
Qed.

Lemma traverse_ok {A B : Type} (f : A -> result B) (l : list A) :
  Forall (fun x => exists y, f x = Return y) l -> exists ys, traverse f l = Return ys.
Proof.
  induction 1 as [|x l [y Hy] _ [ys IH]]; simpl; [by eexists|].
  rewrite Hy, IH. by eexists.
Qed.

(** One turn of the loop: the id stays, the item is applied, and what the
    row held under the other keys stays. *)
Lemma update_field_id (u u' : User.t) (it : item) :
  UserService.update_field u it = Return u' -> User.id u' = User.id u.
Proof.
  destruct it; unfold UserService.update_field; simpl; try (by intros [= <-]);
    destruct (traverse _ _); by intros [= <-].
Qed.

Lemma Category_model_dump_fmap (l : list Category.t) : Category.model_dump <$> l = l.
Proof. apply list_fmap_id. Qed.

Lemma Tag_model_dump_fmap (l : list Tag.t) : Tag.model_dump <$> l = l.
Proof. apply list_fmap_id. Qed.

Lemma update_field_applied (u u' : User.t) (it : item) :
  UserService.update_field u it = Return u' -> applied it u'.
Proof.
  destruct it; unfold UserService.update_field; simpl; try (by intros [= <-]);
    destruct (traverse _ _) eqn:Ht; intros [= <-]; simpl;
    by rewrite ?Category_model_dump_fmap, ?Tag_model_dump_fmap.
Qed.

Lemma update_field_preserves (u u' : User.t) (it it' : item) :
  key it' <> key it ->
  UserService.update_field u it = Return u' -> applied it' u -> applied it' u'.
Proof.
  intros Hne Hstep.
  destruct it; unfold UserService.update_field in Hstep; simpl in Hstep;
    try destruct (traverse _ _); simplify_eq;
    destruct it'; simpl in *; done.
Qed.

Lemma update_field_username (u u' : User.t) (it : item) :
  UserService.update_field u it = Return u' ->
  User.username u' = User.username u \/ it = I_username (User.username u').
Proof.
  destruct it; unfold UserService.update_field; simpl; try (by intros [= <-]; auto);
    destruct (traverse _ _); intros [= <-]; auto.
Qed.

Lemma update_field_acceptable (usernames : list str) (own : str) (u : User.t) (it : item) :
  acceptable usernames own it -> exists u', UserService.update_field u it = Return u'.
Proof.
  destruct it; unfold UserService.update_field; simpl; try (by eexists); intros Hok.
  - destruct (traverse_ok (fun cat => Category.new (Category.name cat) (Category.color cat)) v)
      as [cs ->]; [|by eexists].
    eapply Forall_impl; [exact Hok|]. intros c Hc. simpl in Hc.
    eexists. by apply Category_new_ok.
  - destruct (traverse_ok (fun tag => Tag.new (Tag.name tag) (Tag.color tag)) v)
      as [cs ->]; [|by eexists].
    eapply Forall_impl; [exact Hok|]. intros c Hc. simpl in Hc.
    eexists. by apply Tag_new_ok.
Qed.

(** The loop. *)
Lemma update_fields_id (u u' : User.t) (items : list item) :
  UserService.update_fields u items = Return u' -> User.id u' = User.id u.
Proof.
  revert u. induction items as [|it items IH]; intros u; simpl; [by intros [= <-]|].
  destruct (UserService.update_field u it) as [u1|] eqn:Hstep; [|done].
  intros ->%IH. by eapply update_field_id.
Qed.

Lemma update_fields_preserves (u u' : User.t) (items : list item) (it' : item) :
  key it' ∉ (key <$> items) ->
  UserService.update_fields u items = Return u' -> applied it' u -> applied it' u'.
Proof.
  revert u. induction items as [|it items IH]; intros u Hnot; simpl;
    [by intros [= <-]|].
  rewrite fmap_cons, not_elem_of_cons in Hnot. destruct Hnot as [Hne Hnot].
  destruct (UserService.update_field u it) as [u1|] eqn:Hstep; [|done].
  intros Hrest Hu. eapply IH; [done..|]. by eapply update_field_preserves.
Qed.

Lemma update_fields_applied (u u' : User.t) (items : list item) :
  is_dict items ->
  UserService.update_fields u items = Return u' ->
  forall it, it ∈ items -> applied it u'.
Proof.
  unfold is_dict. revert u.
  induction items as [|it0 items IH]; intros u Hnd Hloop it Hin.
  - by apply elem_of_nil in Hin.
  - rewrite fmap_cons in Hnd. apply NoDup_cons in Hnd as [Hfresh Hnd].
    simpl in Hloop.
    destruct (UserService.update_field u it0) as [u1|] eqn:Hstep; [|done].
    apply elem_of_cons in Hin as [-> | Hin]; [|by eapply IH].
    eapply update_fields_preserves; [done..|]. by eapply update_field_applied.
Qed.

Lemma update_fields_username (u u' : User.t) (items : list item) :
  UserService.update_fields u items = Return u' ->
  User.username u' = User.username u \/ I_username (User.username u') ∈ items.
Proof.
  revert u. induction items as [|it items IH]; intros u; simpl;
    [intros [= <-]; auto|].
  destruct (UserService.update_field u it) as [u1|] eqn:Hstep; [|done].
  intros [Heq | Hin]%IH.
  - rewrite Heq. apply update_field_username in Hstep as [-> | ->]; [auto|].
    right. rewrite <- Heq. apply list_elem_of_here.
  - right. by apply list_elem_of_further.
Qed.

Lemma update_fields_acceptable (usernames : list str) (own : str) (u : User.t)
    (items : list item) :
  Forall (acceptable usernames own) items ->
  exists u', UserService.update_fields u items = Return u'.
Proof.
  intros Hok. revert u. induction Hok as [|it items Hit _ IH]; intros u; simpl;
    [by eexists|].
  destruct (update_field_acceptable usernames own u it Hit) as [u1 ->]. apply IH.
Qed.

End update_user.

(** C9.  For a user that exists, [update_user] either raises, and then the
    database is as it was, or returns the user row it has stored, and then
    the id of the row is the id it had, whether or not the dictionary has
    an entry under [id]; when the items are those of a dictionary, the row
    holds the value of every other item under its key.  It does return
    when no item is objectionable: no category or tag with a blank name,
    no user name that belongs to another row. *)
Theorem update_user_keeps_id (db : Db.t) (user_id : Z) (user_data : list UserData.item)
    (user : User.t) :
  UserService.get_user db user_id = Some user ->
  match UserService.update_user db user_id user_data with
  | (Return (Some user'), db') =>
      User.id user' = User.id user /\
      UserService.get_user db' user_id = Some user' /\
      (UserData.is_dict user_data ->
       forall it, it ∈ user_data -> UserData.applied it user')
  | (Return None, _) => False
  | (Raise _, db') => db' = db
  end /\
  (Forall (UserData.acceptable (User.username <$> Db.users db) (User.username user))
     user_data ->
   exists user' db',
     UserService.update_user db user_id user_data = (Return (Some user'), db')).
Proof.
  intros (i & Hfind & Hid)%get_user_Some.
  unfold UserService.update_user. rewrite Hfind. split.
  - destruct (UserService.update_fields user user_data) as [user'|] eqn:Hloop; [|done].
    case_decide; [done|].
    pose proof (update_fields_id _ _ _ Hloop) as Hid'.
    split_and!; [done | | ].
    + apply (get_user_commit db user_id i user user' Hfind). congruence.
    + intros Hdict. by eapply update_fields_applied.
  - intros Hok.
    destruct (update_fields_acceptable _ _ user user_data Hok) as [user' Hloop].
    rewrite Hloop. rewrite decide_False; [by eexists _, _|].
    intros [Hchanged Htaken].
    apply update_fields_username in Hloop as [? | Hin]; [done|].
    rewrite Forall_forall in Hok. specialize (Hok _ Hin). simpl in Hok.
    destruct Hok; done.
Qed.

(** Alice sends a new id, a new e-mail address and a new category list. *)
Lemma update_user_keeps_id_witness :
  UserService.get_user Example.db 1 = Some Example.alice /\
  exists user' db',
    UserService.update_user Example.db 1
      [UserData.I_id 7; UserData.I_email (Py.lit "a@example.org");
       UserData.I_categories [Example.Home]] = (Return (Some user'), db') /\
    User.id user' = 1 /\
    User.email user' = Py.lit "a@example.org" /\
    UserService.get_user db' 1 = Some user' /\
    UserService.get_user db' 7 = None.
Proof.
  split; [reflexivity|].
  pose proof (update_user_keeps_id Example.db 1
                [UserData.I_id 7; UserData.I_email (Py.lit "a@example.org");
                 UserData.I_categories [Example.Home]] Example.alice eq_refl)
    as [Hcases Hreturns].
  destruct Hreturns as (user' & db' & Hret).
  { repeat constructor. by vm_compute. }
  rewrite Hret in Hcases. destruct Hcases as (Hid & Hget & Happlied).
  exists user', db'. split_and!; [done | done | | done |].
  - apply (Happlied ltac:(unfold UserData.is_dict; compute_done)
             (UserData.I_email (Py.lit "a@example.org"))).
    apply list_elem_of_further, list_elem_of_here.
  - vm_compute in Hret. by injection Hret as <- <-.
Defined.

(** A category with a blank name makes [update_user] raise, and nothing is
    written. *)
Example update_user_blank_category :
  UserService.update_user Example.db 1
    [UserData.I_email (Py.lit "a@example.org");
     UserData.I_categories [{| Category.name := Py.lit "  "; Category.color := [] |}]]
  = (Raise (CategoryException "Category name cannot be empty"), Example.db).
Proof. reflexivity. Qed.

(* ===================================================================== *)
(** ** Registration *)
(* ===================================================================== *)

Lemma get_user_by_username_None (db : Db.t) (username : str) :
  UserService.get_user_by_username db username = None <->
  username ∉ (User.username <$> Db.users db).
Proof.
  unfold UserService.get_user_by_username, Db.first.
  rewrite fmap_None, list_find_None, list_elem_of_fmap, Forall_forall.
  split.
  - intros Hall (u & -> & Hu). by apply (Hall u).
  - intros Hnot u Hu Heq. apply Hnot. eauto.
Qed.

(** The categories a registered user starts with. *)
Lemma default_categories_General :
  UserCreate.default_categories
  = Some [ {| Category.name := Py.lit "General"; Category.color := Py.lit "#5dafb0" |} ].
Proof. reflexivity. Qed.

(** C10.  Whatever the hash function and the registration input,
    [POST /register] either raises and leaves the table of users as it
    was, or returns the one row it has added to the table, and that row is
    not disabled, has no tags, and has the single category "General" with
    the color "#5dafb0".  It returns when the user name is not taken. *)
Theorem register_defaults (get_password_hash : str -> str) (db : Db.t)
    (user : UserCreate.t) :
  match Api.create_user get_password_hash db user with
  | (Return u, db') =>
      Db.users db' = Db.users db ++ [u] /\
      User.disabled u = false /\
      User.tags u = [] /\
      User.categories u
      = [ {| Category.name := Py.lit "General"; Category.color := Py.lit "#5dafb0" |} ] /\
      User.username u = UserCreate.username user /\
      User.hashed_password u = get_password_hash (UserCreate.password user)
  | (Raise _, db') => Db.users db' = Db.users db
  end /\
  (UserService.get_user_by_username db (UserCreate.username user) = None ->
   exists u db',
     Api.create_user get_password_hash db user = (Return u, db') /\
     UserService.get_user_by_username db' (UserCreate.username user) = Some u).
Proof.
  unfold Api.create_user.
  destruct (UserService.get_user_by_username db (UserCreate.username user))
    as [existing|] eqn:Hname.
  - split; [done|]. done.
  - apply get_user_by_username_None in Hname.
    unfold UserCreate.new, UserService.create_user. simpl.
    rewrite decide_False by done. split; [by split_and!|].
    intros _. eexists _, _. split; [done|].
    unfold UserService.get_user_by_username. simpl.
    rewrite first_append_fresh; [done| |done].
    apply Forall_forall. intros u Hu Heq. apply Hname, list_elem_of_fmap. eauto.
Qed.

(** Carol registers with two categories and a tag of her own in the body:
    they are not what is stored. *)
Lemma register_defaults_witness :
  UserCreate.categories Example.carol = Some [Example.Work; Example.Home] /\
  UserService.get_user_by_username Example.db (Py.lit "carol") = None /\
  exists u db',
    Api.create_user (fun password => Py.lit "$argon2id$" ++ password) Example.db Example.carol
    = (Return u, db') /\
    UserService.get_user_by_username db' (Py.lit "carol") = Some u /\
    User.id u = 3 /\ User.categories u = [Example.General] /\ User.tags u = [].
Proof.
  split; [reflexivity|]. split; [reflexivity|].
  pose proof (register_defaults (fun password => Py.lit "$argon2id$" ++ password)
                Example.db Example.carol) as [Hcases Hreturns].
  destruct (Hreturns eq_refl) as (u & db' & Hret & Hget).
  rewrite Hret in Hcases. destruct Hcases as (_ & _ & Htags & Hcats & _).
  exists u, db'. split_and!; [done | done | | done | done].
  vm_compute in Hret. by injection Hret as <- _.
Defined.

(** A user name that is taken is answered 400, and nothing is written. *)
Example register_taken :
  Api.create_user (fun password => password) Example.db
    {| UserCreate.username := Py.lit "alice"; UserCreate.email := None;
       UserCreate.password := Py.lit "pw"; UserCreate.full_name := None;
       UserCreate.categories := None; UserCreate.tags := None |}
  = (Raise (HTTPException 400 "Username already registered"), Example.db).
Proof. reflexivity. Qed.

(* ===================================================================== *)
(** ** The constraints of the schema are invariants *)
(* ===================================================================== *)

Lemma elem_of_insert_inv {A : Type} (l : list A) (i : nat) (x y : A) :
  y ∈ <[i := x]> l -> y = x \/ y ∈ l.
Proof.
  intros (j & Hj)%list_elem_of_lookup_1.
  apply list_lookup_insert_Some in Hj as [(-> & -> & _) | [_ Hj]]; [by left|].
  right. by eapply list_elem_of_lookup_2.
Qed.

Lemma NoDup_insert_fresh {A : Type} (l : list A) (i : nat) (x : A) :
  NoDup l -> x ∉ l -> NoDup (<[i := x]> l).
Proof.
  intros Hnd. revert i. induction Hnd as [|y l Hy Hnd IH]; intros i Hx;
    [destruct i; constructor|].
  apply not_elem_of_cons in Hx as [Hne Hx]. destruct i as [|i]; simpl.
  - by constructor.
  - constructor; [|by apply IH].
    intros [-> | Hin]%elem_of_insert_inv; done.
Qed.

(** Writing a row back with the same key leaves the column of keys as it
    was. *)
Lemma fmap_insert_same {A K : Type} (f : A -> K) (l : list A) (i : nat) (x y : A) :
  l !! i = Some x -> f y = f x -> f <$> <[i := y]> l = f <$> l.
Proof.
  intros Hi Hf. rewrite list_fmap_insert, Hf.
  apply list_insert_id. by rewrite list_lookup_fmap, Hi.
Qed.

Lemma first_lookup {A : Type} (P : A -> Prop) `{!forall x, Decision (P x)}
    (l : list A) (i : nat) (x : A) :
  Db.first P l = Some (i, x) -> l !! i = Some x /\ P x.
Proof. unfold Db.first. intros (? & ? & _)%list_find_Some. done. Qed.

(** A write to [tasks] that keeps the constraints on its rows. *)
Lemma wf_commit_tasks (db : Db.t) (rows : list Task.t) :
  Db.wf db ->
  NoDup (Task.id <$> rows) ->
  Forall (fun x => Task.owner_id x ∈ (User.id <$> Db.users db)) rows ->
  Forall (fun x => Task.id x <= Db.tasks_id_seq db) rows ->
  Db.wf (Db.commit_tasks rows db).
Proof. intros [] ? ? ?. by constructor. Qed.

(** A write to [users] that keeps the ids and the constraint on the names. *)
Lemma wf_commit_users (db : Db.t) (rows : list User.t) :
  Db.wf db ->
  User.id <$> rows = User.id <$> Db.users db ->
  NoDup (User.username <$> rows) ->
  Db.wf (Db.commit_users rows db).
Proof.
  intros [Hpk ? ? Hfk Hseq ?] Hids ?. constructor; try done.
  - unfold Db.pk_users. simpl. by rewrite Hids.
  - unfold Db.fk_owner. simpl. by rewrite Hids.
  - unfold Db.seq_users in *. simpl.
    assert (Forall (fun k => k <= Db.users_id_seq db) (User.id <$> Db.users db)) as Hk
      by (rewrite Forall_fmap; exact Hseq).
    rewrite <- Hids, Forall_fmap in Hk. exact Hk.
Qed.

(** A write to one user row that keeps its id and its name. *)
Lemma wf_commit_user (db : Db.t) (i : nat) (user user' : User.t) :
  Db.wf db ->
  Db.users db !! i = Some user ->
  User.id user' = User.id user ->
  User.username user' = User.username user ->
  Db.wf (Db.commit_users (<[i := user']> (Db.users db)) db).
Proof.
  intros Hwf Hi Hid Hname. apply wf_commit_users; [done| |].
  - by eapply fmap_insert_same.
  - erewrite fmap_insert_same; [|done..]. apply Hwf.
Qed.

Lemma wf_create_task (db : Db.t) (task_data : TaskCreate.t) :
  Db.wf db -> Db.wf (snd (TaskService.create_task db task_data)).
Proof.
  intros Hwf. pose proof Hwf as [? Hpk ? Hfk ? Hseq].
  assert (Db.wf (snd (Db.nextval_tasks db))) as Hdrawn.
  { constructor; try done. unfold Db.seq_tasks in *. simpl.
    eapply Forall_impl; [exact Hseq|]. intros x ?. simpl in *. lia. }
  unfold TaskService.create_task. simpl. case_decide as Hkey; [done|].
  case_decide as Howner; simpl.
  - constructor; try done.
    + unfold Db.pk_tasks in *. simpl. rewrite fmap_app. apply NoDup_app.
      split_and!; [done| |apply NoDup_singleton].
      intros k Hk ->%list_elem_of_singleton.
      apply list_elem_of_fmap in Hk as (x & Hid & Hx).
      unfold Db.seq_tasks in Hseq. rewrite Forall_forall in Hseq.
      specialize (Hseq x Hx). simpl in Hid. lia.
    + unfold Db.fk_owner in *. simpl. apply Forall_app. split; [done|].
      by repeat constructor.
    + unfold Db.seq_tasks in *. simpl. apply Forall_app. split.
      * eapply Forall_impl; [exact Hseq|]. intros x ?. simpl in *. lia.
      * repeat constructor. simpl. lia.
  - exact Hdrawn.
Qed.

(** A write to one task row that keeps its id and gives it an owner that
    is a user. *)
Lemma wf_commit_task (db : Db.t) (i : nat) (x x' : Task.t) :
  Db.wf db ->
  Db.tasks db !! i = Some x ->
  Task.id x' = Task.id x ->
  Task.owner_id x' ∈ (User.id <$> Db.users db) ->
  Db.wf (Db.commit_tasks (<[i := x']> (Db.tasks db)) db).
Proof.
  intros Hwf Hi Hid Howner. pose proof Hwf as [? Hpk ? Hfk ? Hseq].
  apply wf_commit_tasks; [done|..].
  - by erewrite fmap_insert_same.
  - by apply Forall_insert.
  - apply Forall_insert; [done|]. rewrite Hid.
    unfold Db.seq_tasks in Hseq. rewrite Forall_lookup in Hseq. by eapply Hseq.
Qed.

Lemma wf_owner (db : Db.t) (i : nat) (x : Task.t) :
  Db.wf db -> Db.tasks db !! i = Some x -> Task.owner_id x ∈ (User.id <$> Db.users db).
Proof.
  intros [_ _ _ Hfk _ _] Hi. unfold Db.fk_owner in Hfk.
  rewrite Forall_lookup in Hfk. by eapply Hfk.
Qed.

(** [update_task] keeps the constraints when its dictionary has no key
    [id]: a new owner that is not a user is refused by the foreign key. *)
Lemma wf_update_task (db : Db.t) (owner_id task_id : Z) (task_data : list TaskData.item) :
  "id"%string ∉ (TaskData.key <$> task_data) ->
  Db.wf db -> Db.wf (snd (TaskService.update_task db owner_id task_id task_data)).
Proof.
  intros Hid Hwf. unfold TaskService.update_task.
  destruct (Db.first _ _) as [[i x]|] eqn:Hfind; [|done].
  case_decide as Hkey; [done|]. case_decide as Hfk; [done|]. simpl.
  apply first_lookup in Hfind as [Hi Hx].
  eapply wf_commit_task; [done..| by apply update_fields_keeps_id |].
  destruct (decide (Task.owner_id (TaskService.update_fields x task_data)
                    = Task.owner_id x)) as [-> | Hne].
  - by eapply wf_owner.
  - destruct (decide (Task.owner_id (TaskService.update_fields x task_data)
                      ∈ (User.id <$> Db.users db))); [done|]. by destruct Hfk.
Qed.

Lemma wf_remove_task (db : Db.t) (owner_id task_id : Z) :
  Db.wf db -> Db.wf (snd (TaskService.remove_task db owner_id task_id)).
Proof.
  intros Hwf. pose proof Hwf as [? Hpk ? Hfk ? Hseq].
  unfold TaskService.remove_task.
  destruct (Db.first _ _) as [[i x]|]; [|done]. simpl.
  apply wf_commit_tasks; [done|..].
  - rewrite list_fmap_delete. eapply sublist_NoDup; [exact Hpk|apply sublist_delete].
  - by apply Forall_delete.
  - by apply Forall_delete.
Qed.

Lemma wf_mark_task_complete (db : Db.t) (owner_id task_id : Z) :
  Db.wf db -> Db.wf (snd (TaskService.mark_task_complete db owner_id task_id)).
Proof.
  intros Hwf. unfold TaskService.mark_task_complete.
  destruct (Db.first _ _) as [[i x]|] eqn:Hfind; [|done].
  destruct (Task.completed x); [done|]. simpl.
  apply first_lookup in Hfind as [Hi _].
  eapply wf_commit_task; [done..|]. exact (wf_owner db i x Hwf Hi).
Qed.

Lemma wf_create_user (db : Db.t) (user_create : UserCreate.t) :
  Db.wf db -> Db.wf (snd (UserService.create_user db user_create)).
Proof.
  intros Hwf. pose proof Hwf as [Hpk ? Hun Hfk Hseq ?].
  unfold UserService.create_user. simpl. case_decide as Htaken; simpl.
  - constructor; try done.
    unfold Db.seq_users in *. simpl.
    eapply Forall_impl; [exact Hseq|]. intros x ?. simpl in *. lia.
  - constructor; try done.
    + unfold Db.pk_users in *. simpl. rewrite fmap_app. apply NoDup_app.
      split_and!; [done| |apply NoDup_singleton].
      intros k Hk ->%list_elem_of_singleton.
      apply list_elem_of_fmap in Hk as (x & Hid & Hx).
      unfold Db.seq_users in Hseq. rewrite Forall_forall in Hseq.
      specialize (Hseq x Hx). simpl in Hid. lia.
    + unfold Db.unique_username in *. simpl. rewrite fmap_app. apply NoDup_app.
      split_and!; [done| |apply NoDup_singleton].
      by intros k Hk ->%list_elem_of_singleton.
    + unfold Db.fk_owner in *. simpl.
      eapply Forall_impl; [exact Hfk|]. intros x Hx. simpl in *.
      rewrite fmap_app. apply elem_of_app. by left.
    + unfold Db.seq_users in *. simpl. apply Forall_app. split.
      * eapply Forall_impl; [exact Hseq|]. intros x ?. simpl in *. lia.
      * repeat constructor. simpl. lia.
Qed.

Lemma wf_update_user (db : Db.t) (user_id : Z) (user_data : list UserData.item) :
  Db.wf db -> Db.wf (snd (UserService.update_user db user_id user_data)).
Proof.
  intros Hwf. unfold UserService.update_user.
  destruct (Db.first _ _) as [[i user]|] eqn:Hfind; [|done].
  destruct (UserService.update_fields user user_data) as [user'|] eqn:Hloop; [|done].
  case_decide as Hclash; [done|]. simpl.
  apply first_lookup in Hfind as [Hi _].
  pose proof (update_fields_id _ _ _ Hloop) as Hid.
  apply wf_commit_users; [done| |].
  - by eapply fmap_insert_same.
  - rewrite list_fmap_insert.
    destruct (decide (User.username user' = User.username user)) as [Heq|Hne].
    + rewrite Heq, list_insert_id; [apply Hwf|]. by rewrite list_lookup_fmap, Hi.
    + apply NoDup_insert_fresh; [apply Hwf|]. intros Hin. by apply Hclash.
Qed.

(** Every call that leaves the ids to the sequence keeps the constraints,
    so they hold in every database that such calls produce from the empty
    one. *)
Lemma wf_run (db : Db.t) (c : History.call) :
  History.keeps_ids c -> Db.wf db -> Db.wf (History.run db c).
Proof.
  intros Hc Hwf. destruct c; simpl.
  - by apply wf_create_task.
  - destruct Hc as [_ Hid]. by apply wf_update_task.
  - by apply wf_remove_task.
  - by apply wf_mark_task_complete.
  - by apply wf_create_user.
  - by apply wf_update_user.
  - unfold UserService.create_category.
    destruct (Db.first _ _) as [[i user]|] eqn:Hfind; [|done]. simpl.
    apply first_lookup in Hfind as [Hi _]. by eapply wf_commit_user.
  - unfold UserService.create_tag.
    destruct (Db.first _ _) as [[i user]|] eqn:Hfind; [|done]. simpl.
    apply first_lookup in Hfind as [Hi _]. by eapply wf_commit_user.
  - unfold UserService.delete_category.
    destruct (Db.first _ _) as [[i user]|] eqn:Hfind; [|done]. simpl.
    apply first_lookup in Hfind as [Hi _]. by eapply wf_commit_user.
  - unfold UserService.delete_tag.
    destruct (Db.first _ _) as [[i user]|] eqn:Hfind; [|done]. simpl.
    apply first_lookup in Hfind as [Hi _]. by eapply wf_commit_user.
Qed.

Lemma wf_empty : Db.wf Db.empty.
Proof. constructor; unfold Db.pk_users, Db.pk_tasks, Db.unique_username,
         Db.fk_owner, Db.seq_users, Db.seq_tasks; simpl; constructor. Qed.

Lemma wf_reachable (db : Db.t) : History.reachable db -> Db.wf db.
Proof.
  intros (calls & Hcalls & ->). induction calls as [|c calls IH] using rev_ind.
  - apply wf_empty.
  - apply Forall_app in Hcalls as [Hcalls Hc]. apply Forall_inv in Hc.
    rewrite foldl_app. simpl. apply wf_run; [exact Hc|]. by apply IH.
Qed.

(** In particular the uniqueness of the task ids and the lead of their
    sequence, which the properties of removal and of creation assume,
    hold in every such database. *)
Corollary reachable_pk_tasks (db : Db.t) : History.reachable db -> Db.pk_tasks db.
Proof. intros Hr. by apply wf_reachable. Qed.

Corollary reachable_seq_tasks (db : Db.t) : History.reachable db -> Db.seq_tasks db.
Proof. intros Hr. by apply wf_reachable. Qed.

(* ===================================================================== *)
(** ** Trimming *)
(* ===================================================================== *)

Section strip.

Variable ws : N -> bool.

Lemma lstrip_by_head (s : str) (c : N) (r : str) :
  Py.lstrip_by ws s = c :: r -> ws c = false.
Proof.
  induction s as [|x s IH]; simpl; [done|].
  destruct (ws x) eqn:Hx; [done|]. by intros [= <- _].
Qed.

Lemma lstrip_by_split (s : str) :
  exists p, s = p ++ Py.lstrip_by ws s /\ Inv.blank ws p.
Proof.
  induction s as [|x s (p & Hs & Hp)]; simpl; [exists []; split; [done|constructor]|].
  destruct (ws x) eqn:Hx.
  - exists (x :: p). split; [by rewrite Hs at 1|]. by constructor.
  - exists []. split; [done|constructor].
Qed.

Lemma lstrip_by_fixed (c : N) (r : str) :
  ws c = false -> Py.lstrip_by ws (c :: r) = c :: r.
Proof. simpl. by intros ->. Qed.

Lemma lstrip_by_idem (s : str) :
  Py.lstrip_by ws (Py.lstrip_by ws s) = Py.lstrip_by ws s.
Proof.
  destruct (Py.lstrip_by ws s) as [|c r] eqn:Hs; [done|].
  apply lstrip_by_fixed. by eapply lstrip_by_head.
Qed.

Lemma lstrip_by_nil (s : str) : Py.lstrip_by ws s = [] <-> Inv.blank ws s.
Proof.
  unfold Inv.blank. induction s as [|x s IH]; simpl; [by split|].
  destruct (ws x) eqn:Hx.
  - rewrite IH, Forall_cons. tauto.
  - split; [done|]. intros [Hc _]%Forall_cons. congruence.
Qed.

Lemma blank_rev (s : str) : Inv.blank ws (rev s) <-> Inv.blank ws s.
Proof.
  unfold Inv.blank. split; intros Hb.
  - rewrite <- (rev_involutive s). by apply Forall_rev.
  - by apply Forall_rev.
Qed.

(** A string is what trimming leaves of it between two blank ends. *)
Lemma strip_by_split (s : str) :
  exists p q, s = p ++ Py.strip_by ws s ++ q /\ Inv.blank ws p /\ Inv.blank ws q.
Proof.
  unfold Py.strip_by.
  destruct (lstrip_by_split s) as (p & Hs & Hp).
  destruct (lstrip_by_split (rev (Py.lstrip_by ws s))) as (q & Hr & Hq).
  exists p, (rev q). split_and!; [|done|by apply blank_rev].
  rewrite <- rev_app_distr, <- Hr, rev_involutive. exact Hs.
Qed.

(** Trimming leaves nothing exactly of the blank strings. *)
Lemma strip_by_nil (s : str) : Py.strip_by ws s = [] <-> Inv.blank ws s.
Proof.
  unfold Py.strip_by. split.
  - intros Hnil.
    assert (Py.lstrip_by ws (rev (Py.lstrip_by ws s)) = []) as Hu.
    { by rewrite <- (rev_involutive (Py.lstrip_by ws _)), Hnil. }
    apply lstrip_by_nil in Hu. apply (proj1 (blank_rev _)) in Hu.
    destruct (Py.lstrip_by ws s) as [|c r] eqn:Ha; [by apply lstrip_by_nil|].
    apply lstrip_by_head in Ha. unfold Inv.blank in Hu.
    apply Forall_cons in Hu as [Hc _]. congruence.
  - intros Hb. apply lstrip_by_nil in Hb. by rewrite Hb.
Qed.

(** What trimming leaves does not begin with a blank. *)
Lemma strip_by_head (s : str) (c : N) (r : str) :
  Py.strip_by ws s = c :: r -> ws c = false.
Proof.
  unfold Py.strip_by. intros Ht.
  destruct (lstrip_by_split (rev (Py.lstrip_by ws s))) as (q & Hr & _).
  apply (f_equal (@rev N)) in Hr. rewrite rev_involutive, rev_app_distr, Ht in Hr.
  simpl in Hr. by eapply lstrip_by_head.
Qed.

(** Trimming twice is trimming once. *)
Lemma strip_by_idem (s : str) : Py.strip_by ws (Py.strip_by ws s) = Py.strip_by ws s.
Proof.
  assert (Py.lstrip_by ws (Py.strip_by ws s) = Py.strip_by ws s) as Hl.
  { destruct (Py.strip_by ws s) as [|c r] eqn:Ht; [done|].
    apply lstrip_by_fixed. by eapply strip_by_head. }
  unfold Py.strip_by at 1. rewrite Hl. unfold Py.strip_by.
  by rewrite rev_involutive, lstrip_by_idem.
Qed.

End strip.

Lemma is_whitespace_isspace (c : N) : Py.is_whitespace c = true -> Py.isspace c = true.
Proof. unfold Py.is_whitespace. by intros [? _]%andb_true_iff. Qed.

Lemma blank_app (ws : N -> bool) (a b : str) :
  Inv.blank ws (a ++ b) <-> Inv.blank ws a /\ Inv.blank ws b.
Proof. apply Forall_app. Qed.

(** The trimming of [str_strip_whitespace] does not change whether a
    string is blank for [str.strip]. *)
Lemma blank_str_strip_whitespace (s : str) :
  Inv.blank Py.isspace (Py.str_strip_whitespace s) <-> Inv.blank Py.isspace s.
Proof.
  unfold Py.str_strip_whitespace.
  destruct (strip_by_split Py.is_whitespace s) as (p & q & Hs & Hp & Hq).
  assert (Inv.blank Py.isspace p /\ Inv.blank Py.isspace q) as [Hp' Hq'].
  { split; eapply Forall_impl; eauto using is_whitespace_isspace. }
  rewrite Hs at 2. rewrite !blank_app. tauto.
Qed.

(** The test of the name validators, [not v or not v.strip()], on a value
    that [str_strip_whitespace] has trimmed: it holds exactly of the
    strings that are blank for [str.strip]. *)
Lemma name_test_blank (s : str) :
  negb (Py.truthy (Py.str_strip_whitespace s))
  || negb (Py.truthy (Py.strip (Py.str_strip_whitespace s))) = true
  <-> Inv.blank Py.isspace s.
Proof.
  rewrite <- blank_str_strip_whitespace.
  rewrite <- (strip_by_nil Py.isspace). fold (Py.strip (Py.str_strip_whitespace s)).
  destruct (Py.str_strip_whitespace s) as [|c r]; [done|].
  simpl Py.truthy at 1. by destruct (Py.strip (c :: r)).
Qed.

(* ===================================================================== *)
(** ** What the task models accept *)
(* ===================================================================== *)

Lemma validate_description_stripped (v : str) :
  Py.strip (TaskCreate.validate_description v) = TaskCreate.validate_description v.
Proof.
  unfold TaskCreate.validate_description. destruct (Py.truthy v); [|done].
  apply strip_by_idem.
Qed.

Lemma validate_category_stripped (v : str) :
  Py.strip (TaskCreate.validate_category v) = TaskCreate.validate_category v.
Proof.
  unfold TaskCreate.validate_category. destruct (Py.truthy v); [|done].
  apply strip_by_idem.
Qed.

(** [TaskCreate] accepts a draft exactly when the owner id is positive, the
    name has a code point that is not blank, and the priority, 0 if
    absent, is between 0 and 3.  The instance it builds has a name that is
    not empty, and its name, description and category are trimmed. *)
Theorem TaskCreate_accepts (draft : TaskCreate.draft) :
  ((exists task_data, TaskCreate.new draft = Return task_data) <->
   0 < TaskCreate.d_owner_id draft /\
   ~ Inv.blank Py.isspace (TaskCreate.d_name draft) /\
   0 <= default 0 (TaskCreate.d_priority draft) <= 3) /\
  (forall task_data,
     TaskCreate.new draft = Return task_data ->
     TaskCreate.name task_data <> [] /\
     Py.strip (TaskCreate.name task_data) = TaskCreate.name task_data /\
     Py.strip (TaskCreate.description task_data) = TaskCreate.description task_data /\
     Py.strip (TaskCreate.category task_data) = TaskCreate.category task_data /\
     0 < TaskCreate.owner_id task_data /\
     0 <= TaskCreate.priority task_data <= 3).
Proof.
  unfold TaskCreate.new, TaskCreate.validate_owner_id, TaskCreate.validate_name,
    TaskCreate.validate_priority.
  pose proof (name_test_blank (TaskCreate.d_name draft)) as Hname.
  destruct (TaskCreate.d_owner_id draft <=? 0) eqn:Ho.
  { split; [|done]. split; [by intros [? ?]|]. lia. }
  destruct (negb _ || negb _) eqn:Hn.
  { split; [|done]. split; [by intros [? ?]|]. intros (_ & Hb & _).
    destruct Hb. by apply Hname. }
  destruct ((_ <? 0) || (_ >? 3)) eqn:Hp.
  { split; [|done]. split; [by intros [? ?]|]. lia. }
  split.
  - split; [|by eexists]. intros _. split_and!; try lia.
    intros Hb. apply Hname in Hb. done.
  - intros task_data [= <-]. simpl.
    apply orb_false_iff in Hn as [_ Hn].
    split_and!; try lia.
    + by destruct (Py.strip (Py.str_strip_whitespace _)).
    + apply strip_by_idem.
    + apply validate_description_stripped.
    + apply validate_category_stripped.
Qed.

(** A name of blanks only is refused, a name with blanks around it is
    taken without them. *)
Example TaskCreate_accepts_plan :
  (exists task_data, TaskCreate.new Example.plan = Return task_data
                     /\ TaskCreate.name task_data = Py.lit "Plan").
Proof. eexists. split; reflexivity. Qed.

(* ===================================================================== *)
(** ** [PUT /tasks/{task_id}], field by field *)
(* ===================================================================== *)



(** For a task out of scope, the [PUT] of a valid body is answered 500 with
    the text of the 404 that the route raises inside its own [try], and
    nothing is written. *)
Theorem put_task_out_of_scope_is_500 (db : Db.t) (task_id : Z) (body : TaskUpdate.body)
    (current_user : User.t) (payload : TaskUpdate.t) :
  TaskService.get_task db (User.id current_user) task_id = None ->
  TaskUpdate.new body = Return payload ->
  Api.put_task db task_id body current_user
  = (Raise (HTTPException 500 "404: Task not found or not owned by you"), db) /\
  TaskApi.get_task db task_id current_user = Raise (HTTPException 404 "Task not found") /\
  TaskApi.delete_task db task_id current_user
  = (Raise (HTTPException 404 "Task not found or not owned by you"), db).
Proof.
  intros Hget Hnew.
  unfold Api.put_task, Api.update_task, TaskApi.get_task, TaskApi.delete_task.
  rewrite Hnew, Hget. unfold TaskService.get_task in Hget. apply fmap_None in Hget.
  unfold TaskService.update_task, TaskService.remove_task. by rewrite Hget.
Qed.

Lemma put_task_out_of_scope_is_500_witness :
  TaskService.get_task Example.db 2 1 = None /\
  Api.put_task Example.db 1 Example.name_only Example.bob
  = (Raise (HTTPException 500 "404: Task not found or not owned by you"), Example.db).
Proof.
  split; [reflexivity|].
  exact (proj1 (put_task_out_of_scope_is_500 Example.db 1 Example.name_only Example.bob
                  _ eq_refl eq_refl)).
Defined.

(* ===================================================================== *)
(** ** The other task routes *)
(* ===================================================================== *)

(** [POST /tasks/{task_id}/complete] answers 404 and writes nothing when
    the task is out of scope; otherwise it returns a task whose
    [completed] is [True] and whose other attributes are those of the task
    that was stored, and this task is then what [get_task] finds.  It
    never answers "Task updated but not retrievable". *)
Theorem complete_route (db : Db.t) (task_id : Z) (current_user : User.t) :
  match TaskService.get_task db (User.id current_user) task_id with
  | None =>
      TaskApi.mark_task_complete db task_id current_user
      = (Raise (HTTPException 404 "Task not found or owned by you"), db)
  | Some x =>
      exists x' db',
        TaskApi.mark_task_complete db task_id current_user = (Return x', db') /\
        TaskService.get_task db' (User.id current_user) task_id = Some x' /\
        Task.completed x' = true /\
        (forall field, field <> "completed"%string ->
                       TaskService.getattr x' field = TaskService.getattr x field)
  end.
Proof.
  unfold TaskApi.mark_task_complete, TaskService.mark_task_complete.
  destruct (TaskService.get_task db (User.id current_user) task_id) as [x|] eqn:Hget;
    unfold TaskService.get_task in Hget.
  - apply fmap_Some in Hget as ([i x0] & Hfind & ->). simpl. rewrite Hfind.
    pose proof (first_lookup _ _ _ _ Hfind) as [_ Hx].
    destruct (Task.completed x0) eqn:Hdone; simpl.
    + exists x0, db. unfold TaskService.get_task. rewrite Hfind. simpl.
      by split_and!.
    + exists (Task.set_completed true x0). eexists.
      unfold TaskService.get_task. simpl.
      rewrite (first_insert _ _ _ _ (Task.set_completed true x0) Hfind)
        by by apply set_completed_scoped.
      simpl. split; [done|]. simpl.
      rewrite (first_insert _ _ _ _ (Task.set_completed true x0) Hfind)
        by by apply set_completed_scoped.
      split_and!; [done..|]. intros field Hne.
      by apply (setattr_getattr_ne x0 (TaskData.I_completed true)).
  - apply fmap_None in Hget. by rewrite Hget.
Qed.

(** Alice completes "Ship it" through the route: the task comes back
    completed, with its name and its priority. *)
Example complete_route_ship_it :
  exists x' db',
    TaskApi.mark_task_complete Example.db 1 Example.alice = (Return x', db') /\
    Task.completed Example.ship_it = false /\ Task.completed x' = true /\
    Task.name x' = Py.lit "Ship it" /\ Task.priority x' = 2.
Proof. eexists _, _. by vm_compute. Qed.

(* ===================================================================== *)
(** ** Listing *)
(* ===================================================================== *)

(** [list_tasks] lists nothing for the owner id 0.  For any other owner id,
    and with unique task ids, it lists exactly the tasks that [get_task]
    finds for that owner under their ids: nothing of another owner, and
    nothing that [get_task] would not return as it is. *)
Theorem list_tasks_get_task (db : Db.t) (owner_id : Z) :
  (owner_id = 0 -> TaskService.list_tasks db owner_id = []) /\
  (forall x, x ∈ TaskService.list_tasks db owner_id ->
             Task.owner_id x = owner_id /\ x ∈ TaskService.admin_list_tasks db) /\
  (Db.pk_tasks db -> owner_id <> 0 ->
   forall x, x ∈ TaskService.list_tasks db owner_id <->
             TaskService.get_task db owner_id (Task.id x) = Some x).
Proof.
  unfold TaskService.list_tasks, TaskService.admin_list_tasks. split_and!.
  - intros ->. by rewrite decide_False by lia.
  - intros x. case_decide; [|by intros ?%elem_of_nil].
    by intros [? ?]%list_elem_of_filter.
  - intros Hpk Hnz x. rewrite decide_True by done.
    rewrite list_elem_of_filter. unfold TaskService.get_task. split.
    + intros [Ho (i & Hi)%list_elem_of_lookup_1].
      destruct (Db.first (TaskService.scoped owner_id (Task.id x)) (Db.tasks db))
        as [[j y]|] eqn:Hfind.
      * apply first_lookup in Hfind as [Hj [Hid _]]. simpl. f_equal.
        assert (j = i) as ->; [|congruence].
        eapply NoDup_lookup; [exact Hpk | |].
        -- rewrite list_lookup_fmap, Hj. simpl. by rewrite Hid.
        -- by rewrite list_lookup_fmap, Hi.
      * unfold Db.first in Hfind. apply list_find_None in Hfind.
        rewrite Forall_lookup in Hfind. destruct (Hfind i x Hi). by split.
    + intros ([j y] & Hfind & ->)%fmap_Some. simpl in *.
      apply first_lookup in Hfind as [Hj [_ Ho]].
      split; [done|]. by eapply list_elem_of_lookup_2.
Qed.

Lemma list_tasks_get_task_witness :
  Db.pk_tasks Example.db /\
  TaskService.list_tasks Example.db 1 = [Example.ship_it; Example.review] /\
  TaskService.get_task Example.db 1 3 = Some Example.review /\
  TaskService.list_tasks Example.db 0 = [].
Proof.
  assert (Db.pk_tasks Example.db) as Hpk by (unfold Db.pk_tasks; compute_done).
  split; [exact Hpk|]. split; [reflexivity|]. split.
  - apply (proj2 (proj2 (list_tasks_get_task Example.db 1)) Hpk ltac:(lia) Example.review).
    apply list_elem_of_further, list_elem_of_here.
  - by apply (proj1 (list_tasks_get_task Example.db 0)).
Defined.

(* ===================================================================== *)
(** ** Writes to one task are local *)
(* ===================================================================== *)

Section local.

Context {A : Type} (P : A -> Prop) `{!forall x, Decision (P x)}.

(** A query is blind to a write to a row that it would not find, before
    or after the write; and to the removal of such a row, up to the
    positions. *)
Lemma first_insert_miss (l : list A) (i : nat) (x y : A) :
  l !! i = Some x -> ~ P x -> ~ P y -> Db.first P (<[i := y]> l) = Db.first P l.
Proof.
  unfold Db.first. revert i. induction l as [|a l IH]; intros i Hi Hx Hy; [done|].
  destruct i as [|i]; simpl in *.
  - injection Hi as ->. by rewrite !decide_False.
  - case_decide; [done|]. by rewrite (IH i).
Qed.

Lemma first_delete_miss (l : list A) (i : nat) (x : A) :
  l !! i = Some x -> ~ P x -> snd <$> Db.first P (delete i l) = snd <$> Db.first P l.
Proof.
  unfold Db.first. revert i. induction l as [|a l IH]; intros i Hi Hx; [done|].
  destruct i as [|i]; simpl in *.
  - injection Hi as ->. rewrite decide_False by done.
    by destruct (list_find P l) as [[? ?]|].
  - case_decide; [done|]. specialize (IH i Hi Hx).
    destruct (list_find P (delete i l)) as [[? ?]|], (list_find P l) as [[? ?]|];
      simpl in *; congruence.
Qed.

Lemma filter_insert_miss (l : list A) (i : nat) (x y : A) :
  l !! i = Some x -> ~ P x -> ~ P y -> filter P (<[i := y]> l) = filter P l.
Proof.
  revert i. induction l as [|a l IH]; intros i Hi Hx Hy; [done|].
  destruct i as [|i]; simpl in *.
  - injection Hi as ->. by rewrite !filter_cons_False.
  - rewrite !filter_cons. by rewrite (IH i).
Qed.

Lemma filter_delete_miss (l : list A) (i : nat) (x : A) :
  l !! i = Some x -> ~ P x -> filter P (delete i l) = filter P l.
Proof.
  revert i. induction l as [|a l IH]; intros i Hi Hx; [done|].
  destruct i as [|i]; simpl in *.
  - injection Hi as ->. by rewrite filter_cons_False.
  - rewrite !filter_cons. by rewrite (IH i).
Qed.

End local.

Lemma left_alone_refl (owner_id task_id : Z) (db : Db.t) :
  Inv.left_alone owner_id task_id db db.
Proof. by split_and!. Qed.

Lemma left_alone_write (owner_id task_id : Z) (db : Db.t) (i : nat) (x x' : Task.t) :
  Db.first (TaskService.scoped owner_id task_id) (Db.tasks db) = Some (i, x) ->
  TaskService.scoped owner_id task_id x' ->
  Inv.left_alone owner_id task_id db (Db.commit_tasks (<[i := x']> (Db.tasks db)) db).
Proof.
  intros [Hi [Hid Ho]]%first_lookup [Hid' Ho']. split_and!; simpl; [done| |].
  - eapply filter_insert_miss; [done|..]; by intros ?.
  - intros o' t' Hne. unfold TaskService.get_task. simpl.
    erewrite first_insert_miss; [done..| |]; intros [? ?]; congruence.
Qed.

Lemma left_alone_delete (owner_id task_id : Z) (db : Db.t) (i : nat) (x : Task.t) :
  Db.first (TaskService.scoped owner_id task_id) (Db.tasks db) = Some (i, x) ->
  Inv.left_alone owner_id task_id db (Db.commit_tasks (delete i (Db.tasks db)) db).
Proof.
  intros [Hi [Hid Ho]]%first_lookup. split_and!; simpl; [done| |].
  - eapply filter_delete_miss; [done|]. by intros ?.
  - intros o' t' Hne. unfold TaskService.get_task. simpl.
    eapply first_delete_miss; [done|]. intros [? ?]; congruence.
Qed.

(** The route hands the database of the service on, whatever it answers. *)
Lemma update_task_route_db (db : Db.t) (task_id : Z) (payload : TaskUpdate.t)
    (current_user : User.t) :
  snd (Api.update_task db task_id payload current_user)
  = snd (TaskService.update_task db (User.id current_user) task_id
           (Api.update_data payload)).
Proof.
  unfold Api.update_task. by destruct (TaskService.update_task _ _ _ _) as [[[?|]|?] ?].
Qed.

(** A call of [mark_task_complete] or [remove_task] for an owner and a
    task id, and a call of [update_task] whose dictionary (a well keyed
    list of items) has neither the key [id] nor the key [owner_id], leave
    the users, every task of every other owner, and the answer of
    [get_task] for every other pair of owner and task id as they were.
    Every dictionary that [PUT /tasks/{task_id}] builds is such a
    dictionary, so the same holds of the route, for every body. *)
Theorem task_writes_are_local (db : Db.t) (owner_id task_id : Z) :
  (forall task_data,
     TaskData.well_keyed task_data ->
     "id"%string ∉ (TaskData.key <$> task_data) ->
     "owner_id"%string ∉ (TaskData.key <$> task_data) ->
     Inv.left_alone owner_id task_id db
       (snd (TaskService.update_task db owner_id task_id task_data))) /\
  (forall body current_user,
     User.id current_user = owner_id ->
     Inv.left_alone owner_id task_id db
       (snd (Api.put_task db task_id body current_user))) /\
  Inv.left_alone owner_id task_id db
    (snd (TaskService.mark_task_complete db owner_id task_id)) /\
  Inv.left_alone owner_id task_id db (snd (TaskService.remove_task db owner_id task_id)).
Proof.
  assert (forall task_data,
            "id"%string ∉ (TaskData.key <$> task_data) ->
            "owner_id"%string ∉ (TaskData.key <$> task_data) ->
            Inv.left_alone owner_id task_id db
              (snd (TaskService.update_task db owner_id task_id task_data))) as Hupd.
  { intros task_data Hid Ho.
    destruct (Db.first (TaskService.scoped owner_id task_id) (Db.tasks db))
      as [[i x]|] eqn:Hfind.
    - rewrite (update_task_in_place _ _ _ _ _ _ Hid Ho Hfind). simpl.
      pose proof (first_lookup _ _ _ _ Hfind) as [_ Hx].
      eapply left_alone_write; [done|]. by apply update_fields_scoped.
    - unfold TaskService.update_task. rewrite Hfind. apply left_alone_refl. }
  split_and!.
  - intros task_data _. apply Hupd.
  - intros body current_user <-. unfold Api.put_task.
    destruct (TaskUpdate.new body) as [payload|]; [|apply left_alone_refl].
    rewrite update_task_route_db.
    destruct (update_data_keys payload) as (_ & Hid & Ho). by apply Hupd.
  - unfold TaskService.mark_task_complete.
    destruct (Db.first _ (Db.tasks db)) as [[i x]|] eqn:Hfind; [|apply left_alone_refl].
    pose proof (first_lookup _ _ _ _ Hfind) as [_ Hx].
    destruct (Task.completed x); simpl; [apply left_alone_refl|].
    eapply left_alone_write; [done|]. by apply set_completed_scoped.
  - unfold TaskService.remove_task.
    destruct (Db.first _ (Db.tasks db)) as [[i x]|] eqn:Hfind; [|apply left_alone_refl].
    simpl. by eapply left_alone_delete.
Qed.

(** Alice sets the priority of her task 1, at the store and through the
    route: Bob's task 2 is found as before. *)
Lemma task_writes_are_local_witness :
  TaskData.well_keyed [TaskData.I_priority 3] /\
  TaskService.get_task
    (snd (TaskService.update_task Example.db 1 1 [TaskData.I_priority 3])) 2 2
  = Some Example.groceries /\
  TaskService.get_task
    (snd (Api.put_task Example.db 1 Example.name_only Example.alice)) 2 2
  = Some Example.groceries.
Proof.
  assert (TaskData.well_keyed [TaskData.I_priority 3]) as Hkeys
    by (by repeat constructor).
  split; [exact Hkeys|].
  destruct (task_writes_are_local Example.db 1 1) as (Hstore & Hroute & _).
  split.
  - destruct (Hstore [TaskData.I_priority 3] Hkeys) as (_ & _ & Hget);
      [compute_done..|].
    rewrite (Hget 2 2); [reflexivity | discriminate].
  - destruct (Hroute Example.name_only Example.alice eq_refl) as (_ & _ & Hget).
    rewrite (Hget 2 2); [reflexivity | discriminate].
Defined.

(** Alice rewrites, completes and removes her task 1: Bob's task 2 is
    found as before. *)
Example task_writes_are_local_example :
  TaskService.get_task
    (snd (TaskService.remove_task
            (snd (TaskService.update_task Example.db 1 1 [TaskData.I_priority 3])) 1 1))
    2 2 = Some Example.groceries.
Proof. reflexivity. Qed.

(** A dictionary with the key [owner_id] or [id] is another matter: the
    loop sets these attributes like any other.  Alice hands her task 1 to
    Bob, after which it is found under Bob's id and not under hers; an id
    that another task has, and an owner that is no user, are refused by
    the constraints, and nothing is written; an id that no task has is
    stored, ahead of the sequence or not. *)
Example update_task_owner_and_id :
  (let '(r, db') := TaskService.update_task Example.db 1 1 [TaskData.I_owner_id 2] in
   r = Return (Some (Task.set_owner_id 2 Example.ship_it)) /\
   TaskService.get_task db' 1 1 = None /\
   TaskService.get_task db' 2 1 = Some (Task.set_owner_id 2 Example.ship_it)) /\
  TaskService.update_task Example.db 1 1 [TaskData.I_id 3]
  = (Raise (IntegrityError "tasks_pkey"), Example.db) /\
  TaskService.update_task Example.db 1 1 [TaskData.I_owner_id 9]
  = (Raise (IntegrityError "tasks_owner_id_fkey"), Example.db) /\
  (let '(r, db') := TaskService.update_task Example.db 1 3 [TaskData.I_id 9] in
   r = Return (Some (Task.set_id 9 Example.review)) /\
   TaskService.get_task db' 1 9 = Some (Task.set_id 9 Example.review) /\
   ~ Db.seq_tasks db').
Proof.
  split_and!; [by vm_compute | reflexivity | reflexivity |].
  vm_compute. split_and!; [done..|].
  intros Hseq. do 2 apply Forall_inv_tail in Hseq. apply Forall_inv in Hseq.
  by vm_compute in Hseq.
Qed.

(* ===================================================================== *)
(** ** Task ids are not reused *)
(* ===================================================================== *)

Lemma run_tasks_id_seq (db : Db.t) (c : History.call) :
  Db.tasks_id_seq db <= Db.tasks_id_seq (History.run db c).
Proof.
  destruct c; simpl.
  - unfold TaskService.create_task. simpl. repeat case_decide; simpl; lia.
  - unfold TaskService.update_task.
    destruct (Db.first _ _) as [[? ?]|]; repeat case_decide; simpl; lia.
  - unfold TaskService.remove_task. destruct (Db.first _ _) as [[? ?]|]; simpl; lia.
  - unfold TaskService.mark_task_complete.
    destruct (Db.first _ _) as [[? x]|]; [destruct (Task.completed x)|]; simpl; lia.
  - unfold UserService.create_user. simpl. case_decide; simpl; lia.
  - unfold UserService.update_user. destruct (Db.first _ _) as [[? ?]|]; [|simpl; lia].
    destruct (UserService.update_fields _ _); [|simpl; lia].
    case_decide; simpl; lia.
  - unfold UserService.create_category. destruct (Db.first _ _) as [[? ?]|]; simpl; lia.
  - unfold UserService.create_tag. destruct (Db.first _ _) as [[? ?]|]; simpl; lia.
  - unfold UserService.delete_category. destruct (Db.first _ _) as [[? ?]|]; simpl; lia.
  - unfold UserService.delete_tag. destruct (Db.first _ _) as [[? ?]|]; simpl; lia.
Qed.

Lemma runs_tasks_id_seq (db : Db.t) (calls : list History.call) :
  Db.tasks_id_seq db <= Db.tasks_id_seq (foldl History.run db calls).
Proof.
  revert db. induction calls as [|c calls IH]; intros db; simpl; [lia|].
  pose proof (run_tasks_id_seq db c). specialize (IH (History.run db c)). lia.
Qed.

(** Once a task has an id, no task created later gets that id or a smaller
    one, whatever calls come in between, removals and failed inserts
    included. *)
Theorem task_ids_are_not_reused (db : Db.t) (x : Task.t) (calls : list History.call)
    (task_data : TaskCreate.t) (y : Task.t) (db' : Db.t) :
  Db.seq_tasks db ->
  x ∈ Db.tasks db ->
  TaskService.create_task (foldl History.run db calls) task_data = (Return y, db') ->
  Task.id x < Task.id y.
Proof.
  intros Hseq Hx. unfold Db.seq_tasks in Hseq. rewrite Forall_forall in Hseq.
  specialize (Hseq x Hx). pose proof (runs_tasks_id_seq db calls) as Hmono.
  unfold TaskService.create_task. simpl. case_decide; [done|]. case_decide; [|done].
  intros [= <- _]. simpl. lia.
Qed.

(** Alice removes "Review" (task 3) and creates a task: it is not task 3. *)
Lemma task_ids_are_not_reused_witness :
  Db.seq_tasks Example.db /\
  Example.review ∈ Db.tasks Example.db /\
  exists y db',
    TaskService.create_task
      (foldl History.run Example.db [History.remove_task 1 3])
      {| TaskCreate.owner_id := 1; TaskCreate.name := Py.lit "Plan";
         TaskCreate.description := []; TaskCreate.category := Py.lit "General";
         TaskCreate.dueDate := None; TaskCreate.parameters := [];
         TaskCreate.completed := false; TaskCreate.tags := [];
         TaskCreate.priority := 0 |} = (Return y, db') /\
    3 < Task.id y.
Proof.
  assert (Db.seq_tasks Example.db) as Hseq by (unfold Db.seq_tasks; compute_done).
  assert (Example.review ∈ Db.tasks Example.db) as Hin
    by (do 2 apply list_elem_of_further; apply list_elem_of_here).
  split; [exact Hseq|]. split; [exact Hin|].
  eexists _, _. split; [vm_compute; reflexivity|].
  eapply (task_ids_are_not_reused Example.db Example.review [History.remove_task 1 3]
            {| TaskCreate.owner_id := 1; TaskCreate.name := Py.lit "Plan";
               TaskCreate.description := []; TaskCreate.category := Py.lit "General";
               TaskCreate.dueDate := None; TaskCreate.parameters := [];
               TaskCreate.completed := false; TaskCreate.tags := [];
               TaskCreate.priority := 0 |});
    [exact Hseq | exact Hin | vm_compute; reflexivity].
Defined.

(* ===================================================================== *)
(** ** The constraints, along a history *)
(* ===================================================================== *)

(** The constraints of the schema (unique user ids, task ids and user
    names, every task owned by a user, both sequences ahead of their
    tables) survive every sequence of calls of the two services in which
    no dictionary handed to [update_task] has the key [id]: a call writes
    rows that meet them, or it raises and leaves the tables as they
    were. *)
Theorem constraints_are_kept (db : Db.t) (calls : list History.call) :
  Db.wf db -> Forall History.keeps_ids calls -> Db.wf (foldl History.run db calls).
Proof.
  revert db. induction calls as [|c calls IH]; intros db Hwf Hcalls; [done|].
  apply Forall_cons in Hcalls as [Hc Hcalls]. simpl.
  apply IH; [by apply wf_run | exact Hcalls].
Qed.

Lemma constraints_are_kept_witness :
  Db.wf Example.db /\
  Forall History.keeps_ids
    [History.remove_task 1 3; History.create_user Example.carol;
     History.update_task 1 1 [TaskData.I_owner_id 2; TaskData.I_priority 3];
     History.update_task 2 2 [TaskData.I_owner_id 9];
     History.update_user 2 [UserData.I_username (Py.lit "alice")]] /\
  Db.wf (foldl History.run Example.db
           [History.remove_task 1 3; History.create_user Example.carol;
            History.update_task 1 1 [TaskData.I_owner_id 2; TaskData.I_priority 3];
            History.update_task 2 2 [TaskData.I_owner_id 9];
            History.update_user 2 [UserData.I_username (Py.lit "alice")]]).
Proof.
  assert (Db.wf Example.db) as Hwf.
  { constructor; unfold Db.pk_users, Db.pk_tasks, Db.unique_username, Db.fk_owner,
      Db.seq_users, Db.seq_tasks; compute_done. }
  assert (Forall History.keeps_ids
            [History.remove_task 1 3; History.create_user Example.carol;
             History.update_task 1 1 [TaskData.I_owner_id 2; TaskData.I_priority 3];
             History.update_task 2 2 [TaskData.I_owner_id 9];
             History.update_user 2 [UserData.I_username (Py.lit "alice")]]) as Hcalls.
  { repeat constructor; compute_done. }
  split; [exact Hwf|]. split; [exact Hcalls|]. by apply constraints_are_kept.
Defined.

(** With the key [id] in the dictionary the lead of the sequence is lost:
    Alice renumbers her task 3 as task 4, the next value of the sequence,
    and the next [create_task] fails on the primary key. *)
Example update_task_takes_next_id :
  let db1 := snd (TaskService.update_task Example.db 1 3 [TaskData.I_id 4]) in
  TaskService.get_task db1 1 4 = Some (Task.set_id 4 Example.review) /\
  ~ Db.seq_tasks db1 /\
  fst (TaskService.create_task db1
         {| TaskCreate.owner_id := 1; TaskCreate.name := Py.lit "Plan";
            TaskCreate.description := []; TaskCreate.category := Py.lit "General";
            TaskCreate.dueDate := None; TaskCreate.parameters := [];
            TaskCreate.completed := false; TaskCreate.tags := [];
            TaskCreate.priority := 0 |})
  = Raise (IntegrityError "tasks_pkey").
Proof.
  split_and!; [reflexivity | | reflexivity].
  intros Hseq. do 2 apply Forall_inv_tail in Hseq. apply Forall_inv in Hseq.
  by vm_compute in Hseq.
Qed.

(** The last call of that history asks for a user name that is taken: it
    raises, and Bob keeps his name.  The call before it asks for an owner
    that is no user. *)
Example update_user_taken_name :
  UserService.update_user Example.db 2 [UserData.I_username (Py.lit "alice")]
  = (Raise (IntegrityError "ix_users_username"), Example.db).
Proof. reflexivity. Qed.

(* ===================================================================== *)
(** ** What the user models accept *)
(* ===================================================================== *)

Lemma difference_singleton_subseteq (X : gset str) (x : str) : X ∖ {[x]} ⊆ X.
Proof. intros y [Hy _]%elem_of_difference. exact Hy. Qed.

Lemma size_set_le (l : list str) : (size (Py.set l) <= length l)%nat.
Proof.
  unfold Py.set. induction l as [|x l IH].
  - by rewrite list_to_set_nil, size_empty.
  - rewrite list_to_set_cons, size_union_alt, size_singleton. simpl.
    pose proof (subseteq_size _ _ (difference_singleton_subseteq (list_to_set l) x)).
    lia.
Qed.

(** The test [len(names) != len(set(names))] of the validators fails
    exactly on the lists without a repetition. *)
Lemma length_size_NoDup (l : list str) : length l = size (Py.set l) <-> NoDup l.
Proof.
  split; [|intros Hnd; unfold Py.set; by rewrite size_list_to_set].
  induction l as [|x l IH]; [constructor|]. intros Hlen.
  unfold Py.set in *. rewrite list_to_set_cons, size_union_alt, size_singleton in Hlen.
  simpl in Hlen.
  pose proof (size_set_le l) as Hle. unfold Py.set in Hle.
  pose proof (subseteq_size _ _ (difference_singleton_subseteq (list_to_set l) x))
    as Hsub.
  constructor; [|apply IH; lia].
  intros Hx.
  assert (list_to_set l ∖ {[x]} ⊂ (list_to_set l : gset str)) as Hstrict.
  { split; [apply difference_singleton_subseteq|]. intros Hs.
    assert (x ∈ (list_to_set l : gset str)) as Hin by by apply elem_of_list_to_set.
    apply Hs, elem_of_difference in Hin as [_ Hn]. by apply Hn, elem_of_singleton. }
  apply subset_size in Hstrict. lia.
Qed.

Lemma Category_new_blank (n c : str) :
  (exists e, Category.new n c = Raise e) <-> Inv.blank Py.isspace n.
Proof.
  rewrite <- (strip_by_nil Py.isspace). fold (Py.strip n).
  unfold Category.new, Category.validate_category_name.
  destruct n as [|x n]; [split; [done | by eexists]|]. simpl Py.truthy at 1.
  destruct (Py.strip (x :: n)); simpl; split; try done; [by eexists | by intros [? ?]].
Qed.

Lemma Tag_new_blank (n c : str) :
  (exists e, Tag.new n c = Raise e) <-> Inv.blank Py.isspace n.
Proof.
  rewrite <- (strip_by_nil Py.isspace). fold (Py.strip n).
  unfold Tag.new, Tag.validate_tag_name.
  destruct n as [|x n]; [split; [done | by eexists]|]. simpl Py.truthy at 1.
  destruct (Py.strip (x :: n)); simpl; split; try done; [by eexists | by intros [? ?]].
Qed.

(** [UserCreate] accepts its arguments exactly when the categories it is
    given have pairwise distinct names, and so have the tags; a list that
    is not given, or given as [None], is not checked.  The instance holds
    the lists it was given, and the defaults for those it was not. *)
Theorem UserCreate_accepts (username : str) (email : option str) (password : str)
    (full_name : option str) (categories : option (option (list Category.t)))
    (tags : option (option (list Tag.t))) :
  ((exists user_create,
      UserCreate.new username email password full_name categories tags
      = Return user_create) <->
   (forall cs, categories = Some (Some cs) -> NoDup (Category.name <$> cs)) /\
   (forall ts, tags = Some (Some ts) -> NoDup (Tag.name <$> ts))) /\
  (forall user_create,
     UserCreate.new username email password full_name categories tags
     = Return user_create ->
     UserCreate.categories user_create = default UserCreate.default_categories categories /\
     UserCreate.tags user_create = default UserCreate.default_tags tags /\
     UserCreate.username user_create = username /\
     UserCreate.password user_create = password).
Proof.
  unfold UserCreate.new, UserCreate.validate_categories, UserCreate.validate_tags.
  split; [split|].
  - intros [user_create Hnew]. split.
    + intros cs ->. simpl in Hnew.
      case_decide as Hc; [by apply length_size_NoDup | done].
    + intros ts ->. destruct categories as [[cs|]|]; simpl in Hnew;
        repeat case_decide; try done; by apply length_size_NoDup.
  - intros [Hc Ht].
    destruct categories as [[cs|]|], tags as [[ts|]|]; simpl;
      rewrite ?decide_True by (apply length_size_NoDup; eauto); by eexists.
  - intros user_create Hnew.
    destruct categories as [[cs|]|], tags as [[ts|]|]; simpl in Hnew;
      repeat case_decide; try done; by injection Hnew as <-.
Qed.

Example UserCreate_rejects_repetition :
  UserCreate.new (Py.lit "dora") None (Py.lit "pw") None
    (Some (Some [Example.Work; Example.Work_green])) None
  = Raise (CategoryException "Duplicate category names are not allowed").
Proof. by vm_compute. Qed.

(* ===================================================================== *)
(** ** One entry for a name *)
(* ===================================================================== *)

Section keyed.

Context {A : Type} (key : A -> str).

(** In a list without a repeated key, an entry is the only one of its
    key. *)
Lemma filter_key_unique (l : list A) (i : nat) (x : A) :
  NoDup (key <$> l) -> l !! i = Some x -> filter (fun y => key y = key x) l = [x].
Proof.
  revert i. induction l as [|a l IH]; intros i Hnd Hi; [done|].
  rewrite fmap_cons in Hnd. apply NoDup_cons in Hnd as [Hfresh Hnd].
  destruct i as [|i]; simpl in Hi.
  - injection Hi as ->. rewrite filter_cons_True by done. f_equal.
    apply filter_none. apply Forall_forall. intros y Hy Heq.
    apply Hfresh. rewrite <- Heq. by apply list_elem_of_fmap_2.
  - rewrite filter_cons_False; [by eapply IH|].
    intros Heq. apply Hfresh. rewrite Heq.
    apply list_elem_of_fmap_2. by eapply list_elem_of_lookup_2.
Qed.

(** Replacing the entry of a key by one of the same key, or appending an
    entry under a key that the list does not have, keeps the keys without
    repetition, leaves exactly the new entry under its key, and leaves the
    entries under the other keys as they were. *)
Lemma upsert_keyed (l l' : list A) (c : A) :
  (exists i old, l !! i = Some old /\ key old = key c /\ l' = <[i := c]> l) \/
  (Forall (fun e => key e <> key c) l /\ l' = l ++ [c]) ->
  NoDup (key <$> l) ->
  NoDup (key <$> l') /\
  filter (fun e => key e = key c) l' = [c] /\
  (forall e, key e <> key c -> e ∈ l' <-> e ∈ l).
Proof.
  intros Hcase Hnd.
  assert (NoDup (key <$> l') /\ (exists i, l' !! i = Some c)
          /\ forall e, key e <> key c -> e ∈ l' <-> e ∈ l) as (Hnd' & [i Hi] & Hrest).
  { destruct Hcase as [(i & old & Hi & Hkey & ->) | [Hall ->]].
    - split_and!.
      + by erewrite fmap_insert_same.
      + exists i. apply list_lookup_insert_eq. by eapply lookup_lt_Some.
      + intros e He. split.
        * intros [-> | Hin]%elem_of_insert_inv; done.
        * intros (j & Hj)%list_elem_of_lookup_1.
          apply list_elem_of_lookup_2 with j. rewrite list_lookup_insert_ne; [done|].
          intros ->. congruence.
    - split_and!.
      + rewrite fmap_app. apply NoDup_app. split_and!; [done| |apply NoDup_singleton].
        intros k Hk ->%list_elem_of_singleton.
        apply list_elem_of_fmap in Hk as (e & Heq & He).
        rewrite Forall_forall in Hall. by apply (Hall e He).
      + exists (length l). by apply list_lookup_middle.
      + intros e He. rewrite elem_of_app, list_elem_of_singleton.
        split; [intros [? | ->]; done | auto]. }
  split_and!; [done | by eapply filter_key_unique | done].
Qed.

(** Dropping entries keeps the keys without repetition. *)
Lemma filter_keyed (P : A -> Prop) `{!forall x, Decision (P x)} (l : list A) :
  NoDup (key <$> l) -> NoDup (key <$> filter P l).
Proof.
  intros Hnd. eapply sublist_NoDup; [exact Hnd|]. apply fmap_sublist, sublist_filter.
Qed.

End keyed.

Lemma upsert_category_keyed (l : list Category.t) (c : Category.t) :
  (exists i old, l !! i = Some old /\ Category.name old = Category.name c
                 /\ UserService.upsert_category l c = <[i := c]> l) \/
  (Forall (fun e => Category.name e <> Category.name c) l
   /\ UserService.upsert_category l c = l ++ [c]).
Proof.
  destruct (decide (Exists (fun e => Category.name e = Category.name c) l)) as [Hex|Hno].
  - left. apply (proj1 (upsert_category_cases l c)) in Hex
      as (i & old & ? & ? & _ & ?). by exists i, old.
  - right. apply not_Exists_Forall in Hno; [|apply _].
    split; [done|]. by apply (proj2 (upsert_category_cases l c)).
Qed.

Lemma upsert_tag_keyed (l : list Tag.t) (c : Tag.t) :
  (exists i old, l !! i = Some old /\ Tag.name old = Tag.name c
                 /\ UserService.upsert_tag l c = <[i := c]> l) \/
  (Forall (fun e => Tag.name e <> Tag.name c) l /\ UserService.upsert_tag l c = l ++ [c]).
Proof.
  destruct (decide (Exists (fun e => Tag.name e = Tag.name c) l)) as [Hex|Hno].
  - left. apply (proj1 (upsert_tag_cases l c)) in Hex
      as (i & old & ? & ? & _ & ?). by exists i, old.
  - right. apply not_Exists_Forall in Hno; [|apply _].
    split; [done|]. by apply (proj2 (upsert_tag_cases l c)).
Qed.

(** For a user whose categories have pairwise distinct names,
    [create_category] stores a list that still has, has exactly the
    category it was given under that name, and has the categories of the
    other names as before.  [create_tag] does the same for tags. *)
Theorem upsert_leaves_one :
  (forall (db : Db.t) (user_id : Z) (category : Category.t) (user : User.t),
     UserService.get_user db user_id = Some user ->
     NoDup (Category.name <$> User.categories user) ->
     exists db' l',
       UserService.create_category db user_id category = (Some category, db') /\
       UserService.get_categories db' user_id = l' /\
       NoDup (Category.name <$> l') /\
       filter (fun e => Category.name e = Category.name category) l' = [category] /\
       (forall e, Category.name e <> Category.name category ->
                  e ∈ l' <-> e ∈ User.categories user)) /\
  (forall (db : Db.t) (user_id : Z) (tag : Tag.t) (user : User.t),
     UserService.get_user db user_id = Some user ->
     NoDup (Tag.name <$> User.tags user) ->
     exists db' l',
       UserService.create_tag db user_id tag = (Some tag, db') /\
       UserService.get_tags db' user_id = l' /\
       NoDup (Tag.name <$> l') /\
       filter (fun e => Tag.name e = Tag.name tag) l' = [tag] /\
       (forall e, Tag.name e <> Tag.name tag -> e ∈ l' <-> e ∈ User.tags user)).
Proof.
  split.
  - intros db user_id category user (i & Hfind & Hid)%get_user_Some Hnd.
    unfold UserService.create_category, UserService.get_categories.
    rewrite Hfind. simpl. eexists _, _. split; [done|]. simpl.
    rewrite (first_insert _ _ _ _ _ Hfind) by done. simpl. split; [done|].
    apply (upsert_keyed Category.name); [apply upsert_category_keyed | done].
  - intros db user_id tag user (i & Hfind & Hid)%get_user_Some Hnd.
    unfold UserService.create_tag, UserService.get_tags.
    rewrite Hfind. simpl. eexists _, _. split; [done|]. simpl.
    rewrite (first_insert _ _ _ _ _ Hfind) by done. simpl. split; [done|].
    apply (upsert_keyed Tag.name); [apply upsert_tag_keyed | done].
Qed.

(** Alice has "General" and "Work"; she upserts "Work" in green. *)
Lemma upsert_leaves_one_witness :
  UserService.get_user Example.db 1 = Some Example.alice /\
  NoDup (Category.name <$> User.categories Example.alice) /\
  exists db' l',
    UserService.create_category Example.db 1 Example.Work_green
    = (Some Example.Work_green, db') /\
    UserService.get_categories db' 1 = l' /\
    filter (fun e => Category.name e = Py.lit "Work") l' = [Example.Work_green].
Proof.
  assert (NoDup (Category.name <$> User.categories Example.alice)) as Hnd by compute_done.
  split; [reflexivity|]. split; [exact Hnd|].
  destruct (proj1 upsert_leaves_one Example.db 1 Example.Work_green Example.alice
              eq_refl Hnd) as (db' & l' & Hret & Hget & _ & Hone & _).
  by exists db', l'.
Defined.

(* ===================================================================== *)
(** ** Names stay distinct *)
(* ===================================================================== *)

(** An entry that has gone through its constructor goes through it again
    unchanged. *)
Lemma Category_new_idem (n col : str) (c : Category.t) :
  Category.new n col = Return c ->
  Category.new (Category.name c) (Category.color c) = Return c.
Proof.
  unfold Category.new, Category.validate_category_name.
  destruct (negb _ || negb _) eqn:Htest; [done|]. intros [= <-]. simpl.
  apply orb_false_iff in Htest as [_ Htest].
  unfold Py.strip in *. rewrite strip_by_idem.
  destruct (Py.strip_by Py.isspace n); [done|]. done.
Qed.

Lemma Tag_new_idem (n col : str) (c : Tag.t) :
  Tag.new n col = Return c -> Tag.new (Tag.name c) (Tag.color c) = Return c.
Proof.
  unfold Tag.new, Tag.validate_tag_name.
  destruct (negb _ || negb _) eqn:Htest; [done|]. intros [= <-]. simpl.
  apply orb_false_iff in Htest as [_ Htest].
  unfold Py.strip in *. rewrite strip_by_idem.
  destruct (Py.strip_by Py.isspace n); [done|]. done.
Qed.

Lemma traverse_idem {A : Type} (f : A -> result A) (l ys : list A) :
  (forall x y, f x = Return y -> f y = Return y) ->
  traverse f l = Return ys -> traverse f ys = Return ys.
Proof.
  intros Hf. revert ys. induction l as [|x l IH]; intros ys; simpl; [by intros [= <-]|].
  destruct (f x) as [y|] eqn:Hx; [|done].
  destruct (traverse f l) as [ys'|]; [|done]. intros [= <-]. simpl.
  by rewrite (Hf _ _ Hx), (IH ys').
Qed.

(** The lists of a [UserUpdate] have pairwise distinct names and go
    through their constructors unchanged. *)
Lemma UserUpdate_new_lists (body : UserUpdate.body) (payload : UserUpdate.t) :
  UserUpdate.new body = Return payload ->
  (forall cs, UserUpdate.categories payload = Some cs ->
     NoDup (Category.name <$> cs) /\
     traverse (fun cat => Category.new (Category.name cat) (Category.color cat)) cs
     = Return cs) /\
  (forall ts, UserUpdate.tags payload = Some ts ->
     NoDup (Tag.name <$> ts) /\
     traverse (fun tag => Tag.new (Tag.name tag) (Tag.color tag)) ts = Return ts).
Proof.
  unfold UserUpdate.new, UserUpdate.validate_categories, UserUpdate.validate_tags.
  intros Hnew.
  destruct (UserUpdate.b_categories body) as [rawc|].
  - destruct (traverse _ rawc) as [cs|] eqn:Hc; [|done]. simpl in Hnew.
    case_decide as Hdc; [|done].
    destruct (UserUpdate.b_tags body) as [rawt|].
    + destruct (traverse _ rawt) as [ts|] eqn:Ht; [|done]. simpl in Hnew.
      case_decide as Hdt; [|done]. injection Hnew as <-. simpl.
      split; intros ? [= <-]; (split; [by apply length_size_NoDup|]).
      * eapply traverse_idem; [|exact Hc]. intros ? ?. apply Category_new_idem.
      * eapply traverse_idem; [|exact Ht]. intros ? ?. apply Tag_new_idem.
    + injection Hnew as <-. simpl. split; [|done].
      intros ? [= <-]. split; [by apply length_size_NoDup|].
      eapply traverse_idem; [|exact Hc]. intros ? ?. apply Category_new_idem.
  - destruct (UserUpdate.b_tags body) as [rawt|].
    + destruct (traverse _ rawt) as [ts|] eqn:Ht; [|done]. simpl in Hnew.
      case_decide as Hdt; [|done]. injection Hnew as <-. simpl. split; [done|].
      intros ? [= <-]. split; [by apply length_size_NoDup|].
      eapply traverse_idem; [|exact Ht]. intros ? ?. apply Tag_new_idem.
    + by injection Hnew as <-.
Qed.

Lemma names_unique_write (db : Db.t) (i : nat) (user' : User.t) :
  Inv.names_unique db ->
  NoDup (Category.name <$> User.categories user') ->
  NoDup (Tag.name <$> User.tags user') ->
  Inv.names_unique (Db.commit_users (<[i := user']> (Db.users db)) db).
Proof. intros Hu ? ?. unfold Inv.names_unique in *. simpl. by apply Forall_insert. Qed.

Lemma names_unique_append (db db' : Db.t) (user' : User.t) :
  Inv.names_unique db ->
  Db.users db' = Db.users db ++ [user'] ->
  NoDup (Category.name <$> User.categories user') ->
  NoDup (Tag.name <$> User.tags user') ->
  Inv.names_unique db'.
Proof.
  intros Hu Heq ? ?. unfold Inv.names_unique in *. rewrite Heq.
  apply Forall_app. split; [done|]. by repeat constructor.
Qed.

(** The lists of a [UserCreate] have pairwise distinct names. *)
Lemma UserCreate_lists (username : str) (email : option str) (password : str)
    (full_name : option str) (categories : option (option (list Category.t)))
    (tags : option (option (list Tag.t))) (user_create : UserCreate.t) :
  UserCreate.new username email password full_name categories tags = Return user_create ->
  NoDup (Category.name <$> default [] (UserCreate.categories user_create)) /\
  NoDup (Tag.name <$> default [] (UserCreate.tags user_create)).
Proof.
  unfold UserCreate.new, UserCreate.validate_categories, UserCreate.validate_tags.
  intros Hnew.
  destruct categories as [[cs|]|], tags as [[ts|]|]; simpl in Hnew;
    repeat case_decide; try done; injection Hnew as <-; simpl;
    split; try (by apply length_size_NoDup); try constructor; compute_done.
Qed.

Lemma names_unique_of (db : Db.t) (i : nat) (user : User.t) :
  Inv.names_unique db -> Db.users db !! i = Some user ->
  NoDup (Category.name <$> User.categories user) /\ NoDup (Tag.name <$> User.tags user).
Proof.
  unfold Inv.names_unique. rewrite Forall_lookup. intros Hu Hi. by apply (Hu i).
Qed.

(** What the loop of [update_user] stores for the dictionary of a
    [UserUpdate]: the user name, and each of the other four when the
    payload has it. *)
Lemma update_fields_update_data (user : User.t) (body : UserUpdate.body)
    (payload : UserUpdate.t) :
  UserUpdate.new body = Return payload ->
  exists user',
    UserService.update_fields user (UserApi.update_data payload) = Return user' /\
    User.id user' = User.id user /\
    User.username user' = UserUpdate.username payload /\
    User.email user' = default (User.email user) (UserUpdate.email payload) /\
    User.full_name user' = default (User.full_name user) (UserUpdate.full_name payload) /\
    User.categories user' = default (User.categories user) (UserUpdate.categories payload) /\
    User.tags user' = default (User.tags user) (UserUpdate.tags payload) /\
    User.hashed_password user' = User.hashed_password user /\
    User.disabled user' = User.disabled user.
Proof.
  intros [Hc Ht]%UserUpdate_new_lists.
  destruct payload as [un em fn cs ts]. unfold UserApi.update_data. simpl in *.
  destruct cs as [cs|]; [destruct (Hc cs eq_refl) as [_ Hcs]|];
    (destruct ts as [ts|]; [destruct (Ht ts eq_refl) as [_ Hts]|]);
    destruct em, fn; simpl; unfold UserService.update_field; simpl;
    rewrite ?Hcs, ?Hts; simpl;
    rewrite ?Category_model_dump_fmap, ?Tag_model_dump_fmap;
    eexists; (split; [reflexivity|]); by split_and!.
Qed.

(** From a database where, within every user, the categories have
    pairwise distinct names and so have the tags, the registration, the
    creation of a user from a [UserCreate], the upsert and the removal of
    a category or tag, and [PUT /users/{user_id}] with a [UserUpdate] all
    lead to such a database. *)
Theorem names_stay_unique (db : Db.t) :
  Inv.names_unique db ->
  (forall get_password_hash user,
     Inv.names_unique (snd (Api.create_user get_password_hash db user))) /\
  (forall username email password full_name categories tags user_create,
     UserCreate.new username email password full_name categories tags
     = Return user_create ->
     Inv.names_unique (snd (UserService.create_user db user_create))) /\
  (forall user_id category,
     Inv.names_unique (snd (UserService.create_category db user_id category))) /\
  (forall user_id tag, Inv.names_unique (snd (UserService.create_tag db user_id tag))) /\
  (forall user_id category_name,
     Inv.names_unique (snd (UserService.delete_category db user_id category_name))) /\
  (forall user_id tag_name,
     Inv.names_unique (snd (UserService.delete_tag db user_id tag_name))) /\
  (forall user_id body payload,
     UserUpdate.new body = Return payload ->
     Inv.names_unique (snd (UserApi.update_user db user_id payload))).
Proof.
  intros Hu. split_and!.
  - intros get_password_hash user. unfold Api.create_user.
    destruct (UserService.get_user_by_username _ _); [done|].
    unfold UserCreate.new, UserService.create_user. simpl.
    case_decide; simpl; [done|].
    eapply names_unique_append; [exact Hu | reflexivity | compute_done | constructor].
  - intros username email password full_name categories tags user_create Hnew.
    pose proof (proj2 (UserCreate_lists username email password full_name categories
                         tags user_create Hnew)) as Htags.
    pose proof (proj1 (UserCreate_lists username email password full_name categories
                         tags user_create Hnew)) as Hcats.
    unfold UserService.create_user. simpl. case_decide; simpl; [done|].
    eapply names_unique_append; [exact Hu | reflexivity | |]; simpl;
      by rewrite ?Category_model_dump_fmap, ?Tag_model_dump_fmap.
  - intros user_id category. unfold UserService.create_category.
    destruct (Db.first _ _) as [[i user]|] eqn:Hfind; [|done]. simpl.
    apply first_lookup in Hfind as [Hi _].
    destruct (names_unique_of db i user Hu Hi) as [Hc Ht].
    apply names_unique_write; [done| |done]. simpl.
    by apply (upsert_keyed Category.name _ _ category (upsert_category_keyed _ _)).
  - intros user_id tag. unfold UserService.create_tag.
    destruct (Db.first _ _) as [[i user]|] eqn:Hfind; [|done]. simpl.
    apply first_lookup in Hfind as [Hi _].
    destruct (names_unique_of db i user Hu Hi) as [Hc Ht].
    apply names_unique_write; [done|done|]. simpl.
    by apply (upsert_keyed Tag.name _ _ tag (upsert_tag_keyed _ _)).
  - intros user_id category_name. unfold UserService.delete_category.
    destruct (Db.first _ _) as [[i user]|] eqn:Hfind; [|done]. simpl.
    apply first_lookup in Hfind as [Hi _].
    destruct (names_unique_of db i user Hu Hi) as [Hc Ht].
    apply names_unique_write; [done| |done]. simpl. by apply filter_keyed.
  - intros user_id tag_name. unfold UserService.delete_tag.
    destruct (Db.first _ _) as [[i user]|] eqn:Hfind; [|done]. simpl.
    apply first_lookup in Hfind as [Hi _].
    destruct (names_unique_of db i user Hu Hi) as [Hc Ht].
    apply names_unique_write; [done|done|]. simpl. by apply filter_keyed.
  - intros user_id body payload Hnew. unfold UserApi.update_user.
    destruct (UserService.get_user db user_id) as [user|] eqn:Hget; [|done].
    apply get_user_Some in Hget as (i & Hfind & Hid).
    unfold UserService.update_user. rewrite Hid, Hfind.
    destruct (update_fields_update_data user body payload Hnew)
      as (user' & -> & _ & _ & _ & _ & Hcats & Htags & _).
    case_decide; simpl; [done|].
    apply first_lookup in Hfind as [Hi _].
    destruct (names_unique_of db i user Hu Hi) as [Hc Ht].
    destruct (UserUpdate_new_lists body payload Hnew) as [Hpc Hpt].
    apply names_unique_write; [done| |].
    + rewrite Hcats. destruct (UserUpdate.categories payload) as [cs|]; [|done].
      by apply Hpc.
    + rewrite Htags. destruct (UserUpdate.tags payload) as [ts|]; [|done].
      by apply Hpt.
Qed.

Lemma names_stay_unique_witness :
  Inv.names_unique Example.db /\
  Inv.names_unique (snd (UserService.create_category Example.db 1 Example.Work_green)) /\
  Inv.names_unique (snd (UserService.delete_tag Example.db 1 (Py.lit "urgent"))).
Proof.
  assert (Inv.names_unique Example.db) as Hu by (unfold Inv.names_unique; compute_done).
  destruct (names_stay_unique Example.db Hu) as (_ & _ & Hcat & _ & _ & Htag & _).
  split; [exact Hu|]. split; [apply Hcat | apply Htag].
Defined.

(** The service alone does not look for repetitions: handed two categories
    of one name, [update_user] stores both.  It is [UserUpdate] that keeps
    them out. *)
Example update_user_stores_repetition :
  UserService.get_categories
    (snd (UserService.update_user Example.db 1
            [UserData.I_categories [Example.Work; Example.Work_green]])) 1
  = [Example.Work; Example.Work_green] /\
  UserUpdate.new
    {| UserUpdate.b_username := Py.lit "alice"; UserUpdate.b_email := None;
       UserUpdate.b_full_name := None;
       UserUpdate.b_categories := Some [Example.Work; Example.Work_green];
       UserUpdate.b_tags := None |}
  = Raise (CategoryException "Duplicate category names are not allowed").
Proof. split; by vm_compute. Qed.

(* ===================================================================== *)
(** ** [PUT /users/{user_id}], field by field *)
(* ===================================================================== *)

(** For a user that exists and a [UserUpdate], [PUT /users/{user_id}]
    answers 500 and writes nothing when the new user name is another
    user's; otherwise it stores and returns the user under the same id
    with the user name of the payload, with the e-mail address, full name,
    categories and tags of the payload where it has them and the stored
    ones where it has not, and with the password hash and the [disabled]
    flag as they were.  The second validation of the lists inside the
    service never fails. *)
Theorem put_user_fields (db : Db.t) (user_id : Z) (body : UserUpdate.body)
    (payload : UserUpdate.t) (user : User.t) :
  UserService.get_user db user_id = Some user ->
  UserUpdate.new body = Return payload ->
  if decide (UserUpdate.username payload <> User.username user
             /\ UserUpdate.username payload ∈ (User.username <$> Db.users db))
  then exists detail,
         UserApi.update_user db user_id payload = (Raise (HTTPException 500 detail), db)
  else
    exists user' db',
      UserApi.update_user db user_id payload = (Return (Some user'), db') /\
      UserService.get_user db' user_id = Some user' /\
      User.id user' = user_id /\
      User.username user' = UserUpdate.username payload /\
      User.email user' = default (User.email user) (UserUpdate.email payload) /\
      User.full_name user' = default (User.full_name user) (UserUpdate.full_name payload) /\
      User.categories user' = default (User.categories user) (UserUpdate.categories payload) /\
      User.tags user' = default (User.tags user) (UserUpdate.tags payload) /\
      User.hashed_password user' = User.hashed_password user /\
      User.disabled user' = User.disabled user.
Proof.
  intros Hget Hnew. unfold UserApi.update_user. rewrite Hget.
  apply get_user_Some in Hget as (i & Hfind & Hid).
  unfold UserService.update_user. rewrite Hid, Hfind.
  destruct (update_fields_update_data user body payload Hnew)
    as (user' & -> & Hid' & Hname & Hrest).
  rewrite Hname. case_decide; [by eexists|].
  exists user', (Db.commit_users (<[i := user']> (Db.users db)) db).
  split; [done|]. split; [apply (get_user_commit db user_id i user user' Hfind); congruence|].
  split; [congruence|]. by split.
Qed.

(** Bob sends a new full name and keeps his user name; then he asks for
    Alice's user name. *)
Lemma put_user_fields_witness :
  UserService.get_user Example.db 2 = Some Example.bob /\
  (exists user' db',
     UserApi.update_user Example.db 2
       {| UserUpdate.username := Py.lit "bob"; UserUpdate.email := None;
          UserUpdate.full_name := Some (Py.lit "Bob B."); UserUpdate.categories := None;
          UserUpdate.tags := None |} = (Return (Some user'), db') /\
     User.full_name user' = Py.lit "Bob B." /\
     User.categories user' = [Example.General]) /\
  (exists detail,
     UserApi.update_user Example.db 2
       {| UserUpdate.username := Py.lit "alice"; UserUpdate.email := None;
          UserUpdate.full_name := None; UserUpdate.categories := None;
          UserUpdate.tags := None |}
     = (Raise (HTTPException 500 detail), Example.db)).
Proof.
  split; [reflexivity|]. split.
  - pose proof (put_user_fields Example.db 2
                  {| UserUpdate.b_username := Py.lit " bob "; UserUpdate.b_email := None;
                     UserUpdate.b_full_name := Some (Py.lit "Bob B.");
                     UserUpdate.b_categories := None; UserUpdate.b_tags := None |}
                  _ Example.bob eq_refl eq_refl) as Hput.
    rewrite decide_False in Hput by (intros [Hne _]; by apply Hne).
    destruct Hput as (user' & db' & Hret & _ & _ & _ & _ & Hfull & Hcats & _).
    by exists user', db'.
  - pose proof (put_user_fields Example.db 2
                  {| UserUpdate.b_username := Py.lit "alice"; UserUpdate.b_email := None;
                     UserUpdate.b_full_name := None;
                     UserUpdate.b_categories := None; UserUpdate.b_tags := None |}
                  _ Example.bob eq_refl eq_refl) as Hput.
    rewrite decide_True in Hput; [exact Hput|].
    split; [discriminate | compute_done].
Defined.

(* ===================================================================== *)
(** ** Users: create, then get; register, then log in *)
(* ===================================================================== *)

(** With the sequence of user ids ahead of the table: [create_user] for a
    user name that is free returns a user whose id is the next value of
    the sequence, that [get_user] finds under that id and
    [get_user_by_username] under that name; the user is not disabled, the
    password is stored as it was handed over, and an e-mail address, full
    name, category list or tag list that is [None] is stored as the empty
    string or list.  For a user name that is taken it raises and the table
    is as it was. *)
Theorem create_user_then_get (db : Db.t) (user_create : UserCreate.t) :
  Db.seq_users db ->
  if decide (UserCreate.username user_create ∈ (User.username <$> Db.users db))
  then exists e db',
         UserService.create_user db user_create = (Raise e, db') /\
         Db.users db' = Db.users db
  else exists user db',
         UserService.create_user db user_create = (Return user, db') /\
         UserService.get_user db' (User.id user) = Some user /\
         UserService.get_user_by_username db' (UserCreate.username user_create) = Some user /\
         Db.users db' = Db.users db ++ [user] /\
         User.id user = Db.users_id_seq db + 1 /\
         User.username user = UserCreate.username user_create /\
         User.hashed_password user = UserCreate.password user_create /\
         User.disabled user = false /\
         User.email user = default [] (UserCreate.email user_create) /\
         User.full_name user = default [] (UserCreate.full_name user_create) /\
         User.categories user = default [] (UserCreate.categories user_create) /\
         User.tags user = default [] (UserCreate.tags user_create).
Proof.
  intros Hseq. unfold UserService.create_user. simpl.
  case_decide as Htaken; [by eexists _, _|].
  eexists _, _. split; [done|]. simpl.
  split_and!; try done.
  - unfold UserService.get_user. simpl.
    rewrite first_append_fresh; [done| |done].
    eapply Forall_impl; [exact Hseq|]. intros u Hu Hid. simpl in *. lia.
  - unfold UserService.get_user_by_username. simpl.
    rewrite first_append_fresh; [done| |done].
    apply Forall_forall. intros u Hu Heq. apply Htaken, list_elem_of_fmap. eauto.
  - apply Category_model_dump_fmap.
  - apply Tag_model_dump_fmap.
Qed.

Lemma create_user_then_get_witness :
  Db.seq_users Example.db /\
  exists user db',
    UserService.create_user Example.db Example.carol = (Return user, db') /\
    UserService.get_user db' 3 = Some user /\
    User.email user = [] /\
    User.categories user = [Example.Work; Example.Home].
Proof.
  assert (Db.seq_users Example.db) as Hseq by (unfold Db.seq_users; compute_done).
  split; [exact Hseq|].
  pose proof (create_user_then_get Example.db Example.carol Hseq) as Hcreate.
  rewrite decide_False in Hcreate by compute_done.
  destruct Hcreate as (user & db' & Hret & Hget & _ & _ & Hid & _ & _ & _ & Hemail & _
                       & Hcats & _).
  exists user, db'. split_and!; [done | | done | done].
  by rewrite <- Hget, Hid.
Defined.

(** The registration of a free user name, again, with what is needed of
    it below. *)
Lemma register_free (get_password_hash : str -> str) (db : Db.t) (user : UserCreate.t) :
  UserService.get_user_by_username db (UserCreate.username user) = None ->
  exists u db',
    Api.create_user get_password_hash db user = (Return u, db') /\
    Auth.get_user db' (UserCreate.username user) = Some u /\
    User.hashed_password u = get_password_hash (UserCreate.password user) /\
    User.disabled u = false.
Proof.
  intros Hfree. unfold Api.create_user. rewrite Hfree.
  apply get_user_by_username_None in Hfree.
  unfold UserCreate.new, UserService.create_user. simpl.
  rewrite decide_False by done. eexists _, _. split; [done|]. simpl.
  split; [|done]. unfold Auth.get_user. simpl.
  rewrite first_append_fresh; [done| |done].
  apply Forall_forall. intros u Hu Heq. apply Hfree, list_elem_of_fmap. eauto.
Qed.

(** Let the password library verify a password against its own hash of
    it.  Then a user who has registered under a free name passes
    [authenticated_user] with the password of the registration, fails it
    with any password that the library does not verify against the stored
    hash, and is the current active user of every token whose subject is
    the user name. *)
Theorem registered_user_logs_in (get_password_hash : str -> str)
    (verify_password : str -> str -> bool) (decode_sub : str -> option (option str))
    (db : Db.t) (user : UserCreate.t) :
  (forall password, verify_password password (get_password_hash password) = true) ->
  UserService.get_user_by_username db (UserCreate.username user) = None ->
  exists u db',
    Api.create_user get_password_hash db user = (Return u, db') /\
    Auth.authenticated_user verify_password db' (UserCreate.username user)
      (UserCreate.password user) = Some u /\
    (forall password,
       verify_password password (get_password_hash (UserCreate.password user)) = false ->
       Auth.authenticated_user verify_password db' (UserCreate.username user) password
       = None) /\
    (forall token,
       decode_sub token = Some (Some (UserCreate.username user)) ->
       Auth.current_active_user decode_sub db' token = Return u).
Proof.
  intros Hverify Hfree.
  destruct (register_free get_password_hash db user Hfree)
    as (u & db' & Hret & Hget & Hhash & Hactive).
  exists u, db'. split; [done|].
  unfold Auth.authenticated_user, Auth.current_active_user, Auth.get_current_user,
    Auth.get_current_active_user.
  rewrite Hget, Hhash. split_and!.
  - by rewrite Hverify.
  - by intros password ->.
  - intros token ->. by rewrite Hget, Hactive.
Qed.

(** A toy password library and token format for the example: the hash is
    the password behind a marker, the token is the user name. *)
Lemma registered_user_logs_in_witness :
  UserService.get_user_by_username Example.db (Py.lit "carol") = None /\
  exists u db',
    Api.create_user (fun p => Py.lit "$" ++ p) Example.db Example.carol = (Return u, db') /\
    Auth.authenticated_user (fun p h => bool_decide (h = Py.lit "$" ++ p)) db'
      (Py.lit "carol") (Py.lit "s3cret") = Some u /\
    Auth.authenticated_user (fun p h => bool_decide (h = Py.lit "$" ++ p)) db'
      (Py.lit "carol") (Py.lit "guess") = None.
Proof.
  split; [reflexivity|].
  destruct (registered_user_logs_in (fun p => Py.lit "$" ++ p)
              (fun p h => bool_decide (h = Py.lit "$" ++ p))
              (fun token => Some (Some token)) Example.db Example.carol
              ltac:(intros p; by apply bool_decide_eq_true) eq_refl)
    as (u & db' & Hret & Hok & Hbad & _).
  exists u, db'. split_and!; [done | done |].
  apply Hbad. by vm_compute.
Defined.

(** A token without a subject, a token that does not decode, a subject
    that is no user, and a user that is disabled. *)
Example current_active_user_refusals :
  Auth.current_active_user (fun _ => None) Example.db (Py.lit "t")
  = Raise (HTTPException 401 "Could not validate credentials") /\
  Auth.current_active_user (fun _ => Some None) Example.db (Py.lit "t")
  = Raise (HTTPException 401 "Could not validate credentials") /\
  Auth.current_active_user (fun t => Some (Some t)) Example.db (Py.lit "zed")
  = Raise (HTTPException 401 "Could not validate credentials") /\
  Auth.current_active_user (fun t => Some (Some t))
    (snd (UserService.update_user Example.db 2 [UserData.I_disabled true])) (Py.lit "bob")
  = Raise (HTTPException 400 "Inactive user").
Proof. split_and!; by vm_compute. Qed.

(* ===================================================================== *)
(** ** Upsert and removal compose *)
(* ===================================================================== *)

Lemma upsert_category_kept (l : list Category.t) (c : Category.t) :
  filter (fun e => Category.name e <> Category.name c) (UserService.upsert_category l c)
  = filter (fun e => Category.name e <> Category.name c) l.
Proof.
  destruct (upsert_category_keyed l c) as [(i & old & Hi & Hname & ->) | [Hall ->]].
  - eapply filter_insert_miss; [done|..]; intros Hne; by apply Hne.
  - rewrite filter_app, filter_cons_False, filter_nil, app_nil_r; [done|].
    intros Hne. by apply Hne.
Qed.

Lemma upsert_tag_kept (l : list Tag.t) (c : Tag.t) :
  filter (fun e => Tag.name e <> Tag.name c) (UserService.upsert_tag l c)
  = filter (fun e => Tag.name e <> Tag.name c) l.
Proof.
  destruct (upsert_tag_keyed l c) as [(i & old & Hi & Hname & ->) | [Hall ->]].
  - eapply filter_insert_miss; [done|..]; intros Hne; by apply Hne.
  - rewrite filter_app, filter_cons_False, filter_nil, app_nil_r; [done|].
    intros Hne. by apply Hne.
Qed.

Lemma filter_twice_none {A : Type} (P : A -> Prop) `{!forall x, Decision (P x)}
    (l : list A) :
  filter P (filter (fun x => ~ P x) l) = []
  /\ filter (fun x => ~ P x) (filter (fun x => ~ P x) l) = filter (fun x => ~ P x) l.
Proof.
  split.
  - apply filter_none, Forall_forall. by intros x [? _]%list_elem_of_filter.
  - apply filter_all, Forall_forall. by intros x [? _]%list_elem_of_filter.
Qed.

(** For a user that exists: a second [delete_category] of a name returns
    the empty list and stores the list that the first one stored; and,
    when the names of the user's categories are pairwise distinct,
    [delete_category] right after [create_category] returns exactly the
    category that was upserted and stores the original list without the
    entry of that name.  The same holds of tags. *)
Theorem delete_after :
  (forall (db : Db.t) (user_id : Z) (user : User.t),
     UserService.get_user db user_id = Some user ->
     (forall category_name,
        let db1 := snd (UserService.delete_category db user_id category_name) in
        fst (UserService.delete_category db1 user_id category_name) = Some [] /\
        UserService.get_categories
          (snd (UserService.delete_category db1 user_id category_name)) user_id
        = UserService.get_categories db1 user_id) /\
     (forall category,
        NoDup (Category.name <$> User.categories user) ->
        let db1 := snd (UserService.create_category db user_id category) in
        fst (UserService.delete_category db1 user_id (Category.name category))
        = Some [category] /\
        UserService.get_categories
          (snd (UserService.delete_category db1 user_id (Category.name category))) user_id
        = filter (fun e => Category.name e <> Category.name category)
            (User.categories user))) /\
  (forall (db : Db.t) (user_id : Z) (user : User.t),
     UserService.get_user db user_id = Some user ->
     (forall tag_name,
        let db1 := snd (UserService.delete_tag db user_id tag_name) in
        fst (UserService.delete_tag db1 user_id tag_name) = Some [] /\
        UserService.get_tags (snd (UserService.delete_tag db1 user_id tag_name)) user_id
        = UserService.get_tags db1 user_id) /\
     (forall tag,
        NoDup (Tag.name <$> User.tags user) ->
        let db1 := snd (UserService.create_tag db user_id tag) in
        fst (UserService.delete_tag db1 user_id (Tag.name tag)) = Some [tag] /\
        UserService.get_tags (snd (UserService.delete_tag db1 user_id (Tag.name tag)))
          user_id
        = filter (fun e => Tag.name e <> Tag.name tag) (User.tags user))).
Proof.
  split.
  - intros db user_id user (i & Hfind & Hid)%get_user_Some. split.
    + intros category_name db1. subst db1.
      unfold UserService.delete_category, UserService.get_categories.
      rewrite Hfind. simpl.
      rewrite (first_insert _ _ _ _ _ Hfind) by done. simpl.
      erewrite first_insert; [|by erewrite first_insert|done]. simpl.
      destruct (filter_twice_none (fun cat => Category.name cat = category_name)
                  (User.categories user)) as [-> ->]. done.
    + intros category Hnd db1. subst db1.
      unfold UserService.create_category, UserService.delete_category,
        UserService.get_categories.
      rewrite Hfind. simpl.
      rewrite (first_insert _ _ _ _ _ Hfind) by done. simpl.
      erewrite first_insert; [|by erewrite first_insert|done]. simpl.
      rewrite upsert_category_kept. split; [|done]. f_equal.
      by apply (upsert_keyed Category.name _ _ category (upsert_category_keyed _ _)).
  - intros db user_id user (i & Hfind & Hid)%get_user_Some. split.
    + intros tag_name db1. subst db1.
      unfold UserService.delete_tag, UserService.get_tags.
      rewrite Hfind. simpl.
      rewrite (first_insert _ _ _ _ _ Hfind) by done. simpl.
      erewrite first_insert; [|by erewrite first_insert|done]. simpl.
      destruct (filter_twice_none (fun tag => Tag.name tag = tag_name)
                  (User.tags user)) as [-> ->]. done.
    + intros tag Hnd db1. subst db1.
      unfold UserService.create_tag, UserService.delete_tag, UserService.get_tags.
      rewrite Hfind. simpl.
      rewrite (first_insert _ _ _ _ _ Hfind) by done. simpl.
      erewrite first_insert; [|by erewrite first_insert|done]. simpl.
      rewrite upsert_tag_kept. split; [|done]. f_equal.
      by apply (upsert_keyed Tag.name _ _ tag (upsert_tag_keyed _ _)).
Qed.

(** Alice upserts "Home" and deletes it again: her list is as before. *)
Lemma delete_after_witness :
  UserService.get_user Example.db 1 = Some Example.alice /\
  NoDup (Category.name <$> User.categories Example.alice) /\
  fst (UserService.delete_category
         (snd (UserService.create_category Example.db 1 Example.Home)) 1 (Py.lit "Home"))
  = Some [Example.Home] /\
  UserService.get_categories
    (snd (UserService.delete_category
            (snd (UserService.create_category Example.db 1 Example.Home)) 1 (Py.lit "Home")))
    1
  = [Example.General; Example.Work].
Proof.
  assert (NoDup (Category.name <$> User.categories Example.alice)) as Hnd by compute_done.
  split; [reflexivity|]. split; [exact Hnd|].
  destruct (proj2 (proj1 delete_after Example.db 1 Example.alice eq_refl) Example.Home Hnd)
    as [Hdel Hkept].
  split; [exact Hdel|]. etransitivity; [exact Hkept|]. by vm_compute.
Defined.

(* ===================================================================== *)
(** ** The JSON store: removal is local *)
(* ===================================================================== *)

Lemma find_filter_implied {A : Type} (P Q : A -> Prop) `{!forall x, Decision (P x)}
    `{!forall x, Decision (Q x)} (l : list A) :
  (forall x, P x -> Q x) ->
  snd <$> list_find P (filter Q l) = snd <$> list_find P l.
Proof.
  intros HPQ. induction l as [|a l IH]; [done|].
  rewrite filter_cons. destruct (decide (Q a)) as [Hq|Hq]; simpl.
  - case_decide; [done|].
    destruct (list_find P (filter Q l)) as [[? ?]|], (list_find P l) as [[? ?]|];
      simpl in *; congruence.
  - rewrite decide_False by (intros Hp; by apply Hq, HPQ).
    destruct (list_find P (filter Q l)) as [[? ?]|], (list_find P l) as [[? ?]|];
      simpl in *; congruence.
Qed.

Lemma filter_length_all {A : Type} (P : A -> Prop) `{!forall x, Decision (P x)}
    (l : list A) :
  length (filter P l) = length l -> filter P l = l.
Proof.
  induction l as [|a l IH]; [done|]. rewrite filter_cons.
  pose proof (length_filter P l). destruct (decide (P a)); simpl; intros Hlen.
  - f_equal. apply IH. lia.
  - lia.
Qed.

(** [TaskServiceJson.remove_task] for an owner and a task id leaves in the
    file, in their order, exactly the objects that are of another owner or
    of another id; it answers [True] exactly when the file had an object
    of that owner and id; and [get_task] answers for every other pair of
    owner and task id as before. *)
Theorem json_remove_is_local (tasks : list JsonTask.t) (owner_id task_id : Z) :
  snd (TaskServiceJson.remove_task tasks owner_id task_id)
  = filter (fun t => ~ TaskServiceJson.matches owner_id task_id t) tasks /\
  (fst (TaskServiceJson.remove_task tasks owner_id task_id) = true <->
   Exists (TaskServiceJson.matches owner_id task_id) tasks) /\
  forall owner_id' task_id',
    (owner_id', task_id') <> (owner_id, task_id) ->
    TaskServiceJson.get_task (snd (TaskServiceJson.remove_task tasks owner_id task_id))
      owner_id' task_id'
    = TaskServiceJson.get_task tasks owner_id' task_id'.
Proof.
  assert (snd (TaskServiceJson.remove_task tasks owner_id task_id)
          = filter (fun t => ~ TaskServiceJson.matches owner_id task_id t) tasks) as Hsnd.
  { unfold TaskServiceJson.remove_task. case_decide as Hlen; simpl; [|done].
    symmetry. by apply filter_length_all. }
  split; [exact Hsnd|]. split.
  - unfold TaskServiceJson.remove_task. case_decide as Hlen; simpl.
    + split; [done|]. intros (t & Ht & Hm)%Exists_exists.
      pose proof (length_filter_lt (fun t => ~ TaskServiceJson.matches owner_id task_id t)
                    tasks t Ht) as Hlt.
      specialize (Hlt ltac:(by intros Hn)). lia.
    + split; [|done]. intros _.
      destruct (decide (Exists (TaskServiceJson.matches owner_id task_id) tasks))
        as [|Hno]; [done|].
      apply not_Exists_Forall in Hno; [|apply _].
      destruct Hlen. f_equal. by apply filter_all.
  - intros owner_id' task_id' Hne. rewrite Hsnd. unfold TaskServiceJson.get_task.
    apply find_filter_implied. intros t [Hid Ho] [Hm Hmo].
    rewrite Hid in Hm. congruence.
Qed.

(** Alice's task 1 leaves the file; Bob's task 2 is found as before. *)
Example json_remove_is_local_example :
  TaskServiceJson.get_task (snd (TaskServiceJson.remove_task Example.store 1 1)) 2 2
  = Some (Example.json_row Example.groceries).
Proof. reflexivity. Qed.

(* ===================================================================== *)
(** ** The orchestrator *)
(* ===================================================================== *)

(** [Orchestrator.login] returns the user of the name when there is one.
    When there is none it raises, and no user is created: the model is
    built from the keyword [name], which [UserCreate] does not have, and
    without [username] and [password], which it requires.  Either way the
    database is as it was. *)
Theorem login_creates_nobody (db : Db.t) (name : str) :
  snd (Orchestrator.login db name) = db /\
  match UserService.get_user_by_username db name with
  | Some user => fst (Orchestrator.login db name) = Return user
  | None => exists e, fst (Orchestrator.login db name) = Raise e
  end.
Proof.
  unfold Orchestrator.login.
  destruct (UserService.get_user_by_username db name); simpl; [done|].
  split; [done|]. by eexists.
Qed.

(* ===================================================================== *)
(** ** The category routes *)
(* ===================================================================== *)

Lemma traverse_fixed {A : Type} (f : A -> result A) (l : list A) :
  Forall (fun x => f x = Return x) l -> traverse f l = Return l.
Proof.
  induction 1 as [|x l Hx _ IH]; simpl; [done|]. by rewrite Hx, IH.
Qed.

Lemma convert_categories_valid (l : list Category.t) :
  Forall Inv.category_valid l -> UserApi._convert_categories l = Return l.
Proof. apply traverse_fixed. Qed.

Lemma categories_valid_of (db : Db.t) (i : nat) (user : User.t) :
  Inv.categories_valid db -> Db.users db !! i = Some user ->
  Forall Inv.category_valid (User.categories user).
Proof.
  unfold Inv.categories_valid. rewrite Forall_lookup. intros Hv Hi. by apply (Hv i).
Qed.

Lemma upsert_category_valid (l : list Category.t) (c : Category.t) :
  Forall Inv.category_valid l -> Inv.category_valid c ->
  Forall Inv.category_valid (UserService.upsert_category l c).
Proof.
  intros Hl Hc. destruct (upsert_category_keyed l c) as [(i & old & _ & _ & ->) | [_ ->]].
  - by apply Forall_insert.
  - apply Forall_app. split; [done|]. by repeat constructor.
Qed.

(** Let every stored category be as its constructor would leave it, and
    let the user exist.  Then the three category routes answer without an
    error: [GET] returns the stored list as it is; [PUT], for a category
    that its constructor has built, returns it, and [GET] then lists it;
    [DELETE] returns the entries of that name as they were stored.  After
    [PUT] and after [DELETE] every stored category is still as its
    constructor would leave it. *)
Theorem category_routes (db : Db.t) (user_id : Z) (user : User.t) :
  Inv.categories_valid db ->
  UserService.get_user db user_id = Some user ->
  UserApi.get_user_categories db user_id = Return (User.categories user) /\
  (forall category,
     Inv.category_valid category ->
     exists db' l',
       UserApi.create_user_categories db user_id category = (Return category, db') /\
       Inv.categories_valid db' /\
       UserApi.get_user_categories db' user_id = Return l' /\
       category ∈ l') /\
  (forall category_name,
     exists db',
       UserApi.delete_user_category db user_id category_name
       = (Return (filter (fun c => Category.name c = category_name) (User.categories user)),
          db') /\
       Inv.categories_valid db' /\
       UserApi.get_user_categories db' user_id
       = Return (filter (fun c => Category.name c <> category_name) (User.categories user))).
Proof.
  intros Hv Hget. pose proof Hget as (i & Hfind & Hid)%get_user_Some.
  pose proof (first_lookup _ _ _ _ Hfind) as [Hi _].
  pose proof (categories_valid_of db i user Hv Hi) as Hvu.
  assert (forall l' : list Category.t,
            Forall Inv.category_valid l' ->
            let db' := Db.commit_users
                         (<[i := User.set_categories l' user]> (Db.users db)) db in
            Inv.categories_valid db' /\
            UserApi.get_user_categories db' user_id = Return l') as Hwrite.
  { intros l' Hl' db'. subst db'. split.
    - unfold Inv.categories_valid. simpl. by apply Forall_insert.
    - unfold UserApi.get_user_categories.
      rewrite (get_user_commit db user_id i user _ Hfind) by done. simpl.
      unfold UserService.get_categories. simpl. rewrite Hid.
      rewrite (first_insert _ _ _ _ (User.set_categories l' user) Hfind) by done.
      simpl. by rewrite convert_categories_valid. }
  split_and!.
  - unfold UserApi.get_user_categories, UserService.get_categories.
    rewrite Hget, Hid, Hfind. by rewrite convert_categories_valid.
  - intros category Hc.
    destruct (Hwrite (UserService.upsert_category (User.categories user) category))
      as [Hv' Hget']; [by apply upsert_category_valid|].
    eexists _, _. unfold UserApi.create_user_categories, UserService.create_category.
    rewrite Hfind. unfold Category.model_dump. rewrite Hc.
    split_and!; [done | exact Hv' | exact Hget' |].
    destruct (upsert_category_keyed (User.categories user) category)
      as [(k & old & Hk & _ & ->) | [_ ->]].
    + apply list_elem_of_insert. by eapply lookup_lt_Some.
    + apply elem_of_app. right. apply list_elem_of_here.
  - intros category_name.
    destruct (Hwrite (filter (fun c => Category.name c <> category_name)
                        (User.categories user))) as [Hv' Hget'].
    { apply Forall_forall. intros c [_ Hc]%list_elem_of_filter.
      rewrite Forall_forall in Hvu. by apply Hvu. }
    eexists. unfold UserApi.delete_user_category, UserService.delete_category.
    rewrite Hfind. rewrite convert_categories_valid.
    + split_and!; [done | exact Hv' | exact Hget'].
    + apply Forall_forall. intros c [_ Hc]%list_elem_of_filter.
      rewrite Forall_forall in Hvu. by apply Hvu.
Qed.

Lemma category_routes_witness :
  Inv.categories_valid Example.db /\
  UserApi.get_user_categories Example.db 1 = Return [Example.General; Example.Work] /\
  exists db',
    UserApi.delete_user_category Example.db 1 (Py.lit "Work")
    = (Return [Example.Work], db') /\
    UserApi.get_user_categories db' 1 = Return [Example.General].
Proof.
  assert (Inv.categories_valid Example.db) as Hv.
  { unfold Inv.categories_valid, Inv.category_valid. repeat constructor. }
  destruct (category_routes Example.db 1 Example.alice Hv eq_refl) as (Hget & _ & Hdel).
  split; [exact Hv|]. split; [exact Hget|].
  destruct (Hdel (Py.lit "Work")) as (db' & Hret & _ & Hget').
  exists db'. split; [exact Hret | exact Hget'].
Defined.

(** A stored category with a blank name, which only a direct call of the
    service can leave behind, makes the route that lists them answer
    500. *)
Example get_user_categories_500 :
  exists detail,
    UserApi.get_user_categories
      (snd (UserService.create_category Example.db 2
              {| Category.name := Py.lit " "; Category.color := [] |})) 2
    = Raise (HTTPException 500 detail).
Proof. eexists. by vm_compute. Qed.
